(** * pybindingcurve: the [BindingCurve] plot accumulator and parameter fitter

    A shallow embedding of [pybindingcurve/pybindingcurve.py].  Python
    objects that the code mutates or shares (parameter dictionaries, lmfit
    [Parameter] objects, [BindingCurve] instances) live in an explicit
    store; the class attribute [curves] is one list shared by every
    instance; [print] appends to a console log; an uncaught Python
    exception and the "print a message and return None" idiom are two
    distinct outcomes.  Numbers are IEEE binary64 floats, as in CPython
    and numpy. *)

From Stdlib Require Import PrimFloat.
From stdpp Require Import base option list strings sorting pretty.

Open Scope string_scope.

(** ** Python values, dictionaries and outcomes *)

Module Py.

(** Addresses of objects in the store. *)
Abbreviation loc := nat.

(** The values a parameter dictionary holds.  [R] is what stands for an
    lmfit [Parameter]: an address in a stored dictionary, the object's
    contents in the view handed to a binding system. *)
Inductive value (R : Type) : Type :=
| VNone
| VFloat (f : float)
| VArray (a : list float)        (* numpy.ndarray, one-dimensional *)
| VList (l : list float)         (* Python list *)
| VParameter (r : R).            (* lmfit.parameter.Parameter *)
Arguments VNone {R}.
Arguments VFloat {R} f.
Arguments VArray {R} a.
Arguments VList {R} l.
Arguments VParameter {R} r.

(** A [dict]: insertion ordered, as in Python 3.7 and later. *)
Definition dict (R : Type) := list (string * value R).

End Py.
Import Py.

Module Dict.

Definition keys {V : Type} (d : list (string * V)) : list string := d.*1.

Fixpoint get {V : Type} (k : string) (d : list (string * V)) : option V :=
  match d with
  | [] => None
  | (k', v) :: d' => if decide (k = k') then Some v else get k d'
  end.

(** [d[k] = v]: an existing key keeps its position, a new key goes last. *)
Fixpoint set {V : Type} (k : string) (v : V) (d : list (string * V))
  : list (string * V) :=
  match d with
  | [] => [(k, v)]
  | (k', v') :: d' =>
      if decide (k = k') then (k, v) :: d' else (k', v') :: set k v d'
  end.

End Dict.

Module Builtins.

(** Python's [str(list_of_str)], as [print] shows a list. *)
Definition repr_list (l : list string) : string :=
  "[" ++ String.concat ", " ((fun s => "'" ++ s ++ "'") <$> l) ++ "]".

(** ASCII case mapping of [str.lower] and [str.upper]. *)
Definition lower_ascii (c : Ascii.ascii) : Ascii.ascii :=
  let n := Ascii.nat_of_ascii c in
  if (65 <=? n)%nat && (n <=? 90)%nat then Ascii.ascii_of_nat (n + 32) else c.
Definition upper_ascii (c : Ascii.ascii) : Ascii.ascii :=
  let n := Ascii.nat_of_ascii c in
  if (97 <=? n)%nat && (n <=? 122)%nat then Ascii.ascii_of_nat (n - 32) else c.
Fixpoint smap (f : Ascii.ascii -> Ascii.ascii) (s : string) : string :=
  match s with
  | EmptyString => EmptyString
  | String c s' => String (f c) (smap f s')
  end.
Definition lower : string -> string := smap lower_ascii.
Definition upper : string -> string := smap upper_ascii.

(** The order of [sorted] on [str]: lexicographic on code units. *)
Definition str_le (a b : string) : Prop := String.leb a b = true.
#[global] Instance str_le_dec a b : Decision (str_le a b).
Proof. unfold str_le. apply _. Defined.

Definition sorted (l : list string) : list string := merge_sort str_le l.

End Builtins.

Module Err.

Inductive Exception : Type :=
| TypeError | IndexError | KeyError | ValueError | AttributeError | OSError
| MinimizerError (msg : string).

(** The diagnostics of the code, named as the specification's error
    taxonomy names them.  Each is a [print] followed by [return None]. *)
Inductive Diagnostic : Type :=
| NoSystemConfigured
| InvalidSweepSpecification
| MissingReadout
| NothingToFit
| MissingParameters (names : list string).

(** The lines each diagnostic prints, from the source. *)
Definition message (d : Diagnostic) : list string :=
  match d with
  | NoSystemConfigured => ["No system defined, could not proceed"]
  | InvalidSweepSpecification =>
      ["Must have 1 changing parameter, no curves added."]
  | MissingReadout => ["Must supply a readout"]
  | NothingToFit =>
      ["Nothing to fit, insert parameters to fit into to_fit dictionary"]
  | MissingParameters names =>
      ["Not all system parameters included in system_parameters or to_fit dictionaries, check all variables for the used equation are included";
       "Missing variables are:  " ++ Builtins.repr_list names]
  end.

(** How a call ends. *)
Inductive outcome (A : Type) : Type :=
| Returned (a : A)
| Reported (d : Diagnostic)      (* message printed, [None] returned *)
| Raised (e : Exception)         (* uncaught exception *)
| Diverged.                      (* the external minimizer never came back *)
Arguments Returned {A} a.
Arguments Reported {A} d.
Arguments Raised {A} e.
Arguments Diverged {A}.

End Err.
Import Err.

(** ** numpy *)

Module Np.

(** A number or a one-dimensional array: what a query returns. *)
Inductive ndvalue : Type :=
| Scalar (f : float)
| Array (a : list float).

(** [np.fmin], [np.fmax]: the other operand wins over a NaN. *)
Definition fmin (a b : float) : float :=
  if PrimFloat.leb a b || PrimFloat.is_nan b then a else b.
Definition fmax (a b : float) : float :=
  if PrimFloat.leb b a || PrimFloat.is_nan b then a else b.

(** [np.nanmin], [np.nanmax] of a sequence; an empty one is a
    [ValueError]. *)
Definition nanmin (l : list float) : option float :=
  match l with
  | [] => None
  | x :: xs => Some (fold_left fmin xs x)
  end.
Definition nanmax (l : list float) : option float :=
  match l with
  | [] => None
  | x :: xs => Some (fold_left fmax xs x)
  end.

Definition nanmin_nd (v : ndvalue) : option float :=
  match v with
  | Scalar f => Some f
  | Array a => nanmin a
  end.
Definition nanmax_nd (v : ndvalue) : option float :=
  match v with
  | Scalar f => Some f
  | Array a => nanmax a
  end.

(** [v - y] for [y] a one-dimensional array, with numpy's broadcasting;
    [None] is the [ValueError] of incompatible shapes. *)
Definition sub (v : ndvalue) (y : list float) : option ndvalue :=
  match v with
  | Scalar f => Some (Array ((fun b => PrimFloat.sub f b) <$> y))
  | Array a =>
      if decide (length a = length y)
      then Some (Array (zip_with PrimFloat.sub a y))
      else match a, y with
           | [x], _ => Some (Array ((fun b => PrimFloat.sub x b) <$> y))
           | _, [b] => Some (Array ((fun x => PrimFloat.sub x b) <$> a))
           | _, _ => None
           end
  end.

End Np.
Import Np.

(** ** lmfit: parameters *)

Module Lmfit.

(** An [lmfit.Parameter]: current value, bounds, and the standard error
    that is known only after a fit (and not always then). *)
Record Param : Type := {
  value : float;
  min : float;
  max : float;
  stderr : option float
}.

Definition with_value (v : float) (p : Param) : Param :=
  {| value := v; min := min p; max := max p; stderr := stderr p |}.
Definition with_result (v : float) (e : option float) (p : Param)
  : Param :=
  {| value := v; min := min p; max := max p; stderr := e |}.

End Lmfit.

(** ** The binding system, an external capability

    The equation systems are not part of this file of the repository: a
    system is taken as given, with its flag, its argument names and its
    query method, which has one signature or the other. *)

Inductive query_result : Type :=
| QOk (v : ndvalue)
| QRaise (e : Exception).

Inductive QueryMethod : Type :=
| QueryParameters (f : dict Lmfit.Param -> query_result)
| QueryParametersReadout
    (f : dict Lmfit.Param -> option string -> query_result).

Record BindingSystem : Type := {
  analytical : bool;
  arguments : list string;
  query : QueryMethod
}.

(** [system.query(parameters)] *)
Definition query1 (s : BindingSystem) (p : dict Lmfit.Param)
  : query_result :=
  match query s with
  | QueryParameters f => f p
  | QueryParametersReadout _ => QRaise TypeError
  end.

(** [system.query(parameters, readout)] *)
Definition query2 (s : BindingSystem) (p : dict Lmfit.Param)
  (readout : option string) : query_result :=
  match query s with
  | QueryParameters _ => QRaise TypeError
  | QueryParametersReadout f => f p readout
  end.

(** ** matplotlib, as a record of what it was asked to draw *)

Module Plt.

Record Line : Type := {
  line_x : list float;
  line_y : ndvalue;
  line_fmt : string;
  line_label : string
}.

Inductive Scale : Type := Linear | Log.

Record Axes : Type := {
  grid : bool;
  xlim : float * float;
  ylim : float * float;
  lines : list Line;
  xscale : Scale;
  yscale : Scale;
  xlabel : string;
  ylabel : string;
  title : string;
  legend : bool
}.

(** The axes of a new figure. *)
Definition new_axes : Axes :=
  {| grid := false; xlim := (0, 1)%float; ylim := (0, 1)%float;
     lines := []; xscale := Linear; yscale := Linear;
     xlabel := EmptyString; ylabel := EmptyString; title := EmptyString; legend := false |}.

Definition set_grid (g : bool) (a : Axes) : Axes :=
  {| grid := g; xlim := xlim a; ylim := ylim a; lines := lines a;
     xscale := xscale a; yscale := yscale a;
     xlabel := xlabel a; ylabel := ylabel a; title := title a;
     legend := legend a |}.
Definition set_xlim (lo hi : float) (a : Axes) : Axes :=
  {| grid := grid a; xlim := (lo, hi); ylim := ylim a; lines := lines a;
     xscale := xscale a; yscale := yscale a;
     xlabel := xlabel a; ylabel := ylabel a; title := title a;
     legend := legend a |}.
Definition set_ylim (lo hi : float) (a : Axes) : Axes :=
  {| grid := grid a; xlim := xlim a; ylim := (lo, hi); lines := lines a;
     xscale := xscale a; yscale := yscale a;
     xlabel := xlabel a; ylabel := ylabel a; title := title a;
     legend := legend a |}.
Definition add_line (l : Line) (a : Axes) : Axes :=
  {| grid := grid a; xlim := xlim a; ylim := ylim a;
     lines := lines a ++ [l];
     xscale := xscale a; yscale := yscale a;
     xlabel := xlabel a; ylabel := ylabel a; title := title a;
     legend := legend a |}.
Definition set_xscale (s : Scale) (a : Axes) : Axes :=
  {| grid := grid a; xlim := xlim a; ylim := ylim a; lines := lines a;
     xscale := s; yscale := yscale a;
     xlabel := xlabel a; ylabel := ylabel a; title := title a;
     legend := legend a |}.
Definition set_xlabel (s : string) (a : Axes) : Axes :=
  {| grid := grid a; xlim := xlim a; ylim := ylim a; lines := lines a;
     xscale := xscale a; yscale := yscale a;
     xlabel := s; ylabel := ylabel a; title := title a;
     legend := legend a |}.
Definition set_ylabel (s : string) (a : Axes) : Axes :=
  {| grid := grid a; xlim := xlim a; ylim := ylim a; lines := lines a;
     xscale := xscale a; yscale := yscale a;
     xlabel := xlabel a; ylabel := s; title := title a;
     legend := legend a |}.
Definition set_title (s : string) (a : Axes) : Axes :=
  {| grid := grid a; xlim := xlim a; ylim := ylim a; lines := lines a;
     xscale := xscale a; yscale := yscale a;
     xlabel := xlabel a; ylabel := ylabel a; title := s;
     legend := legend a |}.
Definition set_legend (a : Axes) : Axes :=
  {| grid := grid a; xlim := xlim a; ylim := ylim a; lines := lines a;
     xscale := xscale a; yscale := yscale a;
     xlabel := xlabel a; ylabel := ylabel a; title := title a;
     legend := true |}.

(** [plot(x, y, ...)] refuses x and y of different lengths. *)
Definition plottable (x : list float) (y : ndvalue) : bool :=
  match y with
  | Scalar _ => bool_decide (length x = 1)
  | Array a => bool_decide (length x = length a)
  end.

(** What pyplot does outside the axes. *)
Inductive Event : Type :=
| Subplots
| TightLayout
| Savefig (filename : string)
| ShowFigure.

End Plt.

(** ** The store and the call monad *)

(** [_Curve]: x and y coordinates and a series name. *)
Record _Curve : Type := {
  xcoords : list float;
  ycoords : ndvalue;
  name : string
}.

(** The attributes of a [BindingCurve] instance.  The class gives each its
    default; every method that changes one rebinds it on the instance.
    [curves] is not among them: no method ever rebinds it, so
    [self.curves] is always the list held by the class (see [World]). *)
Record BindingCurve : Type := {
  system : option BindingSystem;
  fig : option unit;
  axes : option Plt.Axes;
  _min_x_axis : float;
  _max_x_axis : float;
  _min_y_axis : float;
  _max_y_axis : float;
  _num_added_traces : nat;
  _last_known_changing_parameter : string;
  _last_known_readout : option string
}.

Inductive object : Type :=
| ODict (d : dict loc)
| OParam (p : Lmfit.Param)
| OBindingCurve (b : BindingCurve).

Record World : Type := {
  heap : list object;
  curves : list _Curve;           (* the class attribute [BindingCurve.curves] *)
  stdout : list string;
  pyplot : list Plt.Event;
  minimize_calls : nat            (* runs of the external minimizer *)
}.

Definition with_heap (h : list object) (w : World) : World :=
  {| heap := h; curves := curves w; stdout := stdout w; pyplot := pyplot w;
     minimize_calls := minimize_calls w |}.
Definition with_curves (c : list _Curve) (w : World) : World :=
  {| heap := heap w; curves := c; stdout := stdout w; pyplot := pyplot w;
     minimize_calls := minimize_calls w |}.
Definition with_stdout (s : list string) (w : World) : World :=
  {| heap := heap w; curves := curves w; stdout := s; pyplot := pyplot w;
     minimize_calls := minimize_calls w |}.
Definition with_pyplot (p : list Plt.Event) (w : World) : World :=
  {| heap := heap w; curves := curves w; stdout := stdout w; pyplot := p;
     minimize_calls := minimize_calls w |}.
Definition with_minimize_calls (n : nat) (w : World) : World :=
  {| heap := heap w; curves := curves w; stdout := stdout w;
     pyplot := pyplot w; minimize_calls := n |}.

Definition M (A : Type) : Type := World -> outcome A * World.

Definition ret {A : Type} (a : A) : M A := fun w => (Returned a, w).

Definition bind {A B : Type} (m : M A) (k : A -> M B) : M B :=
  fun w =>
    match m w with
    | (Returned a, w') => k a w'
    | (Reported d, w') => (Reported d, w')
    | (Raised e, w') => (Raised e, w')
    | (Diverged, w') => (Diverged, w')
    end.

Notation "'let*' x ':=' m 'in' k" := (bind m (fun x => k))
  (at level 10, x pattern, m at level 100, k at level 200).
Notation "m ';;' k" := (bind m (fun _ => k))
  (at level 100, k at level 200, right associativity).

Definition raise {A : Type} (e : Exception) : M A := fun w => (Raised e, w).

(** [print(...)] then [return None]. *)
Definition report {A : Type} (d : Diagnostic) : M A :=
  fun w => (Reported d, with_stdout (stdout w ++ message d) w).

Definition get_world : M World := fun w => (Returned w, w).
Definition modify (f : World -> World) : M unit := fun w => (Returned tt, f w).

Definition from_option {A : Type} (e : Exception) (o : option A) : M A :=
  match o with
  | Some a => ret a
  | None => raise e
  end.

Definition from_sum {A : Type} (r : Exception + A) : M A :=
  match r with
  | inr a => ret a
  | inl e => raise e
  end.

Definition from_query (r : query_result) : M ndvalue :=
  match r with
  | QOk v => ret v
  | QRaise e => raise e
  end.

(** A new object gets the next free address. *)
Definition alloc (o : object) : M loc :=
  fun w => (Returned (length (heap w)), with_heap (heap w ++ [o]) w).

Definition read_dict (l : loc) : M (dict loc) :=
  fun w =>
    match heap w !! l with
    | Some (ODict d) => (Returned d, w)
    | _ => (Raised TypeError, w)
    end.

Definition write_dict (l : loc) (d : dict loc) : M unit :=
  modify (fun w => with_heap (<[l := ODict d]> (heap w)) w).

Definition read_self (self : loc) : M BindingCurve :=
  fun w =>
    match heap w !! self with
    | Some (OBindingCurve b) => (Returned b, w)
    | _ => (Raised AttributeError, w)
    end.

Definition write_self (self : loc) (b : BindingCurve) : M unit :=
  modify (fun w => with_heap (<[self := OBindingCurve b]> (heap w)) w).

(** [self.attr = ...], [self.attr += ...] *)
Definition update_self (self : loc) (f : BindingCurve -> BindingCurve)
  : M unit :=
  let* b := read_self self in write_self self (f b).

(** What a binding system sees of a dictionary: the [Parameter] objects
    it refers to, as they are at the time of the call. *)
Definition view_value (h : list object) (v : value loc)
  : value Lmfit.Param :=
  match v with
  | VNone => VNone
  | VFloat f => VFloat f
  | VArray a => VArray a
  | VList l => VList l
  | VParameter r =>
      match h !! r with
      | Some (OParam p) => VParameter p
      | _ => VNone
      end
  end.

Definition view (h : list object) (d : dict loc) : dict Lmfit.Param :=
  prod_map id (view_value h) <$> d.

(** ** The class [BindingCurve] *)

(** The class-level defaults of the attributes. *)
Definition class_defaults : BindingCurve :=
  {| system := None; fig := None; axes := None;
     _min_x_axis := 0%float; _max_x_axis := 0%float;
     _min_y_axis := 0%float; _max_y_axis := 0%float;
     _num_added_traces := 0;
     _last_known_changing_parameter := "X";
     _last_known_readout := Some "Y" |}.

(** [plot_solution_colours]: the letters of ["krgbycmrgbycmrgby"]; the
    [np.linspace(0.1, 0.9, 0.05)] that follows asks for 0.05 samples and
    contributes none. *)
Definition plot_solution_colours : list string :=
  ["k"; "r"; "g"; "b"; "y"; "c"; "m"; "r"; "g"; "b"; "y"; "c"; "m"; "r";
   "g"; "b"; "y"].

Definition set_system (s : option BindingSystem) (b : BindingCurve)
  : BindingCurve :=
  {| system := s; fig := fig b; axes := axes b;
     _min_x_axis := _min_x_axis b; _max_x_axis := _max_x_axis b;
     _min_y_axis := _min_y_axis b; _max_y_axis := _max_y_axis b;
     _num_added_traces := _num_added_traces b;
     _last_known_changing_parameter := _last_known_changing_parameter b;
     _last_known_readout := _last_known_readout b |}.
Definition set_fig_axes (f : option unit) (a : option Plt.Axes)
  (b : BindingCurve) : BindingCurve :=
  {| system := system b; fig := f; axes := a;
     _min_x_axis := _min_x_axis b; _max_x_axis := _max_x_axis b;
     _min_y_axis := _min_y_axis b; _max_y_axis := _max_y_axis b;
     _num_added_traces := _num_added_traces b;
     _last_known_changing_parameter := _last_known_changing_parameter b;
     _last_known_readout := _last_known_readout b |}.
Definition set_axes (a : Plt.Axes) (b : BindingCurve) : BindingCurve :=
  set_fig_axes (fig b) (Some a) b.
Definition set_min_x_axis (v : float) (b : BindingCurve) : BindingCurve :=
  {| system := system b; fig := fig b; axes := axes b;
     _min_x_axis := v; _max_x_axis := _max_x_axis b;
     _min_y_axis := _min_y_axis b; _max_y_axis := _max_y_axis b;
     _num_added_traces := _num_added_traces b;
     _last_known_changing_parameter := _last_known_changing_parameter b;
     _last_known_readout := _last_known_readout b |}.
Definition set_max_x_axis (v : float) (b : BindingCurve) : BindingCurve :=
  {| system := system b; fig := fig b; axes := axes b;
     _min_x_axis := _min_x_axis b; _max_x_axis := v;
     _min_y_axis := _min_y_axis b; _max_y_axis := _max_y_axis b;
     _num_added_traces := _num_added_traces b;
     _last_known_changing_parameter := _last_known_changing_parameter b;
     _last_known_readout := _last_known_readout b |}.
Definition set_min_y_axis (v : float) (b : BindingCurve) : BindingCurve :=
  {| system := system b; fig := fig b; axes := axes b;
     _min_x_axis := _min_x_axis b; _max_x_axis := _max_x_axis b;
     _min_y_axis := v; _max_y_axis := _max_y_axis b;
     _num_added_traces := _num_added_traces b;
     _last_known_changing_parameter := _last_known_changing_parameter b;
     _last_known_readout := _last_known_readout b |}.
Definition set_max_y_axis (v : float) (b : BindingCurve) : BindingCurve :=
  {| system := system b; fig := fig b; axes := axes b;
     _min_x_axis := _min_x_axis b; _max_x_axis := _max_x_axis b;
     _min_y_axis := _min_y_axis b; _max_y_axis := v;
     _num_added_traces := _num_added_traces b;
     _last_known_changing_parameter := _last_known_changing_parameter b;
     _last_known_readout := _last_known_readout b |}.
Definition set_num_added_traces (n : nat) (b : BindingCurve)
  : BindingCurve :=
  {| system := system b; fig := fig b; axes := axes b;
     _min_x_axis := _min_x_axis b; _max_x_axis := _max_x_axis b;
     _min_y_axis := _min_y_axis b; _max_y_axis := _max_y_axis b;
     _num_added_traces := n;
     _last_known_changing_parameter := _last_known_changing_parameter b;
     _last_known_readout := _last_known_readout b |}.
Definition set_last_known_changing_parameter (s : string)
  (b : BindingCurve) : BindingCurve :=
  {| system := system b; fig := fig b; axes := axes b;
     _min_x_axis := _min_x_axis b; _max_x_axis := _max_x_axis b;
     _min_y_axis := _min_y_axis b; _max_y_axis := _max_y_axis b;
     _num_added_traces := _num_added_traces b;
     _last_known_changing_parameter := s;
     _last_known_readout := _last_known_readout b |}.
Definition set_last_known_readout (r : option string) (b : BindingCurve)
  : BindingCurve :=
  {| system := system b; fig := fig b; axes := axes b;
     _min_x_axis := _min_x_axis b; _max_x_axis := _max_x_axis b;
     _min_y_axis := _min_y_axis b; _max_y_axis := _max_y_axis b;
     _num_added_traces := _num_added_traces b;
     _last_known_changing_parameter := _last_known_changing_parameter b;
     _last_known_readout := r |}.

(** [__init__].  The table from names to the six built-in systems and the
    subclass test are resolved by the caller of this definition:
    [binding_system] is the system they select, [None] when they select
    none. *)
Definition __init__ (binding_system : option BindingSystem) : M loc :=
  let* self := alloc (OBindingCurve (set_system binding_system class_defaults)) in
  match binding_system with
  | Some _ => ret self
  | None =>
      modify (fun w => with_stdout (stdout w ++
        ["Invalid system specified, try one of: [simple, homodimer, competition, homdimer breaking]"]) w);;
      ret self
  end.

(** [self.curves]: no instance has an attribute of that name, so the
    lookup ends at the class, whichever instance [self] is. *)
Definition self_curves (self : loc) (w : World) : list _Curve := curves w.

(** [self.attr], when [self] is an accumulator. *)
Definition attribute {A : Type} (attr : BindingCurve -> A) (self : loc)
  (w : World) : option A :=
  match heap w !! self with
  | Some (OBindingCurve b) => Some (attr b)
  | _ => None
  end.

(** The dictionary at an address. *)
Definition dict_at (l : loc) (w : World) : option (dict loc) :=
  match heap w !! l with
  | Some (ODict d) => Some d
  | _ => None
  end.

(** [query].  The class defines it twice; the second definition, the one
    with [parameters] alone, replaces the first. *)
Definition BindingCurve_query (self : loc) (parameters : dict loc)
  : M ndvalue :=
  let* b := read_self self in
  let* sys := from_option AttributeError (system b) in
  if analytical sys
  then
    let* w := get_world in
    from_query (query1 sys (view (heap w) parameters))
  else report MissingReadout.

(** A value that is an [np.ndarray] or a [list]. *)
Definition is_sequence {R : Type} (v : option (value R)) : bool :=
  match v with
  | Some (VArray _) | Some (VList _) => true
  | _ => false
  end.

Definition sequence_items {R : Type} (v : value R) : option (list float) :=
  match v with
  | VArray a => Some a
  | VList l => Some l
  | _ => None
  end.

Definition _find_changing_parameters {R : Type} (params : dict R)
  : option (list string) :=
  let changing_list :=
    List.filter (fun p => is_sequence (Dict.get p params)) (Dict.keys params) in
  if (length changing_list =? 0)%nat then None else Some changing_list.

(** [self.axes.method(...)]: an [AttributeError] when there are no axes. *)
Definition on_axes (self : loc) (f : Plt.Axes -> Plt.Axes) : M unit :=
  let* b := read_self self in
  match axes b with
  | Some a => write_self self (set_axes (f a) b)
  | None => raise AttributeError
  end.

Definition _initialize_plot (self : loc) : M unit :=
  let* b := read_self self in
  match fig b with
  | None =>
      modify (fun w => with_pyplot (pyplot w ++ [Plt.Subplots]) w);;
      update_self self (set_fig_axes (Some tt) (Some Plt.new_axes));;
      on_axes self (Plt.set_grid true);;
      on_axes self (Plt.set_ylim 0 1);;
      modify (fun w => with_pyplot (pyplot w ++ [Plt.TightLayout]) w)
  | Some _ => ret tt
  end.

(** The world [_initialize_plot] leaves when [self] holds [b]. *)
Definition initialized (self : loc) (b : BindingCurve) (w : World) : World :=
  match fig b with
  | None =>
      with_pyplot (pyplot w ++ [Plt.Subplots; Plt.TightLayout])
        (with_heap
           (<[self := OBindingCurve
                (set_fig_axes (Some tt)
                   (Some (Plt.set_ylim 0 1 (Plt.set_grid true Plt.new_axes)))
                   b)]> (heap w)) w)
  | Some _ => w
  end.

Definition add_curve (self : loc) (parameters : dict loc)
  (readout : option string) (curve_name : option string) : M unit :=
  let* b := read_self self in
  match system b with
  | None => report NoSystemConfigured
  | Some sys =>
      _initialize_plot self;;
      let* changing_parameters :=
        (* [len(None)] when there is no changing parameter *)
        from_option TypeError (_find_changing_parameters parameters) in
      if negb (length changing_parameters =? 1)%nat
      then report InvalidSweepSpecification
      else
        let* w := get_world in
        let* y_values :=
          from_query
            (if negb (analytical sys)
             then query2 sys (view (heap w) parameters) readout
             else query1 sys (view (heap w) parameters)) in
        let* p0 := from_option IndexError (head changing_parameters) in
        let* x := from_option KeyError
                    (Dict.get p0 parameters ≫= sequence_items) in
        modify (fun w => with_curves (curves w ++
          [{| xcoords := x; ycoords := y_values; name := EmptyString |}]) w);;
        update_self self (set_last_known_changing_parameter p0);;
        update_self self (set_last_known_readout readout);;
        update_self self (fun b =>
          set_num_added_traces (_num_added_traces b + 1) b);;
        let* b := read_self self in
        let curve_name :=
          match curve_name with
          | Some n => n
          | None => "Curve " ++ pretty (_num_added_traces b)
          end in
        let* a := from_option AttributeError (axes b) in
        let* colour := from_option IndexError
                         (plot_solution_colours !! _num_added_traces b) in
        (if Plt.plottable x y_values
         then write_self self (set_axes (Plt.add_line
                {| Plt.line_x := x; Plt.line_y := y_values;
                   Plt.line_fmt := colour ++ "-";
                   Plt.line_label := curve_name |} a) b)
         else raise ValueError);;
        let* x_last := from_option IndexError (last x) in
        let* b := read_self self in
        let* m := from_option ValueError (nanmax [_max_x_axis b; x_last]) in
        update_self self (set_max_x_axis m);;
        let* x_first := from_option IndexError (head x) in
        let* b := read_self self in
        let* m := from_option ValueError (nanmin [_min_x_axis b; x_first]) in
        update_self self (set_min_x_axis m);;
        let* m := from_option ValueError (nanmin_nd y_values) in
        update_self self (set_min_y_axis m);;
        let* y_max := from_option ValueError (nanmax_nd y_values) in
        let* b := read_self self in
        let* m := from_option ValueError (nanmax [_max_y_axis b; y_max]) in
        update_self self (set_max_y_axis m)
  end.

(** The literal [1.1]: the binary64 number nearest to it. *)
Definition headroom : float := 0x1.199999999999ap+0%float.

Definition when (c : bool) (m : M unit) : M unit := if c then m else ret tt.

Definition for_some {A : Type} (o : option A) (f : A -> M unit) : M unit :=
  match o with
  | Some a => f a
  | None => ret tt
  end.

(** ** matplotlib: what it makes of its arguments, an external capability

    [set_xlim(lo, hi)] and [set_ylim(lo, hi)] refuse a limit that is NaN
    or infinite with a [ValueError].  The limits the axis has afterwards
    are matplotlib's to choose: it widens limits that coincide, or nearly
    so, and on a logarithmic axis it keeps the old limit in place of one
    that is not positive.  They are taken as given, as a function of the
    scale and the limits of the axis and of the two limits asked for.

    The keyword [nonposx] belongs to the X axis.  [set_xscale("log",
    nonposx='clip')] is accepted by the versions of matplotlib that know
    the keyword and an exception in the later ones; [set_yscale("log",
    nonposx='clip')] is an exception in all of them, a [ValueError] in
    some and a [TypeError] in others.

    The loops over [get_major_ticks()] make matplotlib work out the
    ticks of the two axes, which it cannot do for every axis: a
    logarithmic axis with a limit that is not positive and no positive
    data is a [ValueError].  They read [tick.label] of each tick, an
    attribute that the later versions of matplotlib no longer have, an
    [AttributeError] there.  [plt.savefig] and [plt.show] draw the
    current figure of pyplot and write a file or open a window, and may
    fail at either.  What these calls raise, if anything, is taken as
    given: for the ticks as a function of the axes, for the two others
    of the whole state. *)
Record Matplotlib : Type := {
  view_limits : Plt.Scale -> float * float -> float -> float
                -> float * float;
  log_x_keyword : option Exception;
  log_y_keyword : Exception;
  major_ticks : Plt.Axes -> option Exception;
  savefig : World -> string -> option Exception;
  show : World -> option Exception
}.

(** A call that raises what matplotlib raises, if anything. *)
Definition unless (o : option Exception) : M unit :=
  match o with
  | Some e => raise e
  | None => ret tt
  end.

Definition finite (x : float) : bool :=
  negb (PrimFloat.is_nan x) && negb (PrimFloat.is_infinity x).

(** A call on [self.axes] that matplotlib refuses with [e]. *)
Definition refuse (self : loc) (e : Exception) : M unit :=
  let* b := read_self self in
  let* _ := from_option AttributeError (axes b) in
  raise e.

(** [self.axes.set_ylim(lo, hi)] *)
Definition axes_set_ylim (mpl : Matplotlib) (self : loc) (lo hi : float)
  : M unit :=
  if finite lo && finite hi
  then on_axes self (fun a =>
         let l := view_limits mpl (Plt.yscale a) (Plt.ylim a) lo hi in
         Plt.set_ylim l.1 l.2 a)
  else refuse self ValueError.

(** [self.axes.set_xlim(lo, hi)] *)
Definition axes_set_xlim (mpl : Matplotlib) (self : loc) (lo hi : float)
  : M unit :=
  if finite lo && finite hi
  then on_axes self (fun a =>
         let l := view_limits mpl (Plt.xscale a) (Plt.xlim a) lo hi in
         Plt.set_xlim l.1 l.2 a)
  else refuse self ValueError.

(** [plt.savefig(filename, ...)] *)
Definition pyplot_savefig (mpl : Matplotlib) (filename : string) : M unit :=
  let* w := get_world in
  unless (savefig mpl w filename);;
  modify (fun w => with_pyplot (pyplot w ++ [Plt.Savefig filename]) w).

(** [plt.show()] *)
Definition pyplot_show (mpl : Matplotlib) : M unit :=
  let* w := get_world in
  unless (show mpl w);;
  modify (fun w => with_pyplot (pyplot w ++ [Plt.ShowFigure]) w).

(** [show_plot], with the style dictionary of the module, which has
    every key that is looked up; the fonts, sizes and paddings it gives
    are left out. *)
Definition show_plot (mpl : Matplotlib) (self : loc) (title : string)
  (xlabel ylabel : option string) (min_x max_x min_y max_y : option float)
  (log_x_axis log_y_axis : bool) (png_filename svg_filename : option string)
  (show_legend : bool) : M unit :=
  for_some min_x (fun v => update_self self (set_min_x_axis v));;
  for_some max_x (fun v => update_self self (set_max_x_axis v));;
  for_some min_y (fun v => update_self self (set_min_y_axis v));;
  for_some max_y (fun v => update_self self (set_max_y_axis v));;
  let* b := read_self self in
  match max_y with
  | None => axes_set_ylim mpl self (_min_y_axis b)
              (PrimFloat.mul (_max_y_axis b) headroom)
  | Some _ => axes_set_ylim mpl self (_min_y_axis b) (_max_y_axis b)
  end;;
  axes_set_xlim mpl self (_min_x_axis b) (_max_x_axis b);;
  (* [set_xscale("log", nonposx='clip')] *)
  when log_x_axis
    match log_x_keyword mpl with
    | None => on_axes self (Plt.set_xscale Plt.Log)
    | Some e => refuse self e
    end;;
  (* [set_yscale("log", nonposx='clip')] *)
  when log_y_axis (refuse self (log_y_keyword mpl));;
  match xlabel with
  | None => on_axes self (Plt.set_xlabel
              ("[" ++ Builtins.upper (_last_known_changing_parameter b) ++ "]"))
  | Some l => on_axes self (Plt.set_xlabel l)
  end;;
  match ylabel with
  | None =>
      let* r := from_option AttributeError (_last_known_readout b) in
      on_axes self (Plt.set_ylabel ("[" ++ Builtins.upper r ++ "]"))
  | Some l => on_axes self (Plt.set_ylabel l)
  end;;
  on_axes self (Plt.set_title title);;
  when show_legend (on_axes self Plt.set_legend);;
  (* the loops over [get_major_ticks()] of the two axes *)
  (let* b := read_self self in
   let* a := from_option AttributeError (axes b) in
   unless (major_ticks mpl a));;
  for_some png_filename (fun f => pyplot_savefig mpl f);;
  for_some svg_filename (fun f => pyplot_savefig mpl f);;
  pyplot_show mpl.

(** ** lmfit: parameters and the minimizer, an external capability

    [params.add(name, value=v, min=lo, max=hi)] makes a [Parameter], or
    raises: lmfit refuses a name that is no identifier and bounds that
    coincide, and what it makes has the bounds in order and the value
    within them.  Which names and bounds it refuses, and what it makes of
    the others, is its own business and is taken as given.

    [Minimizer(userfcn, params, fcn_args).minimize()] works on its own
    deep copy of [params], repeatedly sets trial values in it and calls
    [userfcn] with it, and ends by storing the best values and their
    standard errors in it.  What it tries next is its own business: it is
    taken as given, as a function of the starting parameters and of the
    residuals it has seen. *)

Inductive Step : Type :=
| Evaluate (trial : list (string * float))
| Converged (final : list (string * (float * option float)))
| Stopped (e : Exception).

Record Minimizer : Type := {
  add : string -> float -> float -> float -> Exception + Lmfit.Param;
  next_step : list (string * Lmfit.Param) -> list ndvalue -> Step
}.

(** An [lmfit.Parameters] whose [Parameter] objects are in the store. *)
Definition Parameters := list (string * loc).

Fixpoint for_each {A : Type} (l : list A) (f : A -> M unit) : M unit :=
  match l with
  | [] => ret tt
  | a :: l' => f a;; for_each l' f
  end.

Definition update_param (r : loc) (f : Lmfit.Param -> Lmfit.Param) : M unit :=
  fun w =>
    match heap w !! r with
    | Some (OParam p) =>
        (Returned tt, with_heap (<[r := OParam (f p)]> (heap w)) w)
    | _ => (Raised TypeError, w)
    end.

Fixpoint deepcopy (params : list (string * Lmfit.Param)) : M Parameters :=
  match params with
  | [] => ret []
  | (n, p) :: params' =>
      let* r := alloc (OParam p) in
      let* rest := deepcopy params' in
      ret ((n, r) :: rest)
  end.

Definition set_trial (working : Parameters) (trial : list (string * float))
  : M unit :=
  for_each working (fun '(n, r) =>
    for_some (Dict.get n trial) (fun v =>
      update_param r (Lmfit.with_value v))).

Definition set_final (working : Parameters)
  (final : list (string * (float * option float))) : M unit :=
  for_each working (fun '(n, r) =>
    for_some (Dict.get n final) (fun ve =>
      update_param r (Lmfit.with_result ve.1 ve.2))).

Fixpoint iterate (mz : Minimizer) (userfcn : Parameters -> M ndvalue)
  (start : list (string * Lmfit.Param)) (working : Parameters)
  (seen : list ndvalue) (fuel : nat) : M unit :=
  match fuel with
  | 0 => fun w => (Diverged, w)
  | S fuel' =>
      match next_step mz start seen with
      | Evaluate trial =>
          set_trial working trial;;
          let* r := userfcn working in
          iterate mz userfcn start working (seen ++ [r]) fuel'
      | Converged final => set_final working final
      | Stopped e => raise e
      end
  end.

(** [minimize()]; the result's [params] is the working copy. *)
Definition minimize (mz : Minimizer) (fuel : nat)
  (userfcn : Parameters -> M ndvalue) (params : list (string * Lmfit.Param))
  : M Parameters :=
  modify (fun w => with_minimize_calls (minimize_calls w + 1) w);;
  let* working := deepcopy params in
  iterate mz userfcn params working [] fuel;;
  ret working.

(** ** Fitting *)

(** [for value in params: system_parameters[value] = params[value]] *)
Definition overlay (params : Parameters) (d : dict loc) : dict loc :=
  fold_left (fun d '(value, r) => Dict.set value (VParameter r) d) params d.

Definition _residual (self : loc) (params : Parameters)
  (system_parameters : loc) (to_fit : list (string * float))
  (y : list float) (readout : option string) : M ndvalue :=
  let* d := read_dict system_parameters in
  write_dict system_parameters (overlay params d);;
  let* b := read_self self in
  let* sys := from_option AttributeError (system b) in
  let* d := read_dict system_parameters in
  let* w := get_world in
  if negb (analytical sys)
  then
    let* v := from_query (query2 sys (view (heap w) d) readout) in
    from_option ValueError (Np.sub v y)
  else
    let* v := from_query (query1 sys (view (heap w) d)) in
    from_option ValueError (Np.sub v y).

(** [missing]: the arguments of the system that neither dictionary names,
    each once, sorted.  Python leaves the order of a set's elements open;
    sorting distinct names settles it. *)
Definition missing_arguments (arguments given : list string) : list string :=
  Builtins.sorted (remove_dups (list_difference arguments given)).

(** [params.add(varname, value=to_fit[varname], min=bnd_min,
    max=bnd_max)]: the bounds are those given for [varname], or minus
    and plus infinity. *)
Definition new_param (mz : Minimizer)
  (bounds : list (string * (float * float)))
  (varname : string) (guess : float) : Exception + Lmfit.Param :=
  match Dict.get varname bounds with
  | Some (lo, hi) => add mz varname guess lo hi
  | None => add mz varname guess neg_infinity infinity
  end.

(** The [lmfit.Parameters] that [fit] builds, one [params.add] for each
    entry of [to_fit], in the order of its keys; the first [params.add]
    that raises ends the loop. *)
Fixpoint initial_params (mz : Minimizer)
  (bounds : list (string * (float * float)))
  (to_fit : list (string * float))
  : Exception + list (string * Lmfit.Param) :=
  match to_fit with
  | [] => inr []
  | (varname, guess) :: to_fit' =>
      match new_param mz bounds varname guess with
      | inl e => inl e
      | inr p =>
          match initial_params mz bounds to_fit' with
          | inl e => inl e
          | inr params => inr ((varname, p) :: params)
          end
      end
  end.

(** [x.value] where [x] is a [Parameter], anything else stays. *)
Definition value_of (h : list object) (v : value loc) : value loc :=
  match v with
  | VParameter r =>
      match h !! r with
      | Some (OParam p) => VFloat (Lmfit.value p)
      | _ => v
      end
  | _ => v
  end.

Definition fit (mz : Minimizer) (fuel : nat) (self : loc)
  (system_parameters : loc) (to_fit : list (string * float))
  (ycoords : list float) (x_parameter y_parameter : string)
  (bounds : option (list (string * (float * float))))
  : M (loc * list (string * option float)) :=
  let y_parameter := Builtins.lower y_parameter in
  let* d := read_dict system_parameters in
  let* system_parameters_copy := alloc (ODict d) in
  if (length (Dict.keys to_fit) =? 0)%nat then report NothingToFit
  else
    let* b := read_self self in
    let* sys := from_option AttributeError (system b) in
    let* copy := read_dict system_parameters_copy in
    let missing :=
      missing_arguments (arguments sys) (Dict.keys copy ++ Dict.keys to_fit) in
    if (0 <? length missing)%nat then report (MissingParameters missing)
    else
      let bounds := default [] bounds in
      let* params := from_sum (initial_params mz bounds to_fit) in
      let* result :=
        minimize mz fuel
          (fun p => _residual self p system_parameters_copy to_fit ycoords
                      (Some y_parameter))
          params in
      (* every [Parameter] left in the copy gives way to its [value] *)
      let* copy := read_dict system_parameters_copy in
      let* w := get_world in
      write_dict system_parameters_copy
        (prod_map id (value_of (heap w)) <$> copy);;
      let* w := get_world in
      ret (system_parameters_copy,
           (fun '(p, r) =>
              (p, match heap w !! r with
                  | Some (OParam q) => Lmfit.stderr q
                  | _ => None
                  end)) <$> result).

(** ** Sample systems, minimizer and worlds, for concrete runs *)

Module Sample.

(** A custom analytical system: the prediction is the swept ["l"]. *)
Definition echo (p : dict Lmfit.Param) : query_result :=
  match Dict.get "l" p ≫= sequence_items with
  | Some a => QOk (Array a)
  | None => QRaise KeyError
  end.

Definition analytical_system : BindingSystem :=
  {| analytical := true; arguments := ["p"; "l"; "kd"];
     query := QueryParameters echo |}.

(** Its counterpart with a readout, which it does not look at. *)
Definition kinetic_system : BindingSystem :=
  {| analytical := false; arguments := ["p"; "l"; "kd"];
     query := QueryParametersReadout (fun p _ => echo p) |}.

(** An analytical system that adds up its scalar parameters. *)
Definition number {R : Type} (f : R -> float) (v : value R) : float :=
  match v with
  | VFloat x => x
  | VParameter r => f r
  | _ => 0%float
  end.

Definition total (p : dict Lmfit.Param) : query_result :=
  QOk (Scalar (fold_left (fun acc kv =>
                 PrimFloat.add acc (number Lmfit.value kv.2)) p 0%float)).

Definition sum_system : BindingSystem :=
  {| analytical := true; arguments := ["p"; "kd"];
     query := QueryParameters total |}.

(** [params.add] for a name that is an identifier: the bounds are put in
    order, bounds that coincide are a [ValueError], and the value is
    brought within the bounds. *)
Definition add_parameter (name : string) (v lo hi : float)
  : Exception + Lmfit.Param :=
  let lo' := if PrimFloat.ltb hi lo then hi else lo in
  let hi' := if PrimFloat.ltb hi lo then lo else hi in
  if PrimFloat.eqb lo' hi' then inl ValueError
  else
    let v1 := if PrimFloat.ltb hi' v then hi' else v in
    let v2 := if PrimFloat.ltb v1 lo' then lo' else v1 in
    inr {| Lmfit.value := v2; Lmfit.min := lo'; Lmfit.max := hi';
           Lmfit.stderr := None |}.

(** A minimizer that evaluates the starting point, then one more point,
    and settles on [kd = 2] with standard error [0.5]. *)
Definition two_steps : Minimizer :=
  {| add := add_parameter;
     next_step := fun start seen =>
       match seen with
       | [] => Evaluate (prod_map id Lmfit.value <$> start)
       | [_] => Evaluate [("kd", 3%float)]
       | _ => Converged [("kd", (2%float, Some 0.5%float))]
       end |}.

Definition empty : World :=
  {| heap := []; curves := []; stdout := []; pyplot := [];
     minimize_calls := 0 |}.

(** A matplotlib that takes the limits it is asked for as they are, as
    the real one does on a linear axis with limits well apart, that
    knows the keyword [nonposx] and refuses it on the Y axis with a
    [ValueError], and that draws, saves and shows what it is given. *)
Definition as_asked : Matplotlib :=
  {| view_limits := fun _ _ lo hi => (lo, hi);
     log_x_keyword := None;
     log_y_keyword := ValueError;
     major_ticks := fun _ => None;
     savefig := fun _ _ => None;
     show := fun _ => None |}.

(** The world after [w], with the outcome forgotten. *)
Definition after {A : Type} (m : M A) (w : World) : World := (m w).2.

(** One accumulator for the analytical sample system. *)
Definition one_instance : World := after (__init__ (Some analytical_system)) empty.

(** An accumulator that was given no system. *)
Definition no_system : World := after (__init__ None) empty.

(** Two accumulators, at addresses 0 and 1. *)
Definition two_instances : World :=
  after (__init__ (Some analytical_system)) one_instance.

Definition sweep (xs : list float) : dict loc :=
  [("p", VFloat 1%float); ("kd", VFloat 1%float); ("l", VArray xs)].

(** One accumulator for the sample system with a readout. *)
Definition kinetic_instance : World :=
  after (__init__ (Some kinetic_system)) empty.

(** An accumulator that has axes and an upper Y bound of 2. *)
Definition drawn_instance : BindingCurve :=
  set_max_y_axis 2%float
    (set_fig_axes (Some tt) (Some Plt.new_axes)
       (set_system (Some analytical_system) class_defaults)).

Definition drawn : World :=
  {| heap := [OBindingCurve drawn_instance]; curves := []; stdout := [];
     pyplot := []; minimize_calls := 0 |}.

(** The first accumulator after one curve over [1, 2]. *)
Definition plotted : World :=
  after (add_curve 0 (sweep [1; 2]%float) (Some "pl") None) one_instance.

(** ... and after a second curve, over [3, 4]. *)
Definition plotted_twice : World :=
  after (add_curve 0 (sweep [3; 4]%float) (Some "pl") None) plotted.

(** The y values of all the curves of a list. *)
Definition all_y (cs : list _Curve) : list float :=
  cs ≫= (fun c => match ycoords c with
                  | Scalar f => [f]
                  | Array a => a
                  end).

(** A caller's dictionary at address 0, an accumulator at address 1. *)
Definition fitting (d : dict loc) (s : BindingSystem) : World :=
  after (__init__ (Some s)) (after (alloc (ODict d)) empty).

(** ... and two [Parameter] objects, at addresses 2 and 3. *)
Definition with_trials : World :=
  after (alloc (OParam {| Lmfit.value := 1; Lmfit.min := neg_infinity;
                          Lmfit.max := infinity; Lmfit.stderr := None |}))
    (after (alloc (OParam {| Lmfit.value := 5; Lmfit.min := neg_infinity;
                             Lmfit.max := infinity; Lmfit.stderr := None |}))
       (fitting [("p", VFloat 1%float)] sum_system)).

(** The world after a fit of ["kd"] on the dictionary with ["p"]. *)
Definition fitted : World :=
  after (fit two_steps 10 1 0 [("kd", 7%float)] [1; 2]%float "P" "PL" None)
    (fitting [("p", VFloat 1%float)] sum_system).

End Sample.

(** ** The state of a fit in progress

    [H0] is the store [fit] was called in, [d] the caller's dictionary.
    Behind [H0] come the copy of the dictionary and the minimizer's
    parameter objects.  Until the residual has been evaluated the copy is
    [d]; from then on it maps the name of every parameter being fitted to
    the minimizer's object for it.  Names not being fitted keep their
    values throughout. *)
Definition fitting_state (H0 : list object) (d : dict loc)
  (working : Parameters) (evaluated : bool) (w : World) : Prop :=
  exists dc ps,
    heap w = ((H0 ++ [ODict dc]) ++ (OParam <$> ps))%list /\
    length ps = length working /\
    (forall k, k ∉ Dict.keys working -> Dict.get k dc = Dict.get k d) /\
    (if evaluated
     then forall k r, (k, r) ∈ working -> Dict.get k dc = Some (VParameter r)
     else dc = d).

(** The minimizer's objects are the ones allocated behind the copy. *)
Definition fresh_parameters (H0 : list object) (working : Parameters)
  : Prop :=
  working.*2 = seq (S (length H0)) (length working).

(** ** The rest of the class

    What the properties above did not need: the choice of the system in
    the constructor, and [add_points_to_plot]. *)

(** The six system classes that [__init__] knows by name.  They are
    defined elsewhere in the package; each stands here for the instance
    its class makes. *)
Record SystemClasses : Type := {
  System_one_to_one_analytical_pl : BindingSystem;
  System_one_to_one : BindingSystem;
  System_homodimer_formation_analytical_pp : BindingSystem;
  System_homodimer_formation : BindingSystem;
  System_competition : BindingSystem;
  System_homodimer_breaking : BindingSystem
}.

(** The argument of the constructor: a [str], or a class, which gives an
    instance when it is a subclass of [BindingSystem] and nothing when it
    is not. *)
Inductive SystemArgument : Type :=
| ByName (name : string)
| ByClass (instance : option BindingSystem).

(** The body of [__init__] up to the test [self.system is None]: a chain
    of [if]s, none of them an [elif], each of which may rebind
    [self.system]. *)
Definition select_system (S : SystemClasses) (binding_system : SystemArgument)
  : option BindingSystem :=
  match binding_system with
  | ByName name =>
      let binding_system := Builtins.lower name in
      let system := None in
      let system :=
        if (binding_system =? "simple")%string
           || (binding_system =? "1:1")%string
        then Some (System_one_to_one_analytical_pl S) else system in
      let system :=
        if (binding_system =? "simplekinetic")%string
           || (binding_system =? "simple kinetic")%string
           || (binding_system =? "1:1 kinetic")%string
           || (binding_system =? "1:1kinetic")%string
        then Some (System_one_to_one S) else system in
      let system :=
        if (binding_system =? "homodimer")%string
           || (binding_system =? "homodimer formation")%string
        then Some (System_homodimer_formation_analytical_pp S) else system in
      let system :=
        if (binding_system =? "homodimerkinetic")%string
           || (binding_system =? "homodimer kinetic")%string
           || (binding_system =? "homodimerformationkinetic")%string
           || (binding_system =? "homodimer formation kinetic")%string
        then Some (System_homodimer_formation S) else system in
      let system :=
        if (binding_system =? "competition")%string
           || (binding_system =? "1:1:1")%string
        then Some (System_competition S) else system in
      let system :=
        if (binding_system =? "homodimerbreaking")%string
           || (binding_system =? "homodimer breaking")%string
        then Some (System_homodimer_breaking S) else system in
      system
  | ByClass instance => instance
  end.

(** [BindingCurve(binding_system)] *)
Definition new_BindingCurve (S : SystemClasses)
  (binding_system : SystemArgument) : M loc :=
  __init__ (select_system S binding_system).

(** The names of [__init__] as a table. *)
Definition system_names (S : SystemClasses) : list (string * BindingSystem) :=
  [("simple", System_one_to_one_analytical_pl S);
   ("1:1", System_one_to_one_analytical_pl S);
   ("simplekinetic", System_one_to_one S);
   ("simple kinetic", System_one_to_one S);
   ("1:1 kinetic", System_one_to_one S);
   ("1:1kinetic", System_one_to_one S);
   ("homodimer", System_homodimer_formation_analytical_pp S);
   ("homodimer formation", System_homodimer_formation_analytical_pp S);
   ("homodimerkinetic", System_homodimer_formation S);
   ("homodimer kinetic", System_homodimer_formation S);
   ("homodimerformationkinetic", System_homodimer_formation S);
   ("homodimer formation kinetic", System_homodimer_formation S);
   ("competition", System_competition S);
   ("1:1:1", System_competition S);
   ("homodimerbreaking", System_homodimer_breaking S);
   ("homodimer breaking", System_homodimer_breaking S)].

(** Coordinates of scatter points: an [np.ndarray] or a [list]. *)
Inductive Coordinates : Type :=
| CArray (a : list float)
| CList (l : list float).

Definition items (c : Coordinates) : list float :=
  match c with
  | CArray a => a
  | CList l => l
  end.

Definition is_ndarray (c : Coordinates) : bool :=
  match c with
  | CArray _ => true
  | CList _ => false
  end.

(** Python's builtin [min] and [max]: the first argument stays unless a
    later one is strictly smaller (larger); of an empty sequence they are
    a [ValueError]. *)
Definition py_min (a b : float) : float := if PrimFloat.ltb b a then b else a.
Definition py_max (a b : float) : float := if PrimFloat.ltb a b then b else a.
Definition py_min_of (l : list float) : option float :=
  match l with
  | [] => None
  | x :: xs => Some (fold_left py_min xs x)
  end.
Definition py_max_of (l : list float) : option float :=
  match l with
  | [] => None
  | x :: xs => Some (fold_left py_max xs x)
  end.

(** [add_points_to_plot].  [scatter] refuses x and y of different sizes;
    the collection it draws is not kept in this record of the axes. *)
Definition add_points_to_plot (self : loc) (xcoords ycoords : Coordinates)
  : M unit :=
  _initialize_plot self;;
  let* b := read_self self in
  let* _ := from_option AttributeError (axes b) in
  (if bool_decide (length (items xcoords) = length (items ycoords))
   then ret tt else raise ValueError);;
  if is_ndarray xcoords && is_ndarray ycoords
  then
    let* b := read_self self in
    let* lo := from_option ValueError (py_min_of (items ycoords)) in
    update_self self (set_min_y_axis (py_min (_min_y_axis b) lo));;
    let* b := read_self self in
    let* hi := from_option ValueError (py_max_of (items ycoords)) in
    update_self self (set_max_y_axis (py_max (_max_y_axis b) hi))
  else ret tt.

(** ** More samples *)

Module Example.

(** A table that puts the sample systems in the place of the six. *)
Definition classes : SystemClasses :=
  {| System_one_to_one_analytical_pl := Sample.analytical_system;
     System_one_to_one := Sample.kinetic_system;
     System_homodimer_formation_analytical_pp := Sample.sum_system;
     System_homodimer_formation := Sample.kinetic_system;
     System_competition := Sample.kinetic_system;
     System_homodimer_breaking := Sample.kinetic_system |}.

(** An accumulator with axes that has drawn sixteen curves. *)
Definition worn_instance : BindingCurve :=
  set_num_added_traces 16 Sample.drawn_instance.

Definition worn : World :=
  {| heap := [OBindingCurve worn_instance]; curves := []; stdout := [];
     pyplot := []; minimize_calls := 0 |}.

(** An accumulator with axes whose last readout is [None]. *)
Definition unread_instance : BindingCurve :=
  set_last_known_readout None Sample.drawn_instance.

Definition unread : World :=
  {| heap := [OBindingCurve unread_instance]; curves := []; stdout := [];
     pyplot := []; minimize_calls := 0 |}.

(** A caller's dictionary at address 0 and, at address 1, an accumulator
    that was given no system. *)
Definition fitting_without_system : World :=
  Sample.after (__init__ None)
    (Sample.after (alloc (ODict [("p", VFloat 1%float)])) Sample.empty).

End Example.

(** ** Predicates the properties are stated with *)

(** Every run of [m] from a world where [P] holds ends in one where it
    holds, whatever the outcome. *)
Definition keeps (P : World -> Prop) {A : Type} (m : M A) : Prop :=
  forall w, P w -> P (m w).2.

(** [m] never reports the diagnostic [d]. *)
Definition quiet (d : Diagnostic) {A : Type} (m : M A) : Prop :=
  forall w, (m w).1 <> Reported d.

(** The accumulator [self] has axes whose Y axis has the limits [v]. *)
Definition y_limits (self : loc) (v : float * float) (w : World) : Prop :=
  exists b a, heap w !! self = Some (OBindingCurve b) /\
              axes b = Some a /\ Plt.ylim a = v.

(** The attribute [attr] of the accumulator [self] is [v]. *)
Definition holds_attribute {A : Type} (attr : BindingCurve -> A)
  (self : loc) (v : A) (w : World) : Prop :=
  attribute attr self w = Some v.

(** The curve list and the console are [c] and [s]. *)
Definition holds_output (c : list _Curve) (s : list string) (w : World)
  : Prop :=
  curves w = c /\ stdout w = s.

(** Every run of [m] from a world where [P] holds ends in one where [Q]
    holds, whatever the outcome. *)
Definition leads (P Q : World -> Prop) {A : Type} (m : M A) : Prop :=
  forall w, P w -> Q (m w).2.

(** The store still begins with the objects [H0]; the curve list and
    the calls of pyplot are [c] and [p]; the minimizer has been made [n]
    times. *)
Definition extends (H0 : list object) (c : list _Curve)
  (p : list Plt.Event) (n : nat) (w : World) : Prop :=
  H0 `prefix_of` heap w /\ curves w = c /\ pyplot w = p /\
  minimize_calls w = n.

(** Every accumulator in the store has counted no more curves than the
    shared curve list holds, and its axes, if any, show no more lines
    than it has counted. *)
Definition trace_invariant (w : World) : Prop :=
  forall l b, heap w !! l = Some (OBindingCurve b) ->
    _num_added_traces b <= length (curves w) /\
    forall a, axes b = Some a ->
              length (Plt.lines a) <= _num_added_traces b.

(** The same in the middle of [add_curve] on [self]: there the curve
    list is [dc] ahead of the counter of [self], and the counter [dl]
    ahead of the lines of [self]. *)
Definition traces_within (self : loc) (dc dl : nat) (w : World) : Prop :=
  forall l b, heap w !! l = Some (OBindingCurve b) ->
    _num_added_traces b + (if decide (l = self) then dc else 0)
    <= length (curves w) /\
    forall a, axes b = Some a ->
              length (Plt.lines a) + (if decide (l = self) then dl else 0)
              <= _num_added_traces b.

(** The address [other] holds [o]. *)
Definition other_holds (other : loc) (o : option object) (w : World)
  : Prop :=
  heap w !! other = o.

(** * Properties *)

(** ** The call monad *)

Lemma bind_returned {A B : Type} (m : M A) (k : A -> M B) w a w' :
  m w = (Returned a, w') -> bind m k w = k a w'.
Proof. intros H. unfold bind. rewrite H. reflexivity. Qed.

Lemma bind_raised {A B : Type} (m : M A) (k : A -> M B) w e w' :
  m w = (Raised e, w') -> bind m k w = (Raised e, w').
Proof. intros H. unfold bind. rewrite H. reflexivity. Qed.

Lemma bind_ret {A B : Type} (a : A) (k : A -> M B) w :
  bind (ret a) k w = k a w.
Proof. reflexivity. Qed.

Lemma bind_inv_returned {A B : Type} (m : M A) (k : A -> M B) w b w' :
  bind m k w = (Returned b, w') ->
  exists a w1, m w = (Returned a, w1) /\ k a w1 = (Returned b, w').
Proof.
  unfold bind. destruct (m w) as [[a | d | e |] w1]; intros H;
    try discriminate.
  exists a, w1. split; [reflexivity | exact H].
Qed.

Lemma read_self_run self b w :
  heap w !! self = Some (OBindingCurve b) -> read_self self w = (Returned b, w).
Proof. intros H. unfold read_self. rewrite H. reflexivity. Qed.

Lemma read_dict_run l d w :
  heap w !! l = Some (ODict d) -> read_dict l w = (Returned d, w).
Proof. intros H. unfold read_dict. rewrite H. reflexivity. Qed.

Lemma read_self_inv self b w w1 :
  read_self self w = (Returned b, w1) ->
  heap w !! self = Some (OBindingCurve b) /\ w1 = w.
Proof.
  unfold read_self. destruct (heap w !! self) as [[| | b0] |];
    try discriminate.
  intros [= -> ->]. split; reflexivity.
Qed.

Lemma from_option_inv {A : Type} (e : Exception) (o : option A) a w w1 :
  from_option e o w = (Returned a, w1) -> o = Some a /\ w1 = w.
Proof.
  destruct o as [a0 |]; simpl; [| discriminate].
  intros [= -> ->]. split; reflexivity.
Qed.

Lemma update_self_run self f b w :
  heap w !! self = Some (OBindingCurve b) ->
  update_self self f w =
    (Returned tt, with_heap (<[self := OBindingCurve (f b)]> (heap w)) w).
Proof.
  intros H. unfold update_self.
  rewrite (bind_returned _ _ _ _ _ (read_self_run _ _ _ H)). reflexivity.
Qed.

Lemma lookup_with_heap_insert w l (o o' : object) :
  heap w !! l = Some o ->
  heap (with_heap (<[l := o']> (heap w)) w) !! l = Some o'.
Proof.
  intros H. simpl. apply list_lookup_insert_eq. eapply lookup_lt_Some, H.
Qed.

(** ** [fit]: the argument [x_parameter] *)

(** C10: [fit] never reads [x_parameter]: two calls that differ in it
    alone end in the same outcome (fitted parameters and standard errors
    included) and the same world. *)
Theorem fit_ignores_x_parameter (mz : Minimizer) (fuel : nat)
  (self system_parameters : loc) (to_fit : list (string * float))
  (ycoords : list float) (x1 x2 y_parameter : string)
  (bounds : option (list (string * (float * float)))) (w : World) :
  fit mz fuel self system_parameters to_fit ycoords x1 y_parameter bounds w =
  fit mz fuel self system_parameters to_fit ycoords x2 y_parameter bounds w.
Proof. reflexivity. Qed.

(** ** [fit]: nothing to fit *)

(** C4: with an empty [to_fit], whatever the other arguments, the
    minimizer and the state of the accumulator, [fit] reports
    [NothingToFit]; the world it leaves differs from the one it found by
    the printed message and the discarded copy of the dictionary only, and
    the minimizer has not run. *)
Theorem fit_nothing_to_fit (mz : Minimizer) (fuel : nat)
  (self system_parameters : loc) (ycoords : list float)
  (x_parameter y_parameter : string)
  (bounds : option (list (string * (float * float)))) (w : World)
  (d : dict loc) :
  heap w !! system_parameters = Some (ODict d) ->
  fit mz fuel self system_parameters [] ycoords x_parameter y_parameter
      bounds w
  = (Reported NothingToFit,
     with_stdout (stdout w ++ message NothingToFit)
       (with_heap (heap w ++ [ODict d]) w))
  /\ minimize_calls
       (fit mz fuel self system_parameters [] ycoords x_parameter
            y_parameter bounds w).2
     = minimize_calls w.
Proof.
  intros Hd. unfold fit.
  rewrite (bind_returned _ _ _ _ _ (read_dict_run _ _ _ Hd)).
  unfold bind, alloc, report. simpl. split; reflexivity.
Qed.

Lemma fit_nothing_to_fit_witness :
  fit Sample.two_steps 10 1 0 [] [1; 2]%float "P" "PL" None
      (Sample.fitting [("p", VFloat 1%float)] Sample.sum_system)
  = (Reported NothingToFit,
     with_stdout
       ["Nothing to fit, insert parameters to fit into to_fit dictionary"]
       (with_heap
          (heap (Sample.fitting [("p", VFloat 1%float)] Sample.sum_system)
             ++ [ODict [("p", VFloat 1%float)]])
          (Sample.fitting [("p", VFloat 1%float)] Sample.sum_system)))
  /\ minimize_calls
       (fit Sample.two_steps 10 1 0 [] [1; 2]%float "P" "PL" None
          (Sample.fitting [("p", VFloat 1%float)] Sample.sum_system)).2
     = 0.
Proof.
  apply (fit_nothing_to_fit Sample.two_steps 10 1 0 [1; 2]%float "P" "PL"
           None (Sample.fitting [("p", VFloat 1%float)] Sample.sum_system)
           [("p", VFloat 1%float)]).
  reflexivity.
Defined.

(** ** [show_plot]: the upper limit of the Y axis *)

(** Properties of the world that every step of a computation keeps. *)
Section Keeps.

Variable P : World -> Prop.

Lemma keeps_bind {A B : Type} (m : M A) (k : A -> M B) :
  keeps P m -> (forall x, keeps P (k x)) -> keeps P (bind m k).
Proof.
  intros Hm Hk w Hw. unfold bind. specialize (Hm w Hw).
  destruct (m w) as [[x | dg | e |] w1]; simpl in *; try exact Hm.
  apply Hk, Hm.
Qed.

Lemma holds_after_bind {A B : Type} (m : M A) (k : A -> M B) w :
  P (m w).2 -> (forall x, keeps P (k x)) -> P (bind m k w).2.
Proof.
  intros Hm Hk. unfold bind.
  destruct (m w) as [[x | dg | e |] w1]; simpl in *; try exact Hm.
  apply Hk, Hm.
Qed.

Lemma keeps_ret {A : Type} (x : A) : keeps P (ret x).
Proof. intros w Hw. exact Hw. Qed.

Lemma keeps_raise {A : Type} (e : Exception) : keeps P (@raise A e).
Proof. intros w Hw. exact Hw. Qed.

Lemma keeps_from_option {A : Type} (e : Exception) (o : option A) :
  keeps P (from_option e o).
Proof. destruct o; [apply keeps_ret | apply keeps_raise]. Qed.

Lemma keeps_from_query (r : query_result) : keeps P (from_query r).
Proof. destruct r; [apply keeps_ret | apply keeps_raise]. Qed.

Lemma keeps_when (c : bool) (m : M unit) : keeps P m -> keeps P (when c m).
Proof. destruct c; [trivial | intros _; apply keeps_ret]. Qed.

Lemma keeps_for_some {A : Type} (o : option A) (f : A -> M unit) :
  (forall x, keeps P (f x)) -> keeps P (for_some o f).
Proof. destruct o; [intros H; apply H | intros _; apply keeps_ret]. Qed.

Lemma keeps_get_world : keeps P get_world.
Proof. intros w Hw. exact Hw. Qed.

Lemma keeps_read_self self : keeps P (read_self self).
Proof.
  intros w Hw. unfold read_self.
  destruct (heap w !! self) as [[| |] |]; exact Hw.
Qed.

Lemma keeps_read_dict l : keeps P (read_dict l).
Proof.
  intros w Hw. unfold read_dict.
  destruct (heap w !! l) as [[| |] |]; exact Hw.
Qed.

Lemma keeps_modify (f : World -> World) :
  (forall w, P w -> P (f w)) -> keeps P (modify f).
Proof. intros Hf w Hw. apply Hf, Hw. Qed.

Lemma keeps_write_self self b :
  (forall w h, P w -> P (with_heap h w)) -> keeps P (write_self self b).
Proof. intros HP. apply keeps_modify. intros w Hw. apply HP, Hw. Qed.

Lemma keeps_update_self self f :
  (forall w h, P w -> P (with_heap h w)) -> keeps P (update_self self f).
Proof.
  intros HP. apply keeps_bind; [apply keeps_read_self |].
  intros b. apply keeps_write_self, HP.
Qed.

Lemma keeps_unless (o : option Exception) : keeps P (unless o).
Proof. destruct o; [apply keeps_raise | apply keeps_ret]. Qed.

Lemma keeps_pyplot_savefig mpl f :
  (forall w p, P w -> P (with_pyplot p w)) -> keeps P (pyplot_savefig mpl f).
Proof.
  intros HP. unfold pyplot_savefig.
  apply keeps_bind; [apply keeps_get_world | intros w0].
  apply keeps_bind; [apply keeps_unless | intros _].
  apply keeps_modify. intros w Hw. apply HP, Hw.
Qed.

Lemma keeps_pyplot_show mpl :
  (forall w p, P w -> P (with_pyplot p w)) -> keeps P (pyplot_show mpl).
Proof.
  intros HP. unfold pyplot_show.
  apply keeps_bind; [apply keeps_get_world | intros w0].
  apply keeps_bind; [apply keeps_unless | intros _].
  apply keeps_modify. intros w Hw. apply HP, Hw.
Qed.

End Keeps.

(** Computations that never report a given diagnostic. *)
Section Quiet.

Variable d : Diagnostic.

Lemma quiet_bind {A B : Type} (m : M A) (k : A -> M B) :
  quiet d m -> (forall x, quiet d (k x)) -> quiet d (bind m k).
Proof.
  intros Hm Hk w. unfold bind. specialize (Hm w).
  destruct (m w) as [[x | dg | e |] w1]; simpl in *;
    [apply Hk | | discriminate | discriminate].
  intros [= ->]. apply Hm. reflexivity.
Qed.

Lemma quiet_ret {A : Type} (x : A) : quiet d (ret x).
Proof. intros w. discriminate. Qed.

Lemma quiet_raise {A : Type} (e : Exception) : quiet d (@raise A e).
Proof. intros w. discriminate. Qed.

Lemma quiet_report {A : Type} (d' : Diagnostic) :
  d' <> d -> quiet d (@report A d').
Proof. intros Hne w. simpl. congruence. Qed.

Lemma quiet_from_option {A : Type} (e : Exception) (o : option A) :
  quiet d (from_option e o).
Proof. destruct o; [apply quiet_ret | apply quiet_raise]. Qed.

Lemma quiet_from_query (r : query_result) : quiet d (from_query r).
Proof. destruct r; [apply quiet_ret | apply quiet_raise]. Qed.

Lemma quiet_modify (f : World -> World) : quiet d (modify f).
Proof. intros w. discriminate. Qed.

Lemma quiet_get_world : quiet d get_world.
Proof. intros w. discriminate. Qed.

Lemma quiet_read_self self : quiet d (read_self self).
Proof.
  intros w. unfold read_self.
  destruct (heap w !! self) as [[| |] |]; discriminate.
Qed.

Lemma quiet_write_self self b : quiet d (write_self self b).
Proof. apply quiet_modify. Qed.

Lemma quiet_update_self self f : quiet d (update_self self f).
Proof.
  apply quiet_bind; [apply quiet_read_self | intros b; apply quiet_write_self].
Qed.

Lemma quiet_on_axes self f : quiet d (on_axes self f).
Proof.
  apply quiet_bind; [apply quiet_read_self |]. intros b.
  destruct (axes b); [apply quiet_write_self | apply quiet_raise].
Qed.

Lemma quiet__initialize_plot self : quiet d (_initialize_plot self).
Proof.
  unfold _initialize_plot. apply quiet_bind; [apply quiet_read_self |].
  intros b. destruct (fig b); [apply quiet_ret |].
  repeat first [ apply quiet_modify | apply quiet_update_self
               | apply quiet_on_axes
               | apply quiet_bind; [| intros ?] ].
Qed.

End Quiet.

Section UpperLimit.

Variable self : loc.
Variable v : float * float.

Lemma y_limits_pyplot w p : y_limits self v w -> y_limits self v (with_pyplot p w).
Proof. intros H. exact H. Qed.

Lemma keeps_on_axes (f : Plt.Axes -> Plt.Axes) :
  (forall a, Plt.ylim (f a) = Plt.ylim a) ->
  keeps (y_limits self v) (on_axes self f).
Proof.
  intros Hf w (b & a & Hb & Ha & Hv). unfold on_axes.
  rewrite (bind_returned _ _ _ _ _ (read_self_run _ _ _ Hb)).
  rewrite Ha. exists (set_axes (f a) b), (f a).
  split; [| split].
  - apply (lookup_with_heap_insert _ _ _ _ Hb).
  - reflexivity.
  - rewrite Hf. exact Hv.
Qed.

End UpperLimit.

Lemma keeps_refuse (P : World -> Prop) (self : loc) (e : Exception) :
  keeps P (refuse self e).
Proof.
  unfold refuse. apply keeps_bind; [apply keeps_read_self | intros b].
  apply keeps_bind; [apply keeps_from_option | intros _].
  apply keeps_raise.
Qed.

Lemma refuse_run self e b a w :
  heap w !! self = Some (OBindingCurve b) ->
  axes b = Some a ->
  refuse self e w = (Raised e, w).
Proof.
  intros Hb Ha. unfold refuse.
  rewrite (bind_returned _ _ _ _ _ (read_self_run _ _ _ Hb)).
  rewrite Ha. reflexivity.
Qed.

Lemma for_some_update_self_run self (o : option float)
  (f : float -> BindingCurve -> BindingCurve) b w :
  heap w !! self = Some (OBindingCurve b) ->
  exists w1,
    for_some o (fun x => update_self self (f x)) w = (Returned tt, w1) /\
    heap w1 !! self =
      Some (OBindingCurve (match o with Some x => f x b | None => b end)).
Proof.
  intros Hb. destruct o as [x |]; simpl.
  - eexists. split; [apply (update_self_run _ _ _ _ Hb) |].
    apply (lookup_with_heap_insert _ _ _ _ Hb).
  - exists w. split; [reflexivity | exact Hb].
Qed.

(** C8: on an accumulator that has axes, [show_plot] asks for a Y axis
    from the lower Y bound to the accumulated maximum times the literal
    [1.1], the binary64 number nearest to it, when [max_y] is not given,
    and to [max_y] itself when it is.  When both limits are finite
    numbers the Y axis is left with the limits that matplotlib makes of
    these two, whatever comes of the rest of the call; when one of them
    is not, matplotlib refuses them and the call raises [ValueError]. *)
Theorem show_plot_upper_y_limit (mpl : Matplotlib) (self : loc)
  (title : string)
  (xlabel ylabel : option string) (min_x max_x min_y max_y : option float)
  (log_x_axis log_y_axis : bool) (png_filename svg_filename : option string)
  (show_legend : bool) (w : World) (b : BindingCurve) (a : Plt.Axes) :
  heap w !! self = Some (OBindingCurve b) ->
  axes b = Some a ->
  let lo := default (_min_y_axis b) min_y in
  let top := match max_y with
             | None => PrimFloat.mul (_max_y_axis b) 0x1.199999999999ap+0
             | Some top => top
             end in
  if finite lo && finite top
  then
    exists b' a',
      heap (show_plot mpl self title xlabel ylabel min_x max_x min_y max_y
              log_x_axis log_y_axis png_filename svg_filename show_legend
              w).2
        !! self = Some (OBindingCurve b') /\
      axes b' = Some a' /\
      Plt.ylim a' = view_limits mpl (Plt.yscale a) (Plt.ylim a) lo top
  else
    (show_plot mpl self title xlabel ylabel min_x max_x min_y max_y
       log_x_axis log_y_axis png_filename svg_filename show_legend w).1
    = Raised ValueError.
Proof.
  intros Hb Ha lo top. unfold show_plot.
  destruct (for_some_update_self_run self min_x set_min_x_axis b w Hb)
    as (w1 & E1 & H1).
  rewrite (bind_returned _ _ _ _ _ E1).
  destruct (for_some_update_self_run self max_x set_max_x_axis _ w1 H1)
    as (w2 & E2 & H2).
  rewrite (bind_returned _ _ _ _ _ E2).
  destruct (for_some_update_self_run self min_y set_min_y_axis _ w2 H2)
    as (w3 & E3 & H3).
  rewrite (bind_returned _ _ _ _ _ E3).
  destruct (for_some_update_self_run self max_y set_max_y_axis _ w3 H3)
    as (w4 & E4 & H4).
  rewrite (bind_returned _ _ _ _ _ E4).
  rewrite (bind_returned _ _ _ _ _ (read_self_run _ _ _ H4)).
  set (b4 := match max_y with Some x => set_max_y_axis x _ | None => _ end)
    in *.
  assert (Ha4 : axes b4 = Some a).
  { subst b4. destruct min_x, max_x, min_y, max_y; exact Ha. }
  assert (Hlo : _min_y_axis b4 = lo).
  { subst b4 lo. destruct min_x, max_x, min_y, max_y; reflexivity. }
  assert (Hcall : match max_y with
                  | None => axes_set_ylim mpl self (_min_y_axis b4)
                              (PrimFloat.mul (_max_y_axis b4) headroom)
                  | Some _ => axes_set_ylim mpl self (_min_y_axis b4)
                                (_max_y_axis b4)
                  end = axes_set_ylim mpl self lo top).
  { rewrite Hlo. subst b4 top.
    destruct max_y; [reflexivity |].
    destruct min_x, max_x, min_y; reflexivity. }
  rewrite Hcall. clear Hcall. clearbody b4 lo top.
  destruct (finite lo && finite top) eqn:Hfin; unfold axes_set_ylim at 1;
    rewrite Hfin.
  - lazymatch goal with
    | |- exists b' a', heap (?m w4).2 !! _ = _ /\ _ /\ _ =>
        change (y_limits self
                  (view_limits mpl (Plt.yscale a) (Plt.ylim a) lo top)
                  (m w4).2)
    end.
    apply holds_after_bind.
    { unfold on_axes.
      rewrite (bind_returned _ _ _ _ _ (read_self_run _ _ _ H4)).
      rewrite Ha4. eexists _, _. split; [| split].
      - apply (lookup_with_heap_insert _ _ _ _ H4).
      - reflexivity.
      - cbn. symmetry. apply surjective_pairing. }
    intros []. unfold axes_set_xlim.
    repeat first
      [ apply keeps_on_axes; intros ?; reflexivity
      | apply keeps_refuse
      | apply keeps_when
      | apply keeps_unless
      | apply keeps_for_some; intros ?
      | apply keeps_from_option
      | apply keeps_read_self
      | apply keeps_pyplot_savefig; intros ? ?; apply y_limits_pyplot
      | apply keeps_pyplot_show; intros ? ?; apply y_limits_pyplot
      | match goal with
        | |- keeps _ (match ?o with _ => _ end) => destruct o
        end
      | apply keeps_bind; [| intros ?] ].
  - rewrite (bind_raised _ _ _ ValueError w4 (refuse_run _ _ _ _ _ H4 Ha4)).
    reflexivity.
Qed.

Lemma show_plot_upper_y_limit_witness :
  exists b' a',
    heap (show_plot Sample.as_asked 0 "System simulation" None None None
            (Some 1%float) None None false false None None true
            Sample.drawn).2
      !! 0 = Some (OBindingCurve b') /\
    axes b' = Some a' /\
    Plt.ylim a' = (0%float, 0x1.199999999999ap+1%float).
Proof.
  exact (show_plot_upper_y_limit Sample.as_asked 0 "System simulation" None
           None None (Some 1%float) None None false false None None true
           Sample.drawn Sample.drawn_instance Plt.new_axes eq_refl eq_refl).
Defined.

(** ** [sorted] *)

Lemma ascii_compare_trans (a b c : Ascii.ascii) (o : comparison) :
  Ascii.compare a b = o -> Ascii.compare b c = o -> Ascii.compare a c = o.
Proof.
  unfold Ascii.compare. destruct o; intros H1 H2.
  - apply N.compare_eq_iff in H1, H2. apply N.compare_eq_iff. congruence.
  - apply N.compare_lt_iff in H1, H2. apply N.compare_lt_iff.
    eapply N.lt_trans; eassumption.
  - apply N.compare_gt_iff in H1, H2. apply N.compare_gt_iff.
    eapply N.lt_trans; eassumption.
Qed.

Lemma string_compare_lt_trans (a b c : string) :
  String.compare a b = Lt -> String.compare b c = Lt ->
  String.compare a c = Lt.
Proof.
  revert b c. induction a as [| x a IH]; intros [| y b] [| z c]; simpl;
    try congruence.
  destruct (Ascii.compare x y) eqn:Exy; try discriminate;
    destruct (Ascii.compare y z) eqn:Eyz; try discriminate; intros H1 H2.
  - rewrite (ascii_compare_trans _ _ _ _ Exy Eyz). eauto.
  - apply Ascii.compare_eq_iff in Exy. subst y. rewrite Eyz. reflexivity.
  - apply Ascii.compare_eq_iff in Eyz. subst z. rewrite Exy. reflexivity.
  - rewrite (ascii_compare_trans _ _ _ _ Exy Eyz). reflexivity.
Qed.

#[local] Instance str_le_trans : Transitive Builtins.str_le.
Proof.
  intros a b c. unfold Builtins.str_le, String.leb.
  destruct (String.compare a b) eqn:Eab; try discriminate;
    destruct (String.compare b c) eqn:Ebc; try discriminate; intros _ _.
  - apply String.compare_eq_iff in Eab. subst b. rewrite Ebc. reflexivity.
  - apply String.compare_eq_iff in Eab. subst b. rewrite Ebc. reflexivity.
  - apply String.compare_eq_iff in Ebc. subst c. rewrite Eab. reflexivity.
  - rewrite (string_compare_lt_trans _ _ _ Eab Ebc). reflexivity.
Qed.

#[local] Instance str_le_total : Total Builtins.str_le.
Proof. intros a b. apply String.leb_total. Qed.

Lemma sorted_StronglySorted (l : list string) :
  StronglySorted Builtins.str_le (Builtins.sorted l).
Proof. apply (StronglySorted_merge_sort _). Qed.

Lemma sorted_Permutation (l : list string) : Builtins.sorted l ≡ₚ l.
Proof. apply merge_sort_Permutation. Qed.

Lemma missing_arguments_spec (arguments given : list string) (a : string) :
  a ∈ missing_arguments arguments given <-> a ∈ arguments /\ a ∉ given.
Proof.
  unfold missing_arguments. rewrite sorted_Permutation.
  rewrite elem_of_remove_dups. apply list_elem_of_difference.
Qed.

Lemma missing_arguments_NoDup (arguments given : list string) :
  NoDup (missing_arguments arguments given).
Proof.
  unfold missing_arguments. rewrite sorted_Permutation.
  apply NoDup_remove_dups.
Qed.

(** ** [fit]: missing parameters *)

Lemma alloc_run (o : object) w :
  alloc o w = (Returned (length (heap w)), with_heap (heap w ++ [o]) w).
Proof. reflexivity. Qed.

Lemma lookup_alloc_old w (o o' : object) l :
  heap w !! l = Some o -> heap (with_heap (heap w ++ [o']) w) !! l = Some o.
Proof. intros H. simpl. apply lookup_app_l_Some, H. Qed.

Lemma lookup_alloc_new w (o : object) :
  heap (with_heap (heap w ++ [o]) w) !! length (heap w) = Some o.
Proof. simpl. apply list_lookup_middle. reflexivity. Qed.

(** C5, amended: when [to_fit] is not empty and some argument [a] of the
    configured system is a key of neither dictionary, [fit] reports
    [MissingParameters] with the list of exactly the arguments that
    neither dictionary names, each once, in the order of [sorted], and
    the minimizer has not run. *)
Theorem fit_missing_parameters (mz : Minimizer) (fuel : nat)
  (self system_parameters : loc) (to_fit : list (string * float))
  (ycoords : list float) (x_parameter y_parameter : string)
  (bounds : option (list (string * (float * float)))) (w : World)
  (d : dict loc) (b : BindingCurve) (sys : BindingSystem) (a : string) :
  heap w !! system_parameters = Some (ODict d) ->
  heap w !! self = Some (OBindingCurve b) ->
  system b = Some sys ->
  to_fit <> [] ->
  a ∈ arguments sys ->
  a ∉ (Dict.keys d ++ Dict.keys to_fit)%list ->
  exists missing,
    fit mz fuel self system_parameters to_fit ycoords x_parameter
        y_parameter bounds w
    = (Reported (MissingParameters missing),
       with_stdout (stdout w ++ message (MissingParameters missing))
         (with_heap (heap w ++ [ODict d]) w)) /\
    StronglySorted Builtins.str_le missing /\
    NoDup missing /\
    (forall x, x ∈ missing <->
               (x ∈ arguments sys) /\ (x ∉ Dict.keys d) /\
               (x ∉ Dict.keys to_fit)) /\
    minimize_calls
      (fit mz fuel self system_parameters to_fit ycoords x_parameter
           y_parameter bounds w).2
    = minimize_calls w.
Proof.
  intros Hd Hb Hsys Hne Ha Hna.
  set (missing := missing_arguments (arguments sys)
                    (Dict.keys d ++ Dict.keys to_fit)%list).
  assert (Hin : a ∈ missing) by (apply missing_arguments_spec; auto).
  assert (Hrun :
    fit mz fuel self system_parameters to_fit ycoords x_parameter
        y_parameter bounds w
    = (Reported (MissingParameters missing),
       with_stdout (stdout w ++ message (MissingParameters missing))
         (with_heap (heap w ++ [ODict d]) w))).
  { unfold fit.
    rewrite (bind_returned _ _ _ _ _ (read_dict_run _ _ _ Hd)).
    rewrite (bind_returned _ _ _ _ _ (alloc_run _ _)).
    destruct to_fit as [| kv to_fit']; [congruence |].
    cbn [Dict.keys fmap list_fmap length Nat.eqb].
    rewrite (bind_returned _ _ _ _ _
               (read_self_run _ _ _ (lookup_alloc_old _ _ _ _ Hb))).
    rewrite Hsys. cbn [from_option]. rewrite bind_ret.
    rewrite (bind_returned _ _ _ _ _
               (read_dict_run _ _ _ (lookup_alloc_new _ _))).
    fold (Dict.keys to_fit'). fold (Dict.keys (kv :: to_fit')).
    change (missing_arguments _ _) with missing.
    destruct missing as [| m missing'].
    - inversion Hin.
    - reflexivity. }
  exists missing. rewrite Hrun. split; [reflexivity |].
  split; [apply sorted_StronglySorted |].
  split; [apply missing_arguments_NoDup |].
  split; [| reflexivity].
  intros x. unfold missing. rewrite missing_arguments_spec.
  rewrite not_elem_of_app. reflexivity.
Qed.

Lemma fit_missing_parameters_witness :
  exists missing,
    fit Sample.two_steps 10 1 0 [("x", 7%float)] [1; 2]%float "P" "PL" None
        (Sample.fitting [("p", VFloat 1%float)] Sample.sum_system)
    = (Reported (MissingParameters missing),
       with_stdout
         (stdout (Sample.fitting [("p", VFloat 1%float)] Sample.sum_system)
            ++ message (MissingParameters missing))
         (with_heap
            (heap (Sample.fitting [("p", VFloat 1%float)] Sample.sum_system)
               ++ [ODict [("p", VFloat 1%float)]])
            (Sample.fitting [("p", VFloat 1%float)] Sample.sum_system))) /\
    StronglySorted Builtins.str_le missing /\
    NoDup missing /\
    (forall x, x ∈ missing <->
               (x ∈ arguments Sample.sum_system) /\
               (x ∉ Dict.keys [("p", VFloat (R := loc) 1%float)]) /\
               (x ∉ Dict.keys [("x", 7%float)])) /\
    minimize_calls
      (fit Sample.two_steps 10 1 0 [("x", 7%float)] [1; 2]%float "P" "PL"
           None
           (Sample.fitting [("p", VFloat 1%float)] Sample.sum_system)).2
    = minimize_calls
        (Sample.fitting [("p", VFloat 1%float)] Sample.sum_system).
Proof.
  apply (fit_missing_parameters Sample.two_steps 10 1 0 [("x", 7%float)]
           [1; 2]%float "P" "PL" None
           (Sample.fitting [("p", VFloat 1%float)] Sample.sum_system)
           [("p", VFloat 1%float)] _ Sample.sum_system "kd"
           eq_refl eq_refl eq_refl).
  - discriminate.
  - compute_done.
  - compute_done.
Defined.

(** C5 as first stated fails when [to_fit] is empty: the system needs
    ["p"] and ["kd"], neither dictionary names them, and [fit] reports
    [NothingToFit], not [MissingParameters]. *)
Lemma fit_missing_parameters_counterexample :
  ("kd" ∈ arguments Sample.sum_system) /\
  ("kd" ∉ (Dict.keys ([] : dict loc)
            ++ Dict.keys ([] : list (string * float)))%list) /\
  (fit Sample.two_steps 10 1 0 [] [1; 2]%float "P" "PL" None
     (Sample.fitting [] Sample.sum_system)).1 = Reported NothingToFit /\
  ~ (exists missing,
       (fit Sample.two_steps 10 1 0 [] [1; 2]%float "P" "PL" None
          (Sample.fitting [] Sample.sum_system)).1
       = Reported (MissingParameters missing)).
Proof.
  split; [compute_done |].
  split; [compute_done |].
  split; [reflexivity |].
  intros [missing H]. vm_compute in H. discriminate H.
Qed.

(** ** [add_curve] *)

Lemma _initialize_plot_run self b w :
  heap w !! self = Some (OBindingCurve b) ->
  _initialize_plot self w = (Returned tt, initialized self b w).
Proof.
  intros Hb. unfold _initialize_plot.
  rewrite (bind_returned _ _ _ _ _ (read_self_run _ _ _ Hb)).
  unfold initialized. destruct (fig b) as [[] |] eqn:Hfig; [reflexivity |].
  assert (Hlt : self < length (heap w)) by (eapply lookup_lt_Some, Hb).
  unfold on_axes, bind, modify, update_self, bind, read_self, write_self,
    modify.
  cbn [heap with_pyplot with_heap]. rewrite Hb.
  cbn [heap with_pyplot with_heap].
  rewrite list_lookup_insert_eq by exact Hlt.
  cbn [heap with_pyplot with_heap axes set_fig_axes set_axes fig].
  rewrite list_lookup_insert_eq by (rewrite length_insert; exact Hlt).
  cbn [heap with_pyplot with_heap axes set_fig_axes set_axes fig].
  rewrite !list_insert_insert_eq.
  unfold with_pyplot, with_heap. cbn. rewrite <- app_assoc. reflexivity.
Qed.

Lemma initialized_lookup self b w :
  heap w !! self = Some (OBindingCurve b) ->
  exists b1,
    heap (initialized self b w) !! self = Some (OBindingCurve b1) /\
    system b1 = system b /\
    _min_x_axis b1 = _min_x_axis b /\ _max_x_axis b1 = _max_x_axis b /\
    _min_y_axis b1 = _min_y_axis b /\ _max_y_axis b1 = _max_y_axis b /\
    _num_added_traces b1 = _num_added_traces b /\
    _last_known_changing_parameter b1 = _last_known_changing_parameter b /\
    _last_known_readout b1 = _last_known_readout b /\
    (fig b <> None -> b1 = b) /\
    (fig b = None -> fig b1 = Some tt /\ exists a, axes b1 = Some a).
Proof.
  intros Hb. unfold initialized. destruct (fig b) as [[] |] eqn:Hfig.
  - exists b. repeat split; try reflexivity; try exact Hb; congruence.
  - eexists. split.
    + apply (lookup_with_heap_insert _ _ _ _ Hb).
    + repeat split; try reflexivity; try congruence. eexists. reflexivity.
Qed.

Lemma initialized_frame self b w l :
  l <> self -> heap (initialized self b w) !! l = heap w !! l.
Proof.
  intros Hne. unfold initialized. destruct (fig b); [reflexivity |].
  simpl. apply list_lookup_insert_ne. congruence.
Qed.

Lemma initialized_curves self b w : curves (initialized self b w) = curves w.
Proof. unfold initialized. destruct (fig b); reflexivity. Qed.

Lemma initialized_stdout self b w : stdout (initialized self b w) = stdout w.
Proof. unfold initialized. destruct (fig b); reflexivity. Qed.

(** The number of sequence-valued entries of a parameter mapping. *)
Lemma _find_changing_parameters_length {R : Type} (params : dict R) l :
  _find_changing_parameters params = Some l ->
  l = List.filter (fun p => is_sequence (Dict.get p params)) (Dict.keys params)
  /\ l <> [].
Proof.
  unfold _find_changing_parameters.
  destruct (List.filter _ _) as [| p l'] eqn:E; simpl; [discriminate |].
  intros [= <-]. split; [reflexivity | discriminate].
Qed.

(** C1, amended: on an accumulator with a system, a parameter mapping
    with two or more sequence-valued entries makes [add_curve] report
    [InvalidSweepSpecification]; the curve list, the axis bounds, the trace
    counter and the last known names are as before, and so are the figure
    and the axes when the figure existed; otherwise the figure and the
    axes have been created. *)
Theorem add_curve_invalid_sweep (self : loc) (parameters : dict loc)
  (readout curve_name : option string) (w : World) (b : BindingCurve)
  (sys : BindingSystem) :
  heap w !! self = Some (OBindingCurve b) ->
  system b = Some sys ->
  2 <= length (List.filter (fun p => is_sequence (Dict.get p parameters))
                 (Dict.keys parameters)) ->
  exists w' b',
    add_curve self parameters readout curve_name w
    = (Reported InvalidSweepSpecification, w') /\
    stdout w' = (stdout w ++ message InvalidSweepSpecification)%list /\
    curves w' = curves w /\
    (forall l, l <> self -> heap w' !! l = heap w !! l) /\
    heap w' !! self = Some (OBindingCurve b') /\
    _min_x_axis b' = _min_x_axis b /\ _max_x_axis b' = _max_x_axis b /\
    _min_y_axis b' = _min_y_axis b /\ _max_y_axis b' = _max_y_axis b /\
    _num_added_traces b' = _num_added_traces b /\
    _last_known_changing_parameter b' = _last_known_changing_parameter b /\
    _last_known_readout b' = _last_known_readout b /\
    (fig b <> None -> b' = b) /\
    (fig b = None -> fig b' = Some tt /\ exists a, axes b' = Some a).
Proof.
  intros Hb Hsys Hlen.
  destruct (initialized_lookup self b w Hb) as (b1 & Hb1 & Hrest).
  exists (with_stdout (stdout (initialized self b w)
                         ++ message InvalidSweepSpecification)
            (initialized self b w)), b1.
  split.
  { unfold add_curve.
    rewrite (bind_returned _ _ _ _ _ (read_self_run _ _ _ Hb)).
    rewrite Hsys.
    rewrite (bind_returned _ _ _ _ _ (_initialize_plot_run _ _ _ Hb)).
    unfold _find_changing_parameters.
    destruct (List.filter _ _) as [| p [| q l]] eqn:E; simpl in Hlen;
      [lia | lia |].
    reflexivity. }
  split; [simpl; rewrite initialized_stdout; reflexivity |].
  split; [simpl; apply initialized_curves |].
  split; [intros l Hl; simpl; apply initialized_frame, Hl |].
  split; [exact Hb1 |].
  destruct Hrest as (_ & Hrest). exact Hrest.
Qed.

Lemma add_curve_invalid_sweep_witness :
  exists w' b',
    add_curve 0 [("p", VArray [1%float]); ("l", VArray [3; 4]%float)]
      (Some "pl") None Sample.one_instance
    = (Reported InvalidSweepSpecification, w') /\
    stdout w' = (stdout Sample.one_instance
                   ++ message InvalidSweepSpecification)%list /\
    curves w' = curves Sample.one_instance /\
    (forall l, l <> 0 -> heap w' !! l = heap Sample.one_instance !! l) /\
    heap w' !! 0 = Some (OBindingCurve b') /\
    _min_x_axis b' = 0%float /\ _max_x_axis b' = 0%float /\
    _min_y_axis b' = 0%float /\ _max_y_axis b' = 0%float /\
    _num_added_traces b' = 0 /\
    _last_known_changing_parameter b' = "X" /\
    _last_known_readout b' = Some "Y" /\
    (fig (set_system (Some Sample.analytical_system) class_defaults) <> None ->
     b' = set_system (Some Sample.analytical_system) class_defaults) /\
    (fig (set_system (Some Sample.analytical_system) class_defaults) = None ->
     fig b' = Some tt /\ exists a, axes b' = Some a).
Proof.
  apply (add_curve_invalid_sweep 0
           [("p", VArray [1%float]); ("l", VArray [3; 4]%float)]
           (Some "pl") None Sample.one_instance
           (set_system (Some Sample.analytical_system) class_defaults)
           Sample.analytical_system eq_refl eq_refl).
  vm_compute. lia.
Defined.

(** C1 as first stated fails in three ways.  With no sequence-valued
    entry the call does not report anything: [_find_changing_parameters]
    gives [None] and [len(None)] raises [TypeError].  With two
    sequence-valued entries the report is made, but on a new accumulator
    the figure and the axes have been created before it.  And on an
    accumulator without a system the report is [NoSystemConfigured],
    whatever the parameters. *)
Lemma add_curve_invalid_sweep_counterexample :
  List.filter (fun p => is_sequence (Dict.get p [("p", VFloat (R := loc) 1%float)]))
    (Dict.keys [("p", VFloat (R := loc) 1%float)]) = [] /\
  (add_curve 0 [("p", VFloat 1%float)] (Some "pl") None
     Sample.one_instance).1 = Raised TypeError /\
  (add_curve 0 [("p", VArray [1%float]); ("l", VArray [3; 4]%float)]
     (Some "pl") None Sample.one_instance).1
  = Reported InvalidSweepSpecification /\
  (add_curve 0 [("p", VArray [1%float]); ("l", VArray [3; 4]%float)]
     (Some "pl") None Sample.no_system).1
  = Reported NoSystemConfigured /\
  attribute fig 0 Sample.one_instance = Some None /\
  attribute axes 0 Sample.one_instance = Some None /\
  attribute fig 0
    (add_curve 0 [("p", VArray [1%float]); ("l", VArray [3; 4]%float)]
       (Some "pl") None Sample.one_instance).2 = Some (Some tt) /\
  attribute axes 0
    (add_curve 0 [("p", VArray [1%float]); ("l", VArray [3; 4]%float)]
       (Some "pl") None Sample.one_instance).2
  = Some (Some (Plt.set_ylim 0 1 (Plt.set_grid true Plt.new_axes))).
Proof. repeat split; vm_compute; reflexivity. Qed.

Lemma add_curve_never_missing_readout (self : loc) (parameters : dict loc)
  (readout curve_name : option string) :
  quiet MissingReadout (add_curve self parameters readout curve_name).
Proof.
  unfold add_curve. apply quiet_bind; [apply quiet_read_self |].
  intros b. destruct (system b) as [sys |];
    [| apply quiet_report; discriminate].
  apply quiet_bind; [apply quiet__initialize_plot | intros _].
  apply quiet_bind; [apply quiet_from_option | intros changing].
  destruct (negb _); [apply quiet_report; discriminate |].
  repeat first
    [ apply quiet_from_option | apply quiet_from_query
    | apply quiet_modify | apply quiet_get_world | apply quiet_read_self
    | apply quiet_update_self | apply quiet_write_self | apply quiet_raise
    | match goal with
      | |- quiet _ (if ?c then _ else _) => destruct c
      end
    | apply quiet_bind; [| intros ?] ].
Qed.

(** The one place where [MissingReadout] is reported: the [query] of the
    accumulator itself, on a system that is not analytical. *)
Lemma BindingCurve_query_missing_readout (self : loc)
  (parameters : dict loc) (w : World) (b : BindingCurve)
  (sys : BindingSystem) :
  heap w !! self = Some (OBindingCurve b) ->
  system b = Some sys ->
  analytical sys = false ->
  BindingCurve_query self parameters w
  = (Reported MissingReadout,
     with_stdout (stdout w ++ message MissingReadout) w).
Proof.
  intros Hb Hsys Hana. unfold BindingCurve_query.
  rewrite (bind_returned _ _ _ _ _ (read_self_run _ _ _ Hb)).
  rewrite Hsys. cbn [from_option]. rewrite bind_ret, Hana. reflexivity.
Qed.

Lemma changing_parameter_is_sequence {R : Type} (params : dict R) p l :
  _find_changing_parameters params = Some (p :: l) ->
  exists x, Dict.get p params ≫= sequence_items = Some x.
Proof.
  intros H. apply _find_changing_parameters_length in H as [H _].
  assert (Hin : In p (List.filter
                        (fun p => is_sequence (Dict.get p params))
                        (Dict.keys params))) by (rewrite <- H; left; reflexivity).
  apply filter_In in Hin as [_ Hseq].
  destruct (Dict.get p params) as [[| f | a | a | r] |]; try discriminate;
    eexists; reflexivity.
Qed.

(** The steps of [add_curve] up to the query, when there is a system and
    one changing parameter. *)
Ltac enter_add_curve Hb Hsys Hcp :=
  unfold add_curve;
  rewrite (bind_returned _ _ _ _ _ (read_self_run _ _ _ Hb));
  rewrite Hsys;
  rewrite (bind_returned _ _ _ _ _ (_initialize_plot_run _ _ _ Hb));
  rewrite Hcp; cbn [from_option]; rewrite bind_ret;
  cbn [length Nat.eqb negb];
  unfold get_world at 1; unfold bind at 1.

(** C3, amended: with exactly one changing parameter, [add_curve] asks an
    analytical system [query(parameters)], whatever the readout, and any
    other system [query(parameters, readout)] with the readout as it was
    given, [None] included.  An exception of the query is the call's; a
    result becomes the y coordinates of the curve appended to the curve
    list.  [add_curve] never reports [MissingReadout]. *)
Theorem add_curve_dispatch (self : loc) (parameters : dict loc)
  (readout curve_name : option string) (w : World) (b : BindingCurve)
  (sys : BindingSystem) (p : string) :
  heap w !! self = Some (OBindingCurve b) ->
  system b = Some sys ->
  _find_changing_parameters parameters = Some [p] ->
  (forall e,
     (if analytical sys
      then query1 sys (view (heap (initialized self b w)) parameters)
      else query2 sys (view (heap (initialized self b w)) parameters) readout)
     = QRaise e ->
     add_curve self parameters readout curve_name w
     = (Raised e, initialized self b w)) /\
  (forall y,
     (if analytical sys
      then query1 sys (view (heap (initialized self b w)) parameters)
      else query2 sys (view (heap (initialized self b w)) parameters) readout)
     = QOk y ->
     exists x,
       Dict.get p parameters ≫= sequence_items = Some x /\
       curves (add_curve self parameters readout curve_name w).2
       = (curves w ++ [{| xcoords := x; ycoords := y; name := EmptyString |}])%list) /\
  (add_curve self parameters readout curve_name w).1
  <> Reported MissingReadout.
Proof.
  intros Hb Hsys Hcp.
  assert (Hneg : (if negb (analytical sys)
                  then query2 sys (view (heap (initialized self b w))
                                     parameters) readout
                  else query1 sys (view (heap (initialized self b w))
                                     parameters))
                 = (if analytical sys
                    then query1 sys (view (heap (initialized self b w))
                                       parameters)
                    else query2 sys (view (heap (initialized self b w))
                                       parameters) readout))
    by (destruct (analytical sys); reflexivity).
  split; [| split].
  - intros e Hq. enter_add_curve Hb Hsys Hcp.
    rewrite Hneg, Hq. reflexivity.
  - intros y Hq.
    destruct (changing_parameter_is_sequence _ _ _ Hcp) as [x Hx].
    exists x. split; [exact Hx |].
    enter_add_curve Hb Hsys Hcp. rewrite Hneg, Hq.
    cbn [from_query head from_option]. rewrite !bind_ret.
    rewrite Hx. cbn [from_option]. rewrite bind_ret.
    apply (holds_after_bind (fun w' => curves w' = _)).
    + simpl. rewrite initialized_curves. reflexivity.
    + intros [].
      repeat first
        [ apply keeps_from_option | apply keeps_read_self
        | apply keeps_update_self; intros ? ? HP; exact HP
        | apply keeps_write_self; intros ? ? HP; exact HP
        | apply keeps_raise
        | match goal with
          | |- keeps _ (if ?c then _ else _) => destruct c
          end
        | apply keeps_bind; [| intros ?] ].
  - apply add_curve_never_missing_readout.
Qed.

Lemma add_curve_dispatch_witness :
  (forall e,
     (if analytical Sample.kinetic_system
      then query1 Sample.kinetic_system
             (view (heap (initialized 0
                            (set_system (Some Sample.kinetic_system)
                               class_defaults) Sample.kinetic_instance))
                (Sample.sweep [1; 2]%float))
      else query2 Sample.kinetic_system
             (view (heap (initialized 0
                            (set_system (Some Sample.kinetic_system)
                               class_defaults) Sample.kinetic_instance))
                (Sample.sweep [1; 2]%float)) None)
     = QRaise e ->
     add_curve 0 (Sample.sweep [1; 2]%float) None None Sample.kinetic_instance
     = (Raised e,
        initialized 0 (set_system (Some Sample.kinetic_system) class_defaults)
          Sample.kinetic_instance)) /\
  (forall y,
     (if analytical Sample.kinetic_system
      then query1 Sample.kinetic_system
             (view (heap (initialized 0
                            (set_system (Some Sample.kinetic_system)
                               class_defaults) Sample.kinetic_instance))
                (Sample.sweep [1; 2]%float))
      else query2 Sample.kinetic_system
             (view (heap (initialized 0
                            (set_system (Some Sample.kinetic_system)
                               class_defaults) Sample.kinetic_instance))
                (Sample.sweep [1; 2]%float)) None)
     = QOk y ->
     exists x,
       Dict.get "l" (Sample.sweep [1; 2]%float) ≫= sequence_items = Some x /\
       curves (add_curve 0 (Sample.sweep [1; 2]%float) None None
                 Sample.kinetic_instance).2
       = (curves Sample.kinetic_instance
            ++ [{| xcoords := x; ycoords := y; name := EmptyString |}])%list) /\
  (add_curve 0 (Sample.sweep [1; 2]%float) None None
     Sample.kinetic_instance).1
  <> Reported MissingReadout.
Proof.
  apply (add_curve_dispatch 0 (Sample.sweep [1; 2]%float) None None
           Sample.kinetic_instance
           (set_system (Some Sample.kinetic_system) class_defaults)
           Sample.kinetic_system "l" eq_refl eq_refl eq_refl).
Defined.

(** C3 as first stated fails in its last part: on a system that is not
    analytical, a call without a readout is not refused.  The query is
    made with [None] for the readout and its result is plotted. *)
Lemma add_curve_dispatch_counterexample :
  analytical Sample.kinetic_system = false /\
  (add_curve 0 (Sample.sweep [1; 2]%float) None None
     Sample.kinetic_instance).1 = Returned tt /\
  curves (add_curve 0 (Sample.sweep [1; 2]%float) None None
            Sample.kinetic_instance).2
  = [{| xcoords := [1; 2]%float; ycoords := Array [1; 2]%float;
        name := EmptyString |}] /\
  (add_curve 0 (Sample.sweep [1; 2]%float) None None
     Sample.kinetic_instance).1 <> Reported MissingReadout.
Proof.
  split; [reflexivity |].
  split; [vm_compute; reflexivity |].
  split; [vm_compute; reflexivity |].
  vm_compute. discriminate.
Qed.

(** ** [add_curve]: the running bounds *)

Ltac forget_world Hcur :=
  lazymatch type of Hcur with
  | heap ?wn !! _ = _ =>
      let n := fresh "w" in set (n := wn) in *; clearbody n
  end.

Ltac step_update H Hcur :=
  lazymatch type of H with
  | bind (update_self ?self ?f) _ ?w = _ =>
      lazymatch type of Hcur with
      | heap _ !! _ = Some (OBindingCurve ?b0) =>
          rewrite (bind_returned _ _ _ _ _ (update_self_run self f b0 w Hcur))
            in H;
          apply (lookup_with_heap_insert w self _ (OBindingCurve (f b0)))
            in Hcur;
          forget_world Hcur
      end
  end.

Ltac step_read H Hcur :=
  rewrite (bind_returned _ _ _ _ _ (read_self_run _ _ _ Hcur)) in H.

Ltac step_option H x Hx :=
  let w1 := fresh "w" in
  let Hw := fresh "Hw" in
  apply bind_inv_returned in H as (x & w1 & Hx & H);
  apply from_option_inv in Hx as [Hx Hw]; subst w1.

(** What a successful [add_curve] leaves in the four bounds: the upper X
    bound merges with the last x value, the lower X bound with the first,
    the upper Y bound with the maximum of the y values; the lower Y bound
    is the minimum of the y values and nothing else. *)
Lemma add_curve_bounds (self : loc) (parameters : dict loc)
  (readout curve_name : option string) (w w' : World) (b : BindingCurve)
  (sys : BindingSystem) (p : string) :
  heap w !! self = Some (OBindingCurve b) ->
  system b = Some sys ->
  _find_changing_parameters parameters = Some [p] ->
  add_curve self parameters readout curve_name w = (Returned tt, w') ->
  exists x y b',
    Dict.get p parameters ≫= sequence_items = Some x /\
    (if analytical sys
     then query1 sys (view (heap (initialized self b w)) parameters)
     else query2 sys (view (heap (initialized self b w)) parameters) readout)
    = QOk y /\
    heap w' !! self = Some (OBindingCurve b') /\
    Some (_max_x_axis b') = fmax (_max_x_axis b) <$> last x /\
    Some (_min_x_axis b') = fmin (_min_x_axis b) <$> head x /\
    Some (_min_y_axis b') = nanmin_nd y /\
    Some (_max_y_axis b') = fmax (_max_y_axis b) <$> nanmax_nd y /\
    _num_added_traces b' = _num_added_traces b + 1.
Proof.
  intros Hb Hsys Hcp Hrun.
  destruct (changing_parameter_is_sequence _ _ _ Hcp) as [x Hx].
  destruct (initialized_lookup self b w Hb)
    as (b1 & Hcur & _ & Hnx & Hxx & Hny & Hxy & Hn & _).
  revert Hrun. enter_add_curve Hb Hsys Hcp. intros Hrun.
  assert (Hneg : (if negb (analytical sys)
                  then query2 sys (view (heap (initialized self b w))
                                     parameters) readout
                  else query1 sys (view (heap (initialized self b w))
                                     parameters))
                 = (if analytical sys
                    then query1 sys (view (heap (initialized self b w))
                                       parameters)
                    else query2 sys (view (heap (initialized self b w))
                                       parameters) readout))
    by (destruct (analytical sys); reflexivity).
  rewrite Hneg in Hrun.
  destruct (if analytical sys then _ else _) as [y | e] eqn:Hq;
    [| discriminate].
  exists x, y.
  cbn [from_query head from_option] in Hrun. rewrite !bind_ret in Hrun.
  rewrite Hx in Hrun. cbn [from_option] in Hrun. rewrite bind_ret in Hrun.
  unfold modify at 1 in Hrun. unfold bind at 1 in Hrun.
  change (heap (initialized self b w)) with
    (heap (with_curves (curves (initialized self b w) ++
             [{| xcoords := x; ycoords := y; name := EmptyString |}])
             (initialized self b w))) in Hcur.
  forget_world Hcur.
  step_update Hrun Hcur. step_update Hrun Hcur. step_update Hrun Hcur.
  step_read Hrun Hcur.
  step_option Hrun a Ha. step_option Hrun colour Hcolour.
  destruct (Plt.plottable x y); [| discriminate].
  unfold write_self at 1, modify at 1 in Hrun. unfold bind at 1 in Hrun.
  lazymatch type of Hrun with
  | _ (with_heap (<[_ := ?o]> _) _) = _ =>
      apply (lookup_with_heap_insert w3 self _ o) in Hcur
  end.
  forget_world Hcur.
  step_option Hrun x_last Hxl. step_read Hrun Hcur.
  cbn [nanmax fold_left from_option] in Hrun. rewrite bind_ret in Hrun.
  step_update Hrun Hcur.
  step_option Hrun x_first Hxf. step_read Hrun Hcur.
  cbn [nanmin fold_left from_option] in Hrun. rewrite bind_ret in Hrun.
  step_update Hrun Hcur.
  step_option Hrun y_min Hymin. step_update Hrun Hcur.
  step_option Hrun y_max Hymax. step_read Hrun Hcur.
  cbn [nanmax fold_left from_option] in Hrun. rewrite bind_ret in Hrun.
  rewrite (update_self_run _ _ _ _ Hcur) in Hrun.
  injection Hrun as <-.
  eexists. split; [exact Hx |]. split; [reflexivity |].
  split; [apply (lookup_with_heap_insert _ _ _ _ Hcur) |].
  rewrite Hxl, Hxf, Hymin, Hymax. cbn. rewrite Hxx, Hnx, Hxy, Hn.
  repeat split; reflexivity.
Qed.

(** C2 fails on the code.  Two curves are added to a new accumulator, the
    first with y values [1, 2], the second with [3, 4]; both calls
    succeed.  The lower Y bound is then 3, the minimum of the second curve
    alone: merged with the bound of 1 that the first call left, or taken
    over the y values of both curves, it would be 1.  The other three
    bounds do merge with what was there. *)
Theorem add_curve_min_y_axis_of_last_curve :
  (add_curve 0 (Sample.sweep [1; 2]%float) (Some "pl") None
     Sample.one_instance).1 = Returned tt /\
  (add_curve 0 (Sample.sweep [3; 4]%float) (Some "pl") None
     Sample.plotted).1 = Returned tt /\
  attribute _min_y_axis 0 Sample.plotted = Some 1%float /\
  attribute _min_y_axis 0 Sample.plotted_twice = Some 3%float /\
  fmin 1%float 3%float = 1%float /\
  nanmin (Sample.all_y (curves Sample.plotted_twice)) = Some 1%float /\
  attribute _max_y_axis 0 Sample.plotted_twice = Some 4%float /\
  attribute _min_x_axis 0 Sample.plotted_twice = Some 0%float /\
  attribute _max_x_axis 0 Sample.plotted_twice = Some 4%float.
Proof. repeat split; vm_compute; reflexivity. Qed.

(** ** [add_curve]: one instance and the others *)

Section Frame.

Variable self other : loc.
Hypothesis other_self : other <> self.
Variable o : option object.

Lemma frame_write_self b : keeps (other_holds other o) (write_self self b).
Proof.
  intros w Hw. unfold other_holds in *. simpl.
  rewrite list_lookup_insert_ne by congruence. exact Hw.
Qed.

Lemma frame_update_self f : keeps (other_holds other o) (update_self self f).
Proof.
  apply keeps_bind; [apply keeps_read_self | intros b; apply frame_write_self].
Qed.

Lemma frame_on_axes f : keeps (other_holds other o) (on_axes self f).
Proof.
  apply keeps_bind; [apply keeps_read_self |]. intros b.
  destruct (axes b); [apply frame_write_self | apply keeps_raise].
Qed.

Lemma frame_modify (f : World -> World) :
  (forall w, heap (f w) = heap w) -> keeps (other_holds other o) (modify f).
Proof.
  intros Hf. apply keeps_modify. intros w Hw. unfold other_holds.
  rewrite Hf. exact Hw.
Qed.

Lemma frame_report {A : Type} (d : Diagnostic) :
  keeps (other_holds other o) (@report A d).
Proof. intros w Hw. exact Hw. Qed.

Lemma frame__initialize_plot : keeps (other_holds other o) (_initialize_plot self).
Proof.
  unfold _initialize_plot. apply keeps_bind; [apply keeps_read_self |].
  intros b. destruct (fig b); [apply keeps_ret |].
  repeat first
    [ apply frame_update_self | apply frame_on_axes
    | apply frame_modify; intros ?; reflexivity
    | apply keeps_bind; [| intros ?] ].
Qed.

(** Whatever [add_curve] does on [self], every other object of the store
    is as it was: axis bounds, trace counter, figure and axes are the
    instance's own. *)
Lemma add_curve_frame (parameters : dict loc)
  (readout curve_name : option string) :
  keeps (other_holds other o) (add_curve self parameters readout curve_name).
Proof.
  unfold add_curve. apply keeps_bind; [apply keeps_read_self |].
  intros b. destruct (system b) as [sys |]; [| apply frame_report].
  apply keeps_bind; [apply frame__initialize_plot | intros _].
  apply keeps_bind; [apply keeps_from_option | intros changing].
  destruct (negb _); [apply frame_report |].
  repeat first
    [ apply keeps_from_option | apply keeps_from_query
    | apply keeps_read_self | apply keeps_get_world
    | apply frame_update_self | apply frame_write_self
    | apply frame_modify; intros ?; reflexivity
    | apply keeps_raise
    | match goal with
      | |- keeps _ (if ?c then _ else _) => destruct c
      end
    | apply keeps_bind; [| intros ?] ].
Qed.

End Frame.

(** C7 fails on the code.  Two accumulators are constructed, at addresses
    0 and 1, and a curve is added to the first.  The attributes of the
    second are as they were, bounds and trace counter among them, but its
    curve list, which was empty, now holds the curve of the first: both
    read the one list of the class. *)
Theorem add_curve_curve_list_is_shared :
  (add_curve 0 (Sample.sweep [1; 2]%float) (Some "pl") None
     Sample.two_instances).1 = Returned tt /\
  heap (add_curve 0 (Sample.sweep [1; 2]%float) (Some "pl") None
          Sample.two_instances).2 !! 1
  = heap Sample.two_instances !! 1 /\
  self_curves 1 Sample.two_instances = [] /\
  self_curves 1
    (add_curve 0 (Sample.sweep [1; 2]%float) (Some "pl") None
       Sample.two_instances).2
  = [{| xcoords := [1; 2]%float; ycoords := Array [1; 2]%float;
        name := EmptyString |}].
Proof. repeat split; vm_compute; reflexivity. Qed.

(** ** Dictionaries *)

Lemma get_set_eq {V : Type} (k : string) (v : V) (d : list (string * V)) :
  Dict.get k (Dict.set k v d) = Some v.
Proof.
  induction d as [| [k' v'] d IH]; simpl.
  - rewrite decide_True by reflexivity. reflexivity.
  - destruct (decide (k = k')) as [-> | Hne]; simpl.
    + rewrite decide_True by reflexivity. reflexivity.
    + rewrite decide_False by exact Hne. exact IH.
Qed.

Lemma get_set_ne {V : Type} (k k' : string) (v : V) (d : list (string * V)) :
  k <> k' -> Dict.get k' (Dict.set k v d) = Dict.get k' d.
Proof.
  intros Hne. induction d as [| [k0 v0] d IH]; simpl.
  - rewrite decide_False by congruence. reflexivity.
  - destruct (decide (k = k0)) as [-> | Hne0]; simpl.
    + rewrite !decide_False by congruence. reflexivity.
    + destruct (decide (k' = k0)); [reflexivity | exact IH].
Qed.

Lemma get_overlay_notin (params : Parameters) (d : dict loc) (k : string) :
  k ∉ Dict.keys params -> Dict.get k (overlay params d) = Dict.get k d.
Proof.
  unfold overlay. revert d.
  induction params as [| [k0 r0] params IH]; intros d Hk; simpl;
    [reflexivity |].
  apply not_elem_of_cons in Hk as [Hne Hk]. simpl in Hne.
  rewrite IH by exact Hk. apply get_set_ne. congruence.
Qed.

Lemma get_overlay_in (params : Parameters) (d : dict loc) (k : string)
  (r : loc) :
  NoDup (Dict.keys params) -> (k, r) ∈ params ->
  Dict.get k (overlay params d) = Some (VParameter r).
Proof.
  unfold overlay. revert d.
  induction params as [| [k0 r0] params IH]; intros d Hnd Hin; simpl.
  - inversion Hin.
  - apply NoDup_cons in Hnd as [Hk0 Hnd].
    apply elem_of_cons in Hin as [[= -> ->] | Hin].
    + fold (overlay params (Dict.set k0 (VParameter r0) d)).
      rewrite get_overlay_notin by exact Hk0. apply get_set_eq.
    + apply IH; assumption.
Qed.

Lemma get_fmap {V W : Type} (f : V -> W) (k : string)
  (d : list (string * V)) :
  Dict.get k (prod_map id f <$> d) = f <$> Dict.get k d.
Proof.
  induction d as [| [k' v] d IH]; simpl; [reflexivity |].
  destruct (decide (k = k')); [reflexivity | exact IH].
Qed.

Lemma get_elem_of {V : Type} (k : string) (v : V) (d : list (string * V)) :
  NoDup (Dict.keys d) -> (k, v) ∈ d -> Dict.get k d = Some v.
Proof.
  induction d as [| [k' v'] d IH]; intros Hnd Hin; simpl.
  - inversion Hin.
  - apply NoDup_cons in Hnd as [Hk Hnd].
    apply elem_of_cons in Hin as [[= -> ->] | Hin].
    + rewrite decide_True by reflexivity. reflexivity.
    + destruct (decide (k = k')) as [-> | Hne]; [| apply IH; assumption].
      exfalso. apply Hk. unfold Dict.keys.
      apply (list_elem_of_fmap_2 fst _ (k', v)). exact Hin.
Qed.

Lemma set_set_eq {V : Type} (k : string) (v v0 : V) (d : list (string * V)) :
  Dict.set k v (Dict.set k v0 d) = Dict.set k v d.
Proof.
  induction d as [| [k' v'] d IH]; simpl.
  - rewrite decide_True by reflexivity. reflexivity.
  - destruct (decide (k = k')) as [-> | Hne]; simpl.
    + rewrite decide_True by reflexivity. reflexivity.
    + rewrite decide_False by exact Hne. rewrite IH. reflexivity.
Qed.

Lemma set_set_present {V : Type} (k k' : string) (v v' : V)
  (d : list (string * V)) :
  k ∈ Dict.keys d -> k <> k' ->
  Dict.set k v (Dict.set k' v' d) = Dict.set k' v' (Dict.set k v d).
Proof.
  intros Hin Hne. induction d as [| [k0 v0] d IH]; simpl.
  - inversion Hin.
  - apply elem_of_cons in Hin as [Hin | Hin]; simpl in Hin.
    + subst k0. rewrite (decide_False (P := k' = k)) by congruence.
      rewrite (decide_True (P := k = k)) by reflexivity. simpl.
      rewrite (decide_True (P := k = k)) by reflexivity.
      rewrite (decide_False (P := k' = k)) by congruence. reflexivity.
    + specialize (IH Hin).
      destruct (decide (k' = k0)) as [-> | Hne'];
        destruct (decide (k = k0)) as [-> | Hne0]; simpl;
        repeat case_decide; try congruence.
Qed.

Lemma keys_set_present {V : Type} (k : string) (v : V)
  (d : list (string * V)) : k ∈ Dict.keys (Dict.set k v d).
Proof.
  induction d as [| [k0 v0] d IH]; simpl.
  - left.
  - destruct (decide (k = k0)); simpl; [left | right; exact IH].
Qed.

Lemma keys_set_mono {V : Type} (k k' : string) (v : V)
  (d : list (string * V)) :
  k ∈ Dict.keys d -> k ∈ Dict.keys (Dict.set k' v d).
Proof.
  intros Hin. induction d as [| [k0 v0] d IH]; simpl.
  - inversion Hin.
  - destruct (decide (k' = k0)) as [-> | Hne]; simpl; [exact Hin |].
    apply elem_of_cons in Hin as [Hin | Hin]; simpl in Hin;
      [subst k0; left | right; auto].
Qed.

Lemma set_overlay_present (k : string) (r : loc) (ps : Parameters)
  (d : dict loc) :
  k ∈ Dict.keys d -> k ∉ Dict.keys ps ->
  Dict.set k (VParameter r) (overlay ps d)
  = overlay ps (Dict.set k (VParameter r) d).
Proof.
  unfold overlay. revert d.
  induction ps as [| [k0 r0] ps IH]; intros d Hin Hk; simpl; [reflexivity |].
  apply not_elem_of_cons in Hk as [Hne Hk]. simpl in Hne.
  rewrite IH by (try apply keys_set_mono; assumption).
  f_equal. apply set_set_present; assumption.
Qed.

(** When the same names are overlaid again, as the minimizer does from
    one evaluation to the next, nothing of the earlier overlay is left. *)
Lemma overlay_again (ps0 ps : Parameters) (d : dict loc) :
  Dict.keys ps0 = Dict.keys ps -> NoDup (Dict.keys ps) ->
  overlay ps (overlay ps0 d) = overlay ps d.
Proof.
  revert ps d. induction ps0 as [| [k r0] ps0 IH];
    intros [| [k' r] ps] d Hkeys Hnd; try discriminate; [reflexivity |].
  injection Hkeys as <- Hkeys. apply NoDup_cons in Hnd as [Hk Hnd].
  change (overlay ((k, r) :: ps) ?x)
    with (overlay ps (Dict.set k (VParameter r) x)).
  change (overlay ((k, r0) :: ps0) d)
    with (overlay ps0 (Dict.set k (VParameter r0) d)).
  rewrite set_overlay_present
    by (try apply keys_set_present; rewrite Hkeys; exact Hk).
  rewrite set_set_eq. apply IH; assumption.
Qed.

(** ** The residual *)

(** The world after [system_parameters] has taken the trial parameters. *)
Lemma _residual_run (self : loc) (params : Parameters)
  (system_parameters : loc) (to_fit : list (string * float))
  (y : list float) (readout : option string) (w : World) (d : dict loc)
  (b : BindingCurve) (sys : BindingSystem) :
  heap w !! system_parameters = Some (ODict d) ->
  heap w !! self = Some (OBindingCurve b) ->
  system b = Some sys ->
  _residual self params system_parameters to_fit y readout w
  = match (if analytical sys
           then query1 sys
                  (view (<[system_parameters := ODict (overlay params d)]>
                           (heap w)) (overlay params d))
           else query2 sys
                  (view (<[system_parameters := ODict (overlay params d)]>
                           (heap w)) (overlay params d)) readout)
    with
    | QRaise e =>
        (Raised e,
         with_heap (<[system_parameters := ODict (overlay params d)]>
                      (heap w)) w)
    | QOk v =>
        (match Np.sub v y with
         | Some r => Returned r
         | None => Raised ValueError
         end,
         with_heap (<[system_parameters := ODict (overlay params d)]>
                      (heap w)) w)
    end.
Proof.
  intros Hd Hb Hsys.
  assert (Hne : self <> system_parameters) by congruence.
  unfold _residual.
  rewrite (bind_returned _ _ _ _ _ (read_dict_run _ _ _ Hd)).
  unfold write_dict, modify. unfold bind at 1.
  set (w1 := with_heap _ w).
  assert (Hb1 : heap w1 !! self = Some (OBindingCurve b)).
  { subst w1. simpl. rewrite list_lookup_insert_ne by congruence. exact Hb. }
  assert (Hd1 : heap w1 !! system_parameters = Some (ODict (overlay params d)))
    by (apply (lookup_with_heap_insert _ _ _ _ Hd)).
  rewrite (bind_returned _ _ _ _ _ (read_self_run _ _ _ Hb1)).
  rewrite Hsys. cbn [from_option]. rewrite bind_ret.
  rewrite (bind_returned _ _ _ _ _ (read_dict_run _ _ _ Hd1)).
  unfold get_world at 1. unfold bind at 1.
  change (heap w1) with
    (<[system_parameters := ODict (overlay params d)]> (heap w)).
  destruct (analytical sys); cbn [negb].
  - destruct (query1 sys _) as [v | e]; cbn [from_query];
      [| reflexivity].
    rewrite bind_ret. destruct (Np.sub v y); reflexivity.
  - destruct (query2 sys _ readout) as [v | e]; cbn [from_query];
      [| reflexivity].
    rewrite bind_ret. destruct (Np.sub v y); reflexivity.
Qed.

Lemma sub_elementwise (a y : list float) (i : nat) (x o : float) :
  length a = length y -> a !! i = Some x -> y !! i = Some o ->
  exists r, Np.sub (Array a) y = Some (Array r) /\
            length r = length y /\
            r !! i = Some (PrimFloat.sub x o).
Proof.
  intros Hlen Hx Ho. unfold Np.sub. rewrite decide_True by exact Hlen.
  eexists. split; [reflexivity |]. split.
  - rewrite length_zip_with. lia.
  - rewrite lookup_zip_with, Hx, Ho. reflexivity.
Qed.

(** The world [_residual] leaves: the dictionary has taken the trial
    parameters, whatever the system then answers. *)
Lemma _residual_world (self : loc) (params : Parameters)
  (system_parameters : loc) (to_fit : list (string * float))
  (y : list float) (readout : option string) (w : World) (d : dict loc)
  (b : BindingCurve) (sys : BindingSystem) :
  heap w !! system_parameters = Some (ODict d) ->
  heap w !! self = Some (OBindingCurve b) ->
  system b = Some sys ->
  (_residual self params system_parameters to_fit y readout w).2
  = with_heap (<[system_parameters := ODict (overlay params d)]> (heap w)) w.
Proof.
  intros Hd Hb Hsys. rewrite (_residual_run _ _ _ _ _ _ _ _ _ _ Hd Hb Hsys).
  destruct (if analytical sys then _ else _); reflexivity.
Qed.

(** C9, amended: [_residual] puts the trial parameters into the very
    dictionary it is handed, which keeps them after the call (the copy of
    the caller's dictionary is made by [fit], not here): after the call
    each trial name is bound to its [Parameter] object there, and every
    other name to what it was bound to.  It asks the system about the
    dictionary as it then is, with the readout exactly when the system is
    not analytical, and returns prediction minus observation, element by
    element.  What an earlier call with the same trial names has left in
    the dictionary makes no difference to the outcome or to the world
    the call leaves. *)
Theorem residual_overlays_in_place (self : loc) (params : Parameters)
  (system_parameters : loc) (to_fit : list (string * float))
  (y : list float) (readout : option string) (w : World) (d : dict loc)
  (b : BindingCurve) (sys : BindingSystem) :
  heap w !! system_parameters = Some (ODict d) ->
  heap w !! self = Some (OBindingCurve b) ->
  system b = Some sys ->
  exists d2,
    dict_at system_parameters
      (_residual self params system_parameters to_fit y readout w).2
    = Some d2 /\
    (NoDup (Dict.keys params) ->
     forall k r, (k, r) ∈ params -> Dict.get k d2 = Some (VParameter r)) /\
    (forall k, k ∉ Dict.keys params -> Dict.get k d2 = Dict.get k d) /\
    (forall l, l <> system_parameters ->
       heap (_residual self params system_parameters to_fit y readout w).2
         !! l
       = heap w !! l) /\
    (_residual self params system_parameters to_fit y readout w).1
    = match (if analytical sys
             then query1 sys
                    (view (heap (_residual self params system_parameters
                                   to_fit y readout w).2) d2)
             else query2 sys
                    (view (heap (_residual self params system_parameters
                                   to_fit y readout w).2) d2) readout)
      with
      | QRaise e => Raised e
      | QOk (Scalar f) => Returned (Array ((fun o => PrimFloat.sub f o) <$> y))
      | QOk (Array a) =>
          match Np.sub (Array a) y with
          | Some r => Returned r
          | None => Raised ValueError
          end
      end /\
    (forall a i x o,
       length a = length y -> a !! i = Some x -> y !! i = Some o ->
       exists r, Np.sub (Array a) y = Some (Array r) /\
                 length r = length y /\
                 r !! i = Some (PrimFloat.sub x o)) /\
    (forall params0,
       Dict.keys params0 = Dict.keys params -> NoDup (Dict.keys params) ->
       _residual self params system_parameters to_fit y readout
         (_residual self params0 system_parameters to_fit y readout w).2
       = _residual self params system_parameters to_fit y readout w).
Proof.
  intros Hd Hb Hsys.
  assert (Hne : self <> system_parameters) by congruence.
  rewrite (_residual_world _ _ _ _ _ _ _ _ _ _ Hd Hb Hsys).
  exists (overlay params d).
  split; [unfold dict_at; rewrite (lookup_with_heap_insert _ _ _ _ Hd);
          reflexivity |].
  split; [intros Hnd k r Hin; apply get_overlay_in; assumption |].
  split; [intros k Hk; apply get_overlay_notin, Hk |].
  split; [intros l Hl; simpl; apply list_lookup_insert_ne; congruence |].
  split.
  { rewrite (_residual_run _ _ _ _ _ _ _ _ _ _ Hd Hb Hsys).
    cbn [heap with_heap].
    destruct (if analytical sys then _ else _) as [[f | a] | e];
      reflexivity. }
  split; [intros a i x o; apply sub_elementwise |].
  intros params0 Hkeys Hnd.
  rewrite (_residual_world _ params0 _ _ _ _ _ _ _ _ Hd Hb Hsys).
  rewrite (_residual_run self params system_parameters to_fit y readout
             _ (overlay params0 d) b sys).
  - rewrite (_residual_run _ _ _ _ _ _ _ _ _ _ Hd Hb Hsys).
    cbn [heap with_heap]. rewrite list_insert_insert_eq.
    rewrite (overlay_again _ _ _ Hkeys Hnd).
    destruct (if analytical sys then _ else _) as [v | e]; reflexivity.
  - apply (lookup_with_heap_insert _ _ _ _ Hd).
  - simpl. rewrite list_lookup_insert_ne by congruence. exact Hb.
  - exact Hsys.
Qed.

Lemma residual_overlays_in_place_witness :
  exists d2,
    dict_at 0 (_residual 1 [("a", 2)] 0 [] [0%float] None Sample.with_trials).2
    = Some d2 /\
    (NoDup (Dict.keys [("a", 2)]) ->
     forall k r, (k, r) ∈ [("a", 2)] -> Dict.get k d2 = Some (VParameter r)) /\
    (forall k, k ∉ Dict.keys [("a", 2)] ->
       Dict.get k d2 = Dict.get k [("p", VFloat 1%float)]) /\
    (forall l, l <> 0 ->
       heap (_residual 1 [("a", 2)] 0 [] [0%float] None Sample.with_trials).2
         !! l
       = heap Sample.with_trials !! l) /\
    (_residual 1 [("a", 2)] 0 [] [0%float] None Sample.with_trials).1
    = match (if analytical Sample.sum_system
             then query1 Sample.sum_system
                    (view (heap (_residual 1 [("a", 2)] 0 [] [0%float] None
                                   Sample.with_trials).2) d2)
             else query2 Sample.sum_system
                    (view (heap (_residual 1 [("a", 2)] 0 [] [0%float] None
                                   Sample.with_trials).2) d2) None)
      with
      | QRaise e => Raised e
      | QOk (Scalar f) =>
          Returned (Array ((fun o => PrimFloat.sub f o) <$> [0%float]))
      | QOk (Array a) =>
          match Np.sub (Array a) [0%float] with
          | Some r => Returned r
          | None => Raised ValueError
          end
      end /\
    (forall a i x o,
       length a = length [0%float] -> a !! i = Some x ->
       [0%float] !! i = Some o ->
       exists r, Np.sub (Array a) [0%float] = Some (Array r) /\
                 length r = length [0%float] /\
                 r !! i = Some (PrimFloat.sub x o)) /\
    (forall params0,
       Dict.keys params0 = Dict.keys [("a", 2)] ->
       NoDup (Dict.keys [("a", 2)]) ->
       _residual 1 [("a", 2)] 0 [] [0%float] None
         (_residual 1 params0 0 [] [0%float] None Sample.with_trials).2
       = _residual 1 [("a", 2)] 0 [] [0%float] None Sample.with_trials).
Proof.
  apply (residual_overlays_in_place 1 [("a", 2)] 0 [] [0%float] None
           Sample.with_trials [("p", VFloat 1%float)]
           (set_system (Some Sample.sum_system) class_defaults)
           Sample.sum_system eq_refl eq_refl eq_refl).
Defined.

(** C9 as first stated fails: [_residual] works on no copy and keeps
    state between calls.  The dictionary it is handed holds ["p"] before
    the call and ["p"] and ["a"] after it; and the call with trial
    parameter ["b"] returns 2 on the dictionary as it was, 7 once the
    call with ["a"] has gone before. *)
Lemma residual_overlays_in_place_counterexample :
  dict_at 0 Sample.with_trials = Some [("p", VFloat 1%float)] /\
  dict_at 0
    (_residual 1 [("a", 2)] 0 [] [0%float] None Sample.with_trials).2
  = Some [("p", VFloat 1%float); ("a", VParameter 2)] /\
  (_residual 1 [("b", 3)] 0 [] [0%float] None Sample.with_trials).1
  = Returned (Array [2%float]) /\
  (_residual 1 [("b", 3)] 0 [] [0%float] None
     (_residual 1 [("a", 2)] 0 [] [0%float] None Sample.with_trials).2).1
  = Returned (Array [7%float]).
Proof. repeat split; vm_compute; reflexivity. Qed.

(** ** The minimizer at work *)

Lemma keeps_for_each_Forall (P : World -> Prop) {A : Type} (l : list A)
  (f : A -> M unit) :
  Forall (fun x => keeps P (f x)) l -> keeps P (for_each l f).
Proof.
  induction 1 as [| x l Hx Hl IH]; simpl.
  - apply keeps_ret.
  - apply keeps_bind; [exact Hx | intros _; exact IH].
Qed.

Lemma deepcopy_run (params : list (string * Lmfit.Param)) (w : World) :
  deepcopy params w
  = (Returned (zip params.*1 (seq (length (heap w)) (length params))),
     with_heap (heap w ++ (OParam <$> params.*2)) w).
Proof.
  revert w. induction params as [| [n p] params IH]; intros w; simpl.
  - rewrite app_nil_r. destruct w; reflexivity.
  - rewrite (bind_returned _ _ _ _ _ (alloc_run _ _)).
    rewrite (bind_returned _ _ _ _ _ (IH _)).
    unfold ret. cbn [heap with_heap]. rewrite length_app. cbn [length].
    rewrite Nat.add_1_r. rewrite <- app_assoc. reflexivity.
Qed.

Section Fitting.

Variable H0 : list object.
Variable d : dict loc.
Variable working : Parameters.
Hypothesis working_fresh : fresh_parameters H0 working.
Hypothesis working_NoDup : NoDup (Dict.keys working).

Lemma working_address (k : string) (r : loc) :
  (k, r) ∈ working -> S (length H0) <= r < S (length H0) + length working.
Proof.
  intros Hin.
  assert (Hr : r ∈ working.*2)
    by (apply (list_elem_of_fmap_2 snd _ (k, r)), Hin).
  rewrite working_fresh in Hr. apply elem_of_seq in Hr. lia.
Qed.

Lemma fitting_state_update_param (ev : bool) (r : loc)
  (f : Lmfit.Param -> Lmfit.Param) :
  S (length H0) <= r ->
  keeps (fitting_state H0 d working ev) (update_param r f).
Proof.
  intros Hr w (dc & ps & Hheap & Hlen & Hrest). unfold update_param.
  destruct (heap w !! r) as [[dx | p | bx] |] eqn:E; cbn [snd];
    unfold fitting_state; try (exists dc, ps; auto; fail).
  assert (Hr' : r = length (H0 ++ [ODict dc]) + (r - S (length H0)))
    by (rewrite length_app; simpl; lia).
  exists dc, (<[r - S (length H0) := f p]> ps).
  split; [| split; [rewrite length_insert; exact Hlen | exact Hrest]].
  cbn [heap with_heap]. rewrite Hheap. rewrite Hr' at 1.
  rewrite insert_app_r, list_fmap_insert. reflexivity.
Qed.

Lemma fitting_state_set_trial (ev : bool) (trial : list (string * float)) :
  keeps (fitting_state H0 d working ev) (set_trial working trial).
Proof.
  unfold set_trial. apply keeps_for_each_Forall.
  apply Forall_forall. intros [k r] Hin.
  apply keeps_for_some. intros v.
  apply fitting_state_update_param.
  pose proof (working_address k r Hin). lia.
Qed.


Lemma _residual_fitting_state (ev : bool) (self : loc)
  (to_fit : list (string * float)) (y : list float)
  (readout : option string) (w : World) (r : ndvalue) (w2 : World) :
  fitting_state H0 d working ev w ->
  _residual self working (length H0) to_fit y readout w = (Returned r, w2) ->
  fitting_state H0 d working true w2.
Proof.
  intros (dc & ps & Hheap & Hlen & Hother & _) Hrun.
  assert (Hd : heap w !! length H0 = Some (ODict dc)).
  { rewrite Hheap, <- app_assoc. apply list_lookup_middle. reflexivity. }
  unfold _residual in Hrun.
  rewrite (bind_returned _ _ _ _ _ (read_dict_run _ _ _ Hd)) in Hrun.
  unfold write_dict, modify in Hrun. unfold bind at 1 in Hrun.
  set (w1 := with_heap _ w) in Hrun.
  assert (Hw2 : (fun w' => w' = w1) w2).
  { change w2 with (Returned r, w2).2. rewrite <- Hrun.
    apply (holds_after_bind (fun w' => w' = w1)).
    - unfold read_self. destruct (heap w1 !! self) as [[| |] |]; reflexivity.
    - intros b.
      repeat first
        [ apply keeps_from_option | apply keeps_from_query
        | apply keeps_read_dict | apply keeps_get_world
        | match goal with
          | |- keeps _ (if ?c then _ else _) => destruct c
          end
        | apply keeps_bind; [| intros ?] ]. }
  simpl in Hw2. subst w2 w1.
  exists (overlay working dc), ps.
  split; [| split; [exact Hlen | split]].
  - cbn [heap with_heap]. rewrite Hheap, <- !app_assoc.
    replace (length H0) with (length H0 + 0) at 1 by lia.
    rewrite insert_app_r. reflexivity.
  - intros k Hk. rewrite get_overlay_notin by exact Hk. apply Hother, Hk.
  - intros k r0 Hin. apply get_overlay_in; assumption.
Qed.



Lemma fitting_state_frame (ev : bool) (w : World) (l : loc) (o : object) :
  fitting_state H0 d working ev w -> H0 !! l = Some o ->
  heap w !! l = Some o.
Proof.
  intros (dc & ps & Hheap & _) Hl. rewrite Hheap.
  apply lookup_app_l_Some, lookup_app_l_Some, Hl.
Qed.

End Fitting.

Lemma value_of_insert_dict (h : list object) (l : loc) (dl dl' : dict loc)
  (v : value loc) :
  h !! l = Some (ODict dl) ->
  value_of (<[l := ODict dl']> h) v = value_of h v.
Proof.
  intros Hl. destruct v as [| f | a | a | r]; try reflexivity. simpl.
  destruct (decide (r = l)) as [-> | Hne].
  - rewrite list_lookup_insert_eq by (eapply lookup_lt_Some, Hl).
    rewrite Hl. reflexivity.
  - rewrite list_lookup_insert_ne by congruence. reflexivity.
Qed.

Lemma keys_initial_params mz bounds (to_fit : list (string * float)) params :
  initial_params mz bounds to_fit = inr params ->
  Dict.keys params = Dict.keys to_fit.
Proof.
  revert params. induction to_fit as [| [k g] to_fit IH]; intros params;
    simpl.
  - intros [= <-]. reflexivity.
  - destruct (new_param mz bounds k g) as [e | p]; [discriminate |].
    destruct (initial_params mz bounds to_fit) as [e | ps]; [discriminate |].
    intros [= <-]. simpl. f_equal. apply IH. reflexivity.
Qed.

Lemma from_sum_inv {A : Type} (r : Exception + A) a w w1 :
  from_sum r w = (Returned a, w1) -> r = inr a /\ w1 = w.
Proof.
  destruct r as [e | a0]; simpl; [discriminate |].
  intros [= -> ->]. split; reflexivity.
Qed.

(** The minimizer writing into its parameters, one after the other. *)
Lemma for_each_update_params {X : Type} (g : string -> option X)
  (f : X -> Lmfit.Param -> Lmfit.Param) (names : list string) :
  forall (pre : list object) (ps : list Lmfit.Param) (w : World),
    heap w = (pre ++ (OParam <$> ps))%list ->
    length ps = length names ->
    exists w',
      for_each (zip names (seq (length pre) (length names)))
        (fun '(n, r) => for_some (g n) (fun x => update_param r (f x))) w
      = (Returned tt, w') /\
      heap w'
      = (pre ++ (OParam <$>
                   zip_with (fun n q => match g n with
                                        | Some x => f x q
                                        | None => q
                                        end) names ps))%list.
Proof.
  induction names as [| n names IH]; intros pre ps w Hh Hl.
  - destruct ps; [| discriminate]. exists w. split; [reflexivity | exact Hh].
  - destruct ps as [| q ps]; [discriminate |]. injection Hl as Hl.
    rewrite fmap_cons in Hh.
    cbn [length seq zip zip_with for_each].
    destruct (g n) as [x |] eqn:Hg; cbn [for_some].
    + unfold bind at 1. unfold update_param at 1.
      rewrite Hh, list_lookup_middle by reflexivity.
      set (w1 := with_heap _ w).
      destruct (IH (pre ++ [OParam (f x q)])%list ps w1) as (w' & Hrun & Hh').
      { subst w1. cbn [heap with_heap].
        rewrite insert_app_r_alt, Nat.sub_diag by lia. cbn [insert list_insert].
        rewrite <- app_assoc. reflexivity. }
      { exact Hl. }
      rewrite length_app, Nat.add_1_r in Hrun.
      exists w'. split; [exact Hrun |].
      rewrite Hh', <- app_assoc. reflexivity.
    + rewrite bind_ret.
      destruct (IH (pre ++ [OParam q])%list ps w) as (w' & Hrun & Hh').
      { rewrite Hh, <- app_assoc. reflexivity. }
      { exact Hl. }
      rewrite length_app, Nat.add_1_r in Hrun.
      exists w'. split; [exact Hrun |].
      rewrite Hh', <- app_assoc. reflexivity.
Qed.

(** When the minimizer stores its result, each parameter that the result
    names takes the value and the standard error given for its name. *)
Lemma set_final_run (H0 : list object) (d : dict loc) (working : Parameters)
  (final : list (string * (float * option float))) (ev : bool) (w : World) :
  fresh_parameters H0 working ->
  fitting_state H0 d working ev w ->
  exists w',
    set_final working final w = (Returned tt, w') /\
    fitting_state H0 d working ev w' /\
    forall k r v e,
      (k, r) ∈ working -> Dict.get k final = Some (v, e) ->
      exists q, heap w' !! r = Some (OParam q) /\
                Lmfit.value q = v /\ Lmfit.stderr q = e.
Proof.
  intros Hfresh (dc & ps & Hheap & Hlen & Hrest).
  assert (Hzip : working
                 = zip working.*1
                     (seq (length (H0 ++ [ODict dc])) (length working.*1))).
  { rewrite length_app, length_fmap. cbn [length]. rewrite Nat.add_1_r.
    rewrite <- Hfresh. symmetry. apply zip_fst_snd. }
  destruct (for_each_update_params (fun n => Dict.get n final)
              (fun ve => Lmfit.with_result ve.1 ve.2) working.*1
              (H0 ++ [ODict dc])%list ps w Hheap)
    as (w' & Hrun & Hheap'); [rewrite length_fmap; exact Hlen |].
  rewrite <- Hzip in Hrun.
  exists w'. split; [exact Hrun |]. split.
  - exists dc, (zip_with (fun n q => match Dict.get n final with
                                     | Some x => Lmfit.with_result x.1 x.2 q
                                     | None => q
                                     end) working.*1 ps).
    split; [exact Hheap' |].
    split; [rewrite length_zip_with, length_fmap; lia | exact Hrest].
  - intros k r v e Hin Hf.
    apply list_elem_of_lookup in Hin as [i Hi].
    rewrite Hzip in Hi. apply lookup_zip_Some in Hi as [Hk Hr].
    apply lookup_seq in Hr as [-> Hlt]. rewrite length_fmap in Hlt.
    destruct (lookup_lt_is_Some_2 ps i) as [q Hq]; [lia |].
    exists (Lmfit.with_result v e q). split; [| split; reflexivity].
    rewrite Hheap', lookup_app_r by lia.
    replace (length (H0 ++ [ODict dc]) + i - length (H0 ++ [ODict dc]))
      with i by lia.
    rewrite list_lookup_fmap, lookup_zip_with, Hk. cbn [mbind option_bind].
    rewrite Hq. cbn. rewrite Hf. reflexivity.
Qed.

(** A minimizer that returns has converged: after some evaluations of
    the residual its next step was to store a result. *)
Lemma iterate_returns (H0 : list object) (d : dict loc)
  (working : Parameters) (mz : Minimizer)
  (userfcn : Parameters -> M ndvalue) (start : list (string * Lmfit.Param)) :
  fresh_parameters H0 working ->
  (forall ev w r w2,
     fitting_state H0 d working ev w ->
     userfcn working w = (Returned r, w2) ->
     fitting_state H0 d working true w2) ->
  forall fuel seen ev w w',
    fitting_state H0 d working ev w ->
    (ev = true <-> seen <> []) ->
    iterate mz userfcn start working seen fuel w = (Returned tt, w') ->
    exists seen' final ev' wn,
      next_step mz start seen' = Converged final /\
      (ev' = true <-> seen' <> []) /\
      fitting_state H0 d working ev' wn /\
      set_final working final wn = (Returned tt, w').
Proof.
  intros Hfresh Hfcn. induction fuel as [| fuel IH];
    intros seen ev w w' Hw Hev Hrun; simpl in Hrun; [discriminate |].
  destruct (next_step mz start seen) as [trial | final | e] eqn:Hstep.
  - apply bind_inv_returned in Hrun as ([] & w1 & Htrial & Hrun).
    apply bind_inv_returned in Hrun as (r & w2 & Hres & Hrun).
    assert (Hw1 : fitting_state H0 d working ev w1).
    { change w1 with (Returned tt, w1).2. rewrite <- Htrial.
      apply (fitting_state_set_trial H0 d working Hfresh), Hw. }
    pose proof (Hfcn _ _ _ _ Hw1 Hres) as Hw2.
    apply (IH (seen ++ [r])%list true _ _ Hw2); [| exact Hrun].
    split; [intros _ | reflexivity].
    intros Habs. apply app_eq_nil in Habs as [_ Habs]. discriminate.
  - exists seen, final, ev, w. repeat split; try assumption; apply Hev.
  - discriminate.
Qed.

(** ** [fit]: the caller's dictionary and the result *)

(** C6: when [fit] returns, every object that was in the store is as it
    was; the caller's [system_parameters] in particular has the keys and
    values it had.  What is returned is a new dictionary, and the
    minimizer has converged: after some evaluations of the residual it
    settled on final values and standard errors.  Under a name that is
    not being fitted the new dictionary holds the caller's value, and for
    a [Parameter] its [value]; under a name being fitted it holds the
    final value of that name, once the minimizer has evaluated the
    residual at all, and the caller's value as before when it has not.
    The second component of the result gives, under each name being
    fitted, the final standard error of that name. *)
Theorem fit_leaves_system_parameters (mz : Minimizer) (fuel : nat)
  (self system_parameters : loc) (to_fit : list (string * float))
  (ycoords : list float) (x_parameter y_parameter : string)
  (bounds : option (list (string * (float * float)))) (w : World)
  (d : dict loc) (copy : loc) (errs : list (string * option float))
  (w' : World) :
  heap w !! system_parameters = Some (ODict d) ->
  NoDup (Dict.keys to_fit) ->
  fit mz fuel self system_parameters to_fit ycoords x_parameter y_parameter
      bounds w = (Returned (copy, errs), w') ->
  heap w' !! system_parameters = Some (ODict d) /\
  (forall l o, heap w !! l = Some o -> heap w' !! l = Some o) /\
  heap w !! copy = None /\
  Dict.keys errs = Dict.keys to_fit /\
  exists d' params seen final,
    initial_params mz (default [] bounds) to_fit = inr params /\
    next_step mz params seen = Converged final /\
    heap w' !! copy = Some (ODict d') /\
    (forall k, k ∉ Dict.keys to_fit \/ seen = [] ->
       match Dict.get k d with
       | None => Dict.get k d' = None
       | Some (VParameter r) =>
           match heap w' !! r with
           | Some (OParam q) =>
               Dict.get k d' = Some (VFloat (Lmfit.value q))
           | _ => Dict.get k d' = Some (VParameter r)
           end
       | Some x => Dict.get k d' = Some x
       end) /\
    (forall k v e,
       k ∈ Dict.keys to_fit -> Dict.get k final = Some (v, e) ->
       Dict.get k errs = Some e /\
       (seen <> [] -> Dict.get k d' = Some (VFloat v))).
Proof.
  intros Hd Hnd Hrun. unfold fit in Hrun.
  rewrite (bind_returned _ _ _ _ _ (read_dict_run _ _ _ Hd)) in Hrun.
  rewrite (bind_returned _ _ _ _ _ (alloc_run _ _)) in Hrun.
  destruct (length (Dict.keys to_fit) =? 0)%nat; [discriminate |].
  apply bind_inv_returned in Hrun as (b & w1 & Hself & Hrun).
  apply read_self_inv in Hself as [Hself ->].
  apply bind_inv_returned in Hrun as (sys & w1 & Hsys & Hrun).
  apply from_option_inv in Hsys as [Hsys ->].
  rewrite (bind_returned _ _ _ _ _
             (read_dict_run _ _ _ (lookup_alloc_new _ _))) in Hrun.
  destruct (0 <? length _)%nat; [discriminate |].
  apply bind_inv_returned in Hrun as (params & w1 & Hparams & Hrun).
  apply from_sum_inv in Hparams as [Hparams ->].
  apply bind_inv_returned in Hrun as (result & w2 & Hmin & Hrun).
  unfold minimize in Hmin. unfold modify at 1 in Hmin.
  unfold bind at 1 in Hmin.
  rewrite (bind_returned _ _ _ _ _ (deepcopy_run _ _)) in Hmin.
  apply bind_inv_returned in Hmin as ([] & w3 & Hiter & Hret).
  injection Hret as <- <-.
  cbn [heap with_heap with_minimize_calls] in Hiter.
  set (working := zip params.*1
                    (seq (length (heap w ++ [ODict d])) (length params))) in *.
  assert (Hkeys : Dict.keys working = Dict.keys to_fit).
  { unfold working, Dict.keys.
    rewrite fst_zip by (rewrite length_seq, length_fmap; lia).
    apply (keys_initial_params _ _ _ _ Hparams). }
  assert (Hlenw : length working = length params).
  { unfold working. rewrite length_zip, length_seq, length_fmap. lia. }
  assert (Hfresh : fresh_parameters (heap w) working).
  { unfold fresh_parameters. rewrite Hlenw. unfold working.
    rewrite snd_zip by (rewrite length_seq, length_fmap; lia).
    rewrite length_app. simpl. rewrite Nat.add_1_r. reflexivity. }
  assert (Hwnd : NoDup (Dict.keys working)) by (rewrite Hkeys; exact Hnd).
  assert (Hconv : exists seen final ev' wn,
             next_step mz params seen = Converged final /\
             (ev' = true <-> seen <> []) /\
             fitting_state (heap w) d working ev' wn /\
             set_final working final wn = (Returned tt, w3)).
  { eapply (iterate_returns (heap w) d working mz _ params Hfresh)
      with (ev := false); [| | | exact Hiter].
    - intros ev wa r wb Hwa Hres. cbv beta in Hres.
      eapply (_residual_fitting_state (heap w) d working Hwnd); eassumption.
    - exists d, params.*2. split; [reflexivity |].
      split; [rewrite length_fmap; lia |].
      split; [intros; reflexivity | reflexivity].
    - split; [discriminate | congruence]. }
  destruct Hconv as (seen & final & ev' & wn & Hstep & Hev' & Hwn & Hfinal).
  destruct (set_final_run (heap w) d working final ev' wn Hfresh Hwn)
    as (w3' & Hfinal' & Hw3 & Hvalues).
  rewrite Hfinal in Hfinal'. injection Hfinal' as <-.
  pose proof Hw3 as (dc & ps & Hheap3 & Hlen3 & Hother & Hevd).
  assert (Hdc : heap w3 !! length (heap w) = Some (ODict dc)).
  { rewrite Hheap3, <- app_assoc. apply list_lookup_middle. reflexivity. }
  rewrite (bind_returned _ _ _ _ _ (read_dict_run _ _ _ Hdc)) in Hrun.
  cbv [bind get_world write_dict modify ret] in Hrun.
  injection Hrun as <- <- <-.
  cbn [heap with_heap].
  set (h' := <[length (heap w) := ODict _]> (heap w3)).
  assert (Hold : forall l o, heap w !! l = Some o -> h' !! l = Some o).
  { intros l o Hl. unfold h'.
    rewrite list_lookup_insert_ne
      by (apply lookup_lt_Some in Hl; lia).
    apply (fitting_state_frame _ _ _ _ _ _ _ Hw3 Hl). }
  assert (Hparam : forall r q,
            heap w3 !! r = Some (OParam q) -> h' !! r = Some (OParam q)).
  { intros r q Hr. unfold h'.
    destruct (decide (length (heap w) = r)) as [<- | Hne];
      [congruence | rewrite list_lookup_insert_ne by exact Hne; exact Hr]. }
  assert (Hvo : forall v, value_of h' v = value_of (heap w3) v)
    by (intros v; apply (value_of_insert_dict _ _ _ _ _ Hdc)).
  assert (Hin : forall k, k ∈ Dict.keys to_fit -> exists r, (k, r) ∈ working).
  { intros k Hk. rewrite <- Hkeys in Hk. unfold Dict.keys in Hk.
    apply list_elem_of_fmap in Hk as ([k0 r] & Hk0 & Hin).
    simpl in Hk0. subst k0. exists r. exact Hin. }
  split; [apply Hold, Hd |]. split; [exact Hold |].
  split; [apply lookup_ge_None; lia |].
  split.
  { rewrite <- Hkeys. unfold Dict.keys. rewrite <- list_fmap_compose.
    apply list_fmap_ext. intros i [k r] _. reflexivity. }
  eexists _, params, seen, final.
  split; [exact Hparams |]. split; [exact Hstep |].
  split.
  { unfold h'. apply list_lookup_insert_eq. eapply lookup_lt_Some, Hdc. }
  split.
  - intros k Hk. rewrite get_fmap.
    assert (Hsame : Dict.get k dc = Dict.get k d).
    { destruct Hk as [Hk | ->]; [apply Hother; rewrite Hkeys; exact Hk |].
      destruct ev'; [destruct (proj1 Hev' eq_refl); reflexivity |].
      rewrite Hevd. reflexivity. }
    rewrite Hsame. destruct (Dict.get k d) as [x |]; [| reflexivity].
    cbn [fmap option_fmap option_map].
    destruct x as [| f | a | a | r]; try reflexivity.
    rewrite <- (Hvo (VParameter r)). cbn [value_of].
    destruct (h' !! r) as [[| q |] |]; reflexivity.
  - intros k v e Hk Hf. destruct (Hin k Hk) as [r Hr].
    destruct (Hvalues k r v e Hr Hf) as (q & Hq & <- & <-).
    split.
    + apply get_elem_of.
      * replace (Dict.keys _) with (Dict.keys working); [exact Hwnd |].
        unfold Dict.keys. rewrite <- list_fmap_compose.
        apply list_fmap_ext. intros i [k1 r1] _. reflexivity.
      * apply list_elem_of_fmap. exists (k, r).
        split; [| exact Hr]. simpl. rewrite (Hparam _ _ Hq). reflexivity.
    + intros Hseen. destruct ev'; [| discriminate (proj2 Hev' Hseen)].
      rewrite get_fmap, (Hevd k r Hr). simpl. rewrite Hq. reflexivity.
Qed.

Lemma fit_leaves_system_parameters_witness :
  heap Sample.fitted !! 0 = Some (ODict [("p", VFloat 1%float)]) /\
  (forall l o,
     heap (Sample.fitting [("p", VFloat 1%float)] Sample.sum_system) !! l
     = Some o ->
     heap Sample.fitted !! l = Some o) /\
  heap (Sample.fitting [("p", VFloat 1%float)] Sample.sum_system) !! 2
  = None /\
  Dict.keys [("kd", Some 0.5%float)] = Dict.keys [("kd", 7%float)] /\
  exists d' params seen final,
    initial_params Sample.two_steps (default [] None) [("kd", 7%float)]
    = inr params /\
    next_step Sample.two_steps params seen = Converged final /\
    heap Sample.fitted !! 2 = Some (ODict d') /\
    (forall k, k ∉ Dict.keys [("kd", 7%float)] \/ seen = [] ->
       match Dict.get k [("p", VFloat (R := loc) 1%float)] with
       | None => Dict.get k d' = None
       | Some (VParameter r) =>
           match heap Sample.fitted !! r with
           | Some (OParam q) =>
               Dict.get k d' = Some (VFloat (Lmfit.value q))
           | _ => Dict.get k d' = Some (VParameter r)
           end
       | Some x => Dict.get k d' = Some x
       end) /\
    (forall k v e,
       k ∈ Dict.keys [("kd", 7%float)] -> Dict.get k final = Some (v, e) ->
       Dict.get k [("kd", Some 0.5%float)] = Some e /\
       (seen <> [] -> Dict.get k d' = Some (VFloat v))).
Proof.
  apply (fit_leaves_system_parameters Sample.two_steps 10 1 0
           [("kd", 7%float)] [1; 2]%float "P" "PL" None
           (Sample.fitting [("p", VFloat 1%float)] Sample.sum_system)
           [("p", VFloat 1%float)] 2 [("kd", Some 0.5%float)]
           Sample.fitted).
  - reflexivity.
  - compute_done.
  - vm_compute. reflexivity.
Defined.

(** * Further properties *)

(** ** [_find_changing_parameters] *)

Lemma filter_sublist {A : Type} (f : A -> bool) (l : list A) :
  sublist (List.filter f l) l.
Proof.
  induction l as [| x l IH]; simpl; [constructor |].
  destruct (f x); [apply sublist_skip | apply sublist_cons]; exact IH.
Qed.

Lemma get_Some_elem_of {V : Type} (k : string) (v : V)
  (d : list (string * V)) :
  Dict.get k d = Some v -> (k, v) ∈ d.
Proof.
  induction d as [| [k' v'] d IH]; simpl; [discriminate |].
  destruct (decide (k = k')) as [-> | Hne].
  - intros [= ->]. left.
  - intros H. right. apply IH, H.
Qed.

(** X1: on a dictionary, [_find_changing_parameters] gives [None] exactly
    when no value is an array or a list; otherwise it gives the names
    whose values are arrays or lists, each once, in the order of the
    dictionary, and never an empty list. *)
Theorem find_changing_parameters_spec {R : Type} (params : dict R) :
  NoDup (Dict.keys params) ->
  (_find_changing_parameters params = None <->
   forall k v, (k, v) ∈ params -> sequence_items v = None) /\
  (forall l, _find_changing_parameters params = Some l ->
     l <> [] /\ NoDup l /\ sublist l (Dict.keys params) /\
     forall k, k ∈ l <->
       exists v, (k, v) ∈ params /\ is_Some (sequence_items v)).
Proof.
  intros Hnd.
  assert (Hmem : forall k,
            In k (List.filter (fun p => is_sequence (Dict.get p params))
                    (Dict.keys params)) <->
            exists v, (k, v) ∈ params /\ is_Some (sequence_items v)).
  { intros k. rewrite filter_In. split.
    - intros [_ Hseq].
      destruct (Dict.get k params) as [v |] eqn:Hget; [| discriminate].
      exists v. split; [apply get_Some_elem_of, Hget |].
      destruct v; try discriminate; eexists; reflexivity.
    - intros (v & Hin & Hv). split.
      + apply list_elem_of_In. unfold Dict.keys.
        apply (list_elem_of_fmap_2 fst _ (k, v)), Hin.
      + rewrite (get_elem_of _ _ _ Hnd Hin).
        destruct v; destruct Hv as [x Hx]; try discriminate; reflexivity. }
  unfold _find_changing_parameters.
  destruct (List.filter _ _) as [| p l'] eqn:E; cbn [length Nat.eqb].
  - split.
    + split; [| reflexivity]. intros _ k v Hin.
      destruct (sequence_items v) as [x |] eqn:Hv; [| reflexivity].
      exfalso. apply (proj2 (Hmem k)). exists v. split; [exact Hin |].
      rewrite Hv. eexists. reflexivity.
    + intros l [=].
  - split.
    + split; [discriminate |]. intros Hall. exfalso.
      destruct (proj1 (Hmem p) (or_introl eq_refl)) as (v & Hin & [x Hx]).
      rewrite (Hall p v Hin) in Hx. discriminate.
    + intros l [= <-]. split; [discriminate |].
      split; [| split].
      * rewrite <- E. eapply sublist_NoDup; [exact Hnd | apply filter_sublist].
      * rewrite <- E. apply filter_sublist.
      * intros k. rewrite <- Hmem. apply list_elem_of_In.
Qed.

Lemma find_changing_parameters_spec_witness :
  (_find_changing_parameters (Sample.sweep [1; 2]%float) = None <->
   forall k v, (k, v) ∈ Sample.sweep [1; 2]%float ->
               sequence_items v = None) /\
  (forall l, _find_changing_parameters (Sample.sweep [1; 2]%float) = Some l ->
     l <> [] /\ NoDup l /\
     sublist l (Dict.keys (Sample.sweep [1; 2]%float)) /\
     forall k, k ∈ l <->
       exists v, (k, v) ∈ Sample.sweep [1; 2]%float /\
                 is_Some (sequence_items v)).
Proof.
  apply (find_changing_parameters_spec (Sample.sweep [1; 2]%float)).
  compute_done.
Defined.

(** ** [add_curve]: no system, no sweep *)

(** X2: on an accumulator with a system, a parameter mapping without any
    array or list makes [add_curve] raise [TypeError]: no message is
    printed, and the world is the one [_initialize_plot] leaves, with
    curve list, bounds and trace counter as they were. *)
Theorem add_curve_no_sweep (self : loc) (parameters : dict loc)
  (readout curve_name : option string) (w : World) (b : BindingCurve)
  (sys : BindingSystem) :
  heap w !! self = Some (OBindingCurve b) ->
  system b = Some sys ->
  List.filter (fun p => is_sequence (Dict.get p parameters))
    (Dict.keys parameters) = [] ->
  add_curve self parameters readout curve_name w
  = (Raised TypeError, initialized self b w) /\
  stdout (initialized self b w) = stdout w /\
  curves (initialized self b w) = curves w /\
  attribute _num_added_traces self (initialized self b w)
  = Some (_num_added_traces b) /\
  attribute (fun b => (_min_x_axis b, _max_x_axis b,
                       _min_y_axis b, _max_y_axis b))
    self (initialized self b w)
  = Some (_min_x_axis b, _max_x_axis b, _min_y_axis b, _max_y_axis b).
Proof.
  intros Hb Hsys Hnone.
  destruct (initialized_lookup self b w Hb)
    as (b1 & Hb1 & _ & Hnx & Hxx & Hny & Hxy & Hn & _).
  split; [| split; [apply initialized_stdout |
            split; [apply initialized_curves | split]]].
  - unfold add_curve.
    rewrite (bind_returned _ _ _ _ _ (read_self_run _ _ _ Hb)).
    rewrite Hsys.
    rewrite (bind_returned _ _ _ _ _ (_initialize_plot_run _ _ _ Hb)).
    unfold _find_changing_parameters. rewrite Hnone. reflexivity.
  - unfold attribute. rewrite Hb1, Hn. reflexivity.
  - unfold attribute. rewrite Hb1, Hnx, Hxx, Hny, Hxy. reflexivity.
Qed.

Lemma add_curve_no_sweep_witness :
  add_curve 0 [("p", VFloat 1%float)] (Some "pl") None Sample.one_instance
  = (Raised TypeError,
     initialized 0 (set_system (Some Sample.analytical_system) class_defaults)
       Sample.one_instance) /\
  stdout (initialized 0
            (set_system (Some Sample.analytical_system) class_defaults)
            Sample.one_instance) = stdout Sample.one_instance /\
  curves (initialized 0
            (set_system (Some Sample.analytical_system) class_defaults)
            Sample.one_instance) = curves Sample.one_instance /\
  attribute _num_added_traces 0
    (initialized 0
       (set_system (Some Sample.analytical_system) class_defaults)
       Sample.one_instance) = Some 0 /\
  attribute (fun b => (_min_x_axis b, _max_x_axis b,
                       _min_y_axis b, _max_y_axis b)) 0
    (initialized 0
       (set_system (Some Sample.analytical_system) class_defaults)
       Sample.one_instance)
  = Some (0, 0, 0, 0)%float.
Proof.
  apply (add_curve_no_sweep 0 [("p", VFloat 1%float)] (Some "pl") None
           Sample.one_instance
           (set_system (Some Sample.analytical_system) class_defaults)
           Sample.analytical_system eq_refl eq_refl eq_refl).
Defined.

(** ** The constructor *)

Lemma lower_ascii_idempotent (c : Ascii.ascii) :
  Builtins.lower_ascii (Builtins.lower_ascii c) = Builtins.lower_ascii c.
Proof. destruct c as [[] [] [] [] [] [] [] []]; reflexivity. Qed.

Lemma lower_idempotent (s : string) :
  Builtins.lower (Builtins.lower s) = Builtins.lower s.
Proof.
  induction s as [| c s IH]; [reflexivity |].
  unfold Builtins.lower in *. simpl. rewrite lower_ascii_idempotent, IH.
  reflexivity.
Qed.

Ltac split_name n :=
  repeat match goal with
         | |- context [String.eqb n ?s] =>
             destruct (String.eqb_spec n s) as [-> | ?];
             [vm_compute; reflexivity |]
         end.

Lemma select_system_table (S : SystemClasses) (name : string) :
  select_system S (ByName name)
  = Dict.get (Builtins.lower name) (system_names S).
Proof.
  unfold select_system. generalize (Builtins.lower name). intros n.
  cbv zeta. split_name n.
  unfold system_names. cbn [Dict.get orb].
  repeat (rewrite decide_False by assumption). reflexivity.
Qed.

(** X3: the chain of [if]s in [__init__] is a lookup of the lower-cased
    name in a table of sixteen names: no name is claimed by two of the
    [if]s.  So names that differ only in case select the same system, and
    a class is taken as it is. *)
Theorem select_system_spec (S : SystemClasses) :
  (forall name,
     select_system S (ByName name)
     = Dict.get (Builtins.lower name) (system_names S)) /\
  NoDup (Dict.keys (system_names S)) /\
  (forall name1 name2,
     Builtins.lower name1 = Builtins.lower name2 ->
     select_system S (ByName name1) = select_system S (ByName name2)) /\
  (forall name,
     select_system S (ByName (Builtins.lower name))
     = select_system S (ByName name)) /\
  (forall instance, select_system S (ByClass instance) = instance).
Proof.
  split; [apply select_system_table |].
  split; [compute_done |].
  split; [| split].
  - intros name1 name2 H. rewrite !select_system_table, H. reflexivity.
  - intros name. rewrite !select_system_table, lower_idempotent.
    reflexivity.
  - reflexivity.
Qed.

Lemma add_curve_no_system (self : loc) (parameters : dict loc)
  (readout curve_name : option string) (w : World) (b : BindingCurve) :
  heap w !! self = Some (OBindingCurve b) ->
  system b = None ->
  add_curve self parameters readout curve_name w
  = (Reported NoSystemConfigured,
     with_stdout (stdout w ++ message NoSystemConfigured) w).
Proof.
  intros Hb Hsys. unfold add_curve.
  rewrite (bind_returned _ _ _ _ _ (read_self_run _ _ _ Hb)).
  rewrite Hsys. reflexivity.
Qed.

(** X4: a name that is not in the table still gives an accumulator: the
    constructor prints its message and returns the new instance, which
    has no system.  Every [add_curve] on it then reports
    [NoSystemConfigured] and changes nothing but the console: no figure
    is made, no curve is kept. *)
Theorem unknown_system_name (S : SystemClasses) (name : string) (w : World) :
  Dict.get (Builtins.lower name) (system_names S) = None ->
  (new_BindingCurve S (ByName name) w).1 = Returned (length (heap w)) /\
  stdout (new_BindingCurve S (ByName name) w).2
  = (stdout w ++
     ["Invalid system specified, try one of: [simple, homodimer, competition, homdimer breaking]"])%list /\
  attribute system (length (heap w)) (new_BindingCurve S (ByName name) w).2
  = Some None /\
  forall parameters readout curve_name,
    add_curve (length (heap w)) parameters readout curve_name
      (new_BindingCurve S (ByName name) w).2
    = (Reported NoSystemConfigured,
       with_stdout
         (stdout (new_BindingCurve S (ByName name) w).2
            ++ message NoSystemConfigured)
         (new_BindingCurve S (ByName name) w).2).
Proof.
  intros Hname. unfold new_BindingCurve.
  rewrite select_system_table, Hname.
  assert (Hnew : heap (__init__ None w).2 !! length (heap w)
                 = Some (OBindingCurve (set_system None class_defaults))).
  { unfold __init__. rewrite (bind_returned _ _ _ _ _ (alloc_run _ _)).
    cbn. apply list_lookup_middle. reflexivity. }
  split; [reflexivity |]. split; [reflexivity |]. split.
  - unfold attribute. rewrite Hnew. reflexivity.
  - intros parameters readout curve_name.
    apply (add_curve_no_system _ _ _ _ _ _ Hnew). reflexivity.
Qed.

Lemma unknown_system_name_witness :
  (new_BindingCurve Example.classes (ByName "Homdimer Breaking")
     Sample.empty).1 = Returned (length (heap Sample.empty)) /\
  stdout (new_BindingCurve Example.classes (ByName "Homdimer Breaking")
            Sample.empty).2
  = (stdout Sample.empty ++
     ["Invalid system specified, try one of: [simple, homodimer, competition, homdimer breaking]"])%list /\
  attribute system (length (heap Sample.empty))
    (new_BindingCurve Example.classes (ByName "Homdimer Breaking")
       Sample.empty).2
  = Some None /\
  forall parameters readout curve_name,
    add_curve (length (heap Sample.empty)) parameters readout curve_name
      (new_BindingCurve Example.classes (ByName "Homdimer Breaking")
         Sample.empty).2
    = (Reported NoSystemConfigured,
       with_stdout
         (stdout (new_BindingCurve Example.classes
                    (ByName "Homdimer Breaking") Sample.empty).2
            ++ message NoSystemConfigured)
         (new_BindingCurve Example.classes (ByName "Homdimer Breaking")
            Sample.empty).2).
Proof.
  apply (unknown_system_name Example.classes "Homdimer Breaking"
           Sample.empty).
  vm_compute. reflexivity.
Defined.

(** ** [add_curve]: a curve is added *)

Lemma fmax_not_nan (a b : float) :
  PrimFloat.is_nan a = false -> PrimFloat.is_nan (fmax a b) = false.
Proof.
  intros Ha. unfold fmax.
  destruct (PrimFloat.leb b a); simpl; [exact Ha |].
  destruct (PrimFloat.is_nan b) eqn:Hb; [exact Ha | exact Hb].
Qed.

Lemma fmin_not_nan (a b : float) :
  PrimFloat.is_nan a = false -> PrimFloat.is_nan (fmin a b) = false.
Proof.
  intros Ha. unfold fmin.
  destruct (PrimFloat.leb a b); simpl; [exact Ha |].
  destruct (PrimFloat.is_nan b) eqn:Hb; [exact Ha | exact Hb].
Qed.

(** X5: when [add_curve] returns, the trace counter is one more; the
    upper X bound is the old one merged with the last x value, the lower
    X bound the old one merged with the first x value, the upper Y bound
    the old one merged with the largest y value, and the lower Y bound
    the smallest y value; and none of the three merged bounds has become
    NaN, whatever NaNs the curve holds. *)
Theorem add_curve_running_bounds (self : loc) (parameters : dict loc)
  (readout curve_name : option string) (w w' : World) (b : BindingCurve)
  (sys : BindingSystem) (p : string) :
  heap w !! self = Some (OBindingCurve b) ->
  system b = Some sys ->
  _find_changing_parameters parameters = Some [p] ->
  add_curve self parameters readout curve_name w = (Returned tt, w') ->
  exists x y b',
    Dict.get p parameters ≫= sequence_items = Some x /\
    (if analytical sys
     then query1 sys (view (heap (initialized self b w)) parameters)
     else query2 sys (view (heap (initialized self b w)) parameters) readout)
    = QOk y /\
    heap w' !! self = Some (OBindingCurve b') /\
    _num_added_traces b' = _num_added_traces b + 1 /\
    Some (_max_x_axis b') = fmax (_max_x_axis b) <$> last x /\
    Some (_min_x_axis b') = fmin (_min_x_axis b) <$> head x /\
    Some (_max_y_axis b') = fmax (_max_y_axis b) <$> nanmax_nd y /\
    Some (_min_y_axis b') = nanmin_nd y /\
    (PrimFloat.is_nan (_max_x_axis b) = false ->
     PrimFloat.is_nan (_max_x_axis b') = false) /\
    (PrimFloat.is_nan (_min_x_axis b) = false ->
     PrimFloat.is_nan (_min_x_axis b') = false) /\
    (PrimFloat.is_nan (_max_y_axis b) = false ->
     PrimFloat.is_nan (_max_y_axis b') = false).
Proof.
  intros Hb Hsys Hcp Hrun.
  destruct (add_curve_bounds _ _ _ _ _ _ _ _ _ Hb Hsys Hcp Hrun)
    as (x & y & b' & Hx & Hq & Hb' & Hxx & Hnx & Hny & Hxy & Hn).
  exists x, y, b'. repeat (split; [assumption |]).
  destruct (last x) as [xl |]; [| discriminate].
  destruct (head x) as [xf |]; [| discriminate].
  destruct (nanmax_nd y) as [ym |]; [| discriminate].
  injection Hxx as ->. injection Hnx as ->. injection Hxy as ->.
  split; [apply fmax_not_nan |]. split; [apply fmin_not_nan |].
  apply fmax_not_nan.
Qed.

Lemma add_curve_running_bounds_witness :
  exists x y b',
    Dict.get "l" (Sample.sweep [1; 2]%float) ≫= sequence_items = Some x /\
    (if analytical Sample.analytical_system
     then query1 Sample.analytical_system
            (view (heap (initialized 0
                           (set_system (Some Sample.analytical_system)
                              class_defaults) Sample.one_instance))
               (Sample.sweep [1; 2]%float))
     else query2 Sample.analytical_system
            (view (heap (initialized 0
                           (set_system (Some Sample.analytical_system)
                              class_defaults) Sample.one_instance))
               (Sample.sweep [1; 2]%float)) (Some "pl"))
    = QOk y /\
    heap Sample.plotted !! 0 = Some (OBindingCurve b') /\
    _num_added_traces b' = 0 + 1 /\
    Some (_max_x_axis b') = fmax 0%float <$> last x /\
    Some (_min_x_axis b') = fmin 0%float <$> head x /\
    Some (_max_y_axis b') = fmax 0%float <$> nanmax_nd y /\
    Some (_min_y_axis b') = nanmin_nd y /\
    (PrimFloat.is_nan 0%float = false ->
     PrimFloat.is_nan (_max_x_axis b') = false) /\
    (PrimFloat.is_nan 0%float = false ->
     PrimFloat.is_nan (_min_x_axis b') = false) /\
    (PrimFloat.is_nan 0%float = false ->
     PrimFloat.is_nan (_max_y_axis b') = false).
Proof.
  apply (add_curve_running_bounds 0 (Sample.sweep [1; 2]%float) (Some "pl")
           None Sample.one_instance Sample.plotted
           (set_system (Some Sample.analytical_system) class_defaults)
           Sample.analytical_system "l" eq_refl eq_refl eq_refl).
  vm_compute. reflexivity.
Defined.

(** Steps of a run in a hypothesis [H], with the accumulator in [Hcur],
    the curve list in [Hc] and the console in [Hs]. *)
Ltac forget_world_t Hcur :=
  lazymatch type of Hcur with
  | heap ?wn !! _ = _ =>
      let n := fresh "w" in set (n := wn) in *; clearbody n
  end.

Ltac step_update_t H Hcur Hc Hs :=
  lazymatch type of H with
  | bind (update_self ?self ?f) _ ?w = _ =>
      lazymatch type of Hcur with
      | heap _ !! _ = Some (OBindingCurve ?b0) =>
          rewrite (bind_returned _ _ _ _ _ (update_self_run self f b0 w Hcur))
            in H;
          apply (lookup_with_heap_insert w self _ (OBindingCurve (f b0)))
            in Hcur;
          change (curves w) with
            (curves (with_heap (<[self := OBindingCurve (f b0)]> (heap w)) w))
            in Hc;
          change (stdout w) with
            (stdout (with_heap (<[self := OBindingCurve (f b0)]> (heap w)) w))
            in Hs;
          forget_world_t Hcur
      end
  end.

Ltac enter_add_curve_in Hrun Hb Hsys Hcp Hq :=
  revert Hrun; enter_add_curve Hb Hsys Hcp; intros Hrun;
  lazymatch type of Hq with
  | (if analytical ?sys then ?q1 else ?q2) = _ =>
      replace (if negb (analytical sys) then q2 else q1)
        with (if analytical sys then q1 else q2) in Hrun
        by (destruct (analytical sys); reflexivity)
  end;
  rewrite Hq in Hrun;
  cbn [from_query head from_option] in Hrun; rewrite !bind_ret in Hrun.

(** The run of [add_curve] up to the drawing of the line. *)
Lemma add_curve_until_plot (self : loc) (parameters : dict loc)
  (readout curve_name : option string) (w : World) (b : BindingCurve)
  (sys : BindingSystem) (p : string) (x : list float) (y : ndvalue)
  (r : outcome unit * World) :
  heap w !! self = Some (OBindingCurve b) ->
  system b = Some sys ->
  _find_changing_parameters parameters = Some [p] ->
  Dict.get p parameters ≫= sequence_items = Some x ->
  (if analytical sys
   then query1 sys (view (heap (initialized self b w)) parameters)
   else query2 sys (view (heap (initialized self b w)) parameters) readout)
  = QOk y ->
  add_curve self parameters readout curve_name w = r ->
  exists b1 w3,
    heap (initialized self b w) !! self = Some (OBindingCurve b1) /\
    heap w3 !! self
    = Some (OBindingCurve
              (set_num_added_traces (_num_added_traces b1 + 1)
                 (set_last_known_readout readout
                    (set_last_known_changing_parameter p b1)))) /\
    curves w3
    = (curves w ++ [{| xcoords := x; ycoords := y; name := EmptyString |}])%list /\
    stdout w3 = stdout w /\
    (let b3 := set_num_added_traces (_num_added_traces b1 + 1)
                 (set_last_known_readout readout
                    (set_last_known_changing_parameter p b1)) in
     (let* a := from_option AttributeError (axes b3) in
      let* colour := from_option IndexError
                       (plot_solution_colours !! _num_added_traces b3) in
      (if Plt.plottable x y
       then write_self self (set_axes (Plt.add_line
              {| Plt.line_x := x; Plt.line_y := y;
                 Plt.line_fmt := colour ++ "-";
                 Plt.line_label :=
                   match curve_name with
                   | Some n => n
                   | None => "Curve " ++ pretty (_num_added_traces b3)
                   end |} a) b3)
       else raise ValueError);;
      let* x_last := from_option IndexError (last x) in
      let* b := read_self self in
      let* m := from_option ValueError (nanmax [_max_x_axis b; x_last]) in
      update_self self (set_max_x_axis m);;
      let* x_first := from_option IndexError (head x) in
      let* b := read_self self in
      let* m := from_option ValueError (nanmin [_min_x_axis b; x_first]) in
      update_self self (set_min_x_axis m);;
      let* m := from_option ValueError (nanmin_nd y) in
      update_self self (set_min_y_axis m);;
      let* y_max := from_option ValueError (nanmax_nd y) in
      let* b := read_self self in
      let* m := from_option ValueError (nanmax [_max_y_axis b; y_max]) in
      update_self self (set_max_y_axis m)) w3 = r).
Proof.
  intros Hb Hsys Hcp Hx Hq Hrun.
  destruct (initialized_lookup self b w Hb) as (b1 & Hb1 & _).
  exists b1. pose proof Hb1 as Hcur.
  enter_add_curve_in Hrun Hb Hsys Hcp Hq.
  rewrite Hx in Hrun. cbn [from_option] in Hrun. rewrite bind_ret in Hrun.
  unfold modify at 1 in Hrun. unfold bind at 1 in Hrun.
  assert (Hc : curves (with_curves (curves (initialized self b w) ++
                 [{| xcoords := x; ycoords := y; name := EmptyString |}])
                 (initialized self b w))
               = (curves w ++
                  [{| xcoords := x; ycoords := y; name := EmptyString |}])%list)
    by (simpl; rewrite initialized_curves; reflexivity).
  assert (Hs : stdout (with_curves (curves (initialized self b w) ++
                 [{| xcoords := x; ycoords := y; name := EmptyString |}])
                 (initialized self b w)) = stdout w)
    by (simpl; apply initialized_stdout).
  change (heap (initialized self b w)) with
    (heap (with_curves (curves (initialized self b w) ++
             [{| xcoords := x; ycoords := y; name := EmptyString |}])
             (initialized self b w))) in Hcur.
  forget_world_t Hcur.
  step_update_t Hrun Hcur Hc Hs. step_update_t Hrun Hcur Hc Hs.
  step_update_t Hrun Hcur Hc Hs.
  rewrite (bind_returned _ _ _ _ _ (read_self_run _ _ _ Hcur)) in Hrun.
  eexists. split; [exact Hb1 |]. split; [exact Hcur |].
  split; [exact Hc |]. split; [exact Hs |]. exact Hrun.
Qed.

Lemma bind_raise {A B : Type} (e : Exception) (k : A -> M B) w :
  bind (raise e) k w = (Raised e, w).
Proof. reflexivity. Qed.

Ltac step_option_t H :=
  lazymatch type of H with
  | bind (from_option _ ?o) _ _ = _ =>
      let v := fresh "v" in
      let E := fresh "E" in
      destruct o as [v |] eqn:E; cbn [from_option] in H;
      [rewrite bind_ret in H | rewrite bind_raise in H; try discriminate H]
  end.

Ltac step_read_t H Hcur :=
  rewrite (bind_returned _ _ _ _ _ (read_self_run _ _ _ Hcur)) in H.

(** X6: when [add_curve] returns, the curve list has grown by exactly the
    new curve, nothing was printed, the last-known names are the swept
    parameter and the readout as given, and the axes have one more line:
    the curve, labelled with the given name or ["Curve n"] for the new
    count [n], in the colour at index [n] of the palette.  The count is
    taken after the increment, so the first palette entry, black, is
    never used. *)
Theorem add_curve_bookkeeping (self : loc) (parameters : dict loc)
  (readout curve_name : option string) (w w' : World) (b : BindingCurve)
  (sys : BindingSystem) (p : string) :
  heap w !! self = Some (OBindingCurve b) ->
  system b = Some sys ->
  _find_changing_parameters parameters = Some [p] ->
  add_curve self parameters readout curve_name w = (Returned tt, w') ->
  exists x y b1 b' a colour,
    Dict.get p parameters ≫= sequence_items = Some x /\
    (if analytical sys
     then query1 sys (view (heap (initialized self b w)) parameters)
     else query2 sys (view (heap (initialized self b w)) parameters) readout)
    = QOk y /\
    heap (initialized self b w) !! self = Some (OBindingCurve b1) /\
    heap w' !! self = Some (OBindingCurve b') /\
    curves w'
    = (curves w ++ [{| xcoords := x; ycoords := y; name := EmptyString |}])%list /\
    stdout w' = stdout w /\
    _last_known_changing_parameter b' = p /\
    _last_known_readout b' = readout /\
    system b' = Some sys /\
    axes b1 = Some a /\
    plot_solution_colours !! (_num_added_traces b + 1) = Some colour /\
    colour <> "k" /\
    axes b'
    = Some (Plt.add_line
              {| Plt.line_x := x; Plt.line_y := y;
                 Plt.line_fmt := colour ++ "-";
                 Plt.line_label :=
                   match curve_name with
                   | Some n => n
                   | None => "Curve " ++ pretty (_num_added_traces b + 1)
                   end |} a).
Proof.
  intros Hb Hsys Hcp Hrun.
  destruct (add_curve_bounds _ _ _ _ _ _ _ _ _ Hb Hsys Hcp Hrun)
    as (x & y & _ & Hx & Hq & _).
  destruct (add_curve_until_plot _ _ _ _ _ _ _ _ _ _ _ Hb Hsys Hcp Hx Hq Hrun)
    as (b1 & w3 & Hb1 & Hcur & Hc & Hs & H).
  destruct (initialized_lookup self b w Hb)
    as (b1' & Hb1' & Hsys1 & _ & _ & _ & _ & Hn1 & _).
  rewrite Hb1 in Hb1'. injection Hb1' as <-.
  cbv zeta in H.
  change (axes (set_num_added_traces _ _)) with (axes b1) in H.
  change (_num_added_traces (set_num_added_traces ?n _)) with n in H.
  rewrite Hn1 in H, Hcur.
  step_option_t H. rename v into a.
  step_option_t H. rename v into colour.
  destruct (Plt.plottable x y);
    [| rewrite bind_raise in H; discriminate H].
  unfold write_self at 1 in H. unfold modify at 1 in H.
  unfold bind at 1 in H.
  match type of H with
  | _ (with_heap (<[_ := ?o]> _) _) = _ =>
      apply (lookup_with_heap_insert w3 self _ o) in Hcur;
      change (curves w3) with
        (curves (with_heap (<[self := o]> (heap w3)) w3)) in Hc;
      change (stdout w3) with
        (stdout (with_heap (<[self := o]> (heap w3)) w3)) in Hs
  end.
  forget_world_t Hcur.
  step_option_t H. step_read_t H Hcur. step_option_t H.
  step_update_t H Hcur Hc Hs.
  step_option_t H. step_read_t H Hcur. step_option_t H.
  step_update_t H Hcur Hc Hs.
  step_option_t H. step_update_t H Hcur Hc Hs.
  step_option_t H. step_read_t H Hcur. step_option_t H.
  rewrite (update_self_run _ _ _ _ Hcur) in H.
  injection H as <-.
  eexists x, y, b1, _, a, colour.
  split; [exact Hx |]. split; [exact Hq |]. split; [exact Hb1 |].
  split; [apply lookup_with_heap_insert with (1 := Hcur) |].
  split; [exact Hc |]. split; [exact Hs |].
  split; [reflexivity |]. split; [reflexivity |].
  split; [cbn; rewrite Hsys1; exact Hsys |].
  split; [exact E |]. split; [reflexivity |].
  split; [| reflexivity].
  intros ->. clear -E0.
  destruct (_num_added_traces b) as [| n]; [discriminate E0 |].
  do 16 (destruct n as [| n]; [discriminate E0 |]).
  discriminate E0.
Qed.

Lemma add_curve_bookkeeping_witness :
  exists x y b1 b' a colour,
    Dict.get "l" (Sample.sweep [1; 2]%float) ≫= sequence_items = Some x /\
    (if analytical Sample.analytical_system
     then query1 Sample.analytical_system
            (view (heap (initialized 0
                           (set_system (Some Sample.analytical_system)
                              class_defaults) Sample.one_instance))
               (Sample.sweep [1; 2]%float))
     else query2 Sample.analytical_system
            (view (heap (initialized 0
                           (set_system (Some Sample.analytical_system)
                              class_defaults) Sample.one_instance))
               (Sample.sweep [1; 2]%float)) (Some "pl"))
    = QOk y /\
    heap (initialized 0 (set_system (Some Sample.analytical_system)
                           class_defaults) Sample.one_instance) !! 0
    = Some (OBindingCurve b1) /\
    heap Sample.plotted !! 0 = Some (OBindingCurve b') /\
    curves Sample.plotted
    = (curves Sample.one_instance ++
       [{| xcoords := x; ycoords := y; name := EmptyString |}])%list /\
    stdout Sample.plotted = stdout Sample.one_instance /\
    _last_known_changing_parameter b' = "l" /\
    _last_known_readout b' = Some "pl" /\
    system b' = Some Sample.analytical_system /\
    axes b1 = Some a /\
    plot_solution_colours !! (0 + 1) = Some colour /\
    colour <> "k" /\
    axes b'
    = Some (Plt.add_line
              {| Plt.line_x := x; Plt.line_y := y;
                 Plt.line_fmt := colour ++ "-";
                 Plt.line_label := "Curve " ++ pretty (0 + 1) |} a).
Proof.
  apply (add_curve_bookkeeping 0 (Sample.sweep [1; 2]%float) (Some "pl")
           None Sample.one_instance Sample.plotted
           (set_system (Some Sample.analytical_system) class_defaults)
           Sample.analytical_system "l" eq_refl eq_refl eq_refl).
  vm_compute. reflexivity.
Defined.

(** X7: the palette has seventeen entries and is indexed without
    wrap-around.  On an accumulator that has counted sixteen curves or
    more (and whose figure, if any, has axes), a call of [add_curve] that
    gets as far as drawing raises [IndexError]; by then the curve is in
    the curve list and the counter has been incremented, but no line has
    been drawn and no bound has moved. *)
Theorem add_curve_palette_exhausted (self : loc) (parameters : dict loc)
  (readout curve_name : option string) (w : World) (b : BindingCurve)
  (sys : BindingSystem) (p : string) (x : list float) (y : ndvalue) :
  heap w !! self = Some (OBindingCurve b) ->
  system b = Some sys ->
  _find_changing_parameters parameters = Some [p] ->
  Dict.get p parameters ≫= sequence_items = Some x ->
  (if analytical sys
   then query1 sys (view (heap (initialized self b w)) parameters)
   else query2 sys (view (heap (initialized self b w)) parameters) readout)
  = QOk y ->
  (fig b = None \/ is_Some (axes b)) ->
  16 <= _num_added_traces b ->
  exists w' b1 b',
    add_curve self parameters readout curve_name w = (Raised IndexError, w') /\
    heap (initialized self b w) !! self = Some (OBindingCurve b1) /\
    heap w' !! self = Some (OBindingCurve b') /\
    curves w'
    = (curves w ++ [{| xcoords := x; ycoords := y; name := EmptyString |}])%list /\
    _num_added_traces b' = _num_added_traces b + 1 /\
    axes b' = axes b1 /\
    _min_x_axis b' = _min_x_axis b /\ _max_x_axis b' = _max_x_axis b /\
    _min_y_axis b' = _min_y_axis b /\ _max_y_axis b' = _max_y_axis b.
Proof.
  intros Hb Hsys Hcp Hx Hq Hax Hn.
  destruct (add_curve_until_plot _ _ _ curve_name _ _ _ _ _ _ _
              Hb Hsys Hcp Hx Hq eq_refl)
    as (b1 & w3 & Hb1 & Hcur & Hc & Hs & H).
  destruct (initialized_lookup self b w Hb)
    as (b1' & Hb1' & _ & Hnx & Hxx & Hny & Hxy & Hn1 & _ & _ & Hsame & Hnew).
  rewrite Hb1 in Hb1'. injection Hb1' as <-.
  cbv zeta in H.
  change (axes (set_num_added_traces _ _)) with (axes b1) in H.
  change (_num_added_traces (set_num_added_traces ?n _)) with n in H.
  assert (Ha : exists a, axes b1 = Some a).
  { destruct (fig b) as [[] |] eqn:Hfig.
    - rewrite (Hsame ltac:(discriminate)).
      destruct Hax as [? | [a Ha]]; [discriminate | eauto].
    - apply Hnew. reflexivity. }
  destruct Ha as [a Ha]. rewrite Ha in H. cbn [from_option] in H.
  rewrite bind_ret in H.
  rewrite (lookup_ge_None_2 plot_solution_colours (_num_added_traces b1 + 1))
    in H by (change (length plot_solution_colours) with 17; lia).
  cbn [from_option] in H. rewrite bind_raise in H.
  eexists w3, b1, _. split; [symmetry; exact H |].
  split; [exact Hb1 |]. split; [exact Hcur |]. split; [exact Hc |].
  split; [cbn; rewrite Hn1; reflexivity |]. split; [reflexivity |].
  repeat split; cbn; assumption.
Qed.

Lemma add_curve_palette_exhausted_witness :
  exists w' b1 b',
    add_curve 0 (Sample.sweep [1; 2]%float) (Some "pl") None Example.worn
    = (Raised IndexError, w') /\
    heap (initialized 0 Example.worn_instance Example.worn) !! 0
    = Some (OBindingCurve b1) /\
    heap w' !! 0 = Some (OBindingCurve b') /\
    curves w'
    = (curves Example.worn ++
       [{| xcoords := [1; 2]%float; ycoords := Array [1; 2]%float;
           name := EmptyString |}])%list /\
    _num_added_traces b' = _num_added_traces Example.worn_instance + 1 /\
    axes b' = axes b1 /\
    _min_x_axis b' = _min_x_axis Example.worn_instance /\
    _max_x_axis b' = _max_x_axis Example.worn_instance /\
    _min_y_axis b' = _min_y_axis Example.worn_instance /\
    _max_y_axis b' = _max_y_axis Example.worn_instance.
Proof.
  apply (add_curve_palette_exhausted 0 (Sample.sweep [1; 2]%float)
           (Some "pl") None Example.worn Example.worn_instance
           Sample.analytical_system "l" [1; 2]%float (Array [1; 2]%float)
           eq_refl eq_refl eq_refl eq_refl eq_refl).
  - right. eexists. reflexivity.
  - vm_compute. lia.
Defined.

(** ** [_initialize_plot] and [add_points_to_plot] *)

(** X8: [_initialize_plot] makes the figure once.  From any world where
    [self] is an accumulator it returns; run again from the world it
    leaves, it changes nothing.  An accumulator that has a figure is left
    as it is, axes included; one that has none gets new axes with the
    grid on and the Y axis from 0 to 1, and pyplot sees [subplots] and
    [tight_layout], in this order. *)
Theorem initialize_plot_once (self : loc) (w : World) (b : BindingCurve) :
  heap w !! self = Some (OBindingCurve b) ->
  exists w1,
    _initialize_plot self w = (Returned tt, w1) /\
    _initialize_plot self w1 = (Returned tt, w1) /\
    (is_Some (fig b) -> w1 = w) /\
    (fig b = None ->
     pyplot w1 = (pyplot w ++ [Plt.Subplots; Plt.TightLayout])%list /\
     attribute axes self w1
     = Some (Some (Plt.set_ylim 0 1 (Plt.set_grid true Plt.new_axes)))) /\
    attribute fig self w1 = Some (Some tt) /\
    curves w1 = curves w /\ stdout w1 = stdout w.
Proof.
  intros Hb. exists (initialized self b w).
  split; [apply _initialize_plot_run, Hb |].
  assert (Hlt : self < length (heap w)) by (eapply lookup_lt_Some, Hb).
  split; [| split; [| split; [| split; [| split]]]].
  - unfold initialized. destruct (fig b) as [[] |] eqn:Hfig.
    + rewrite (_initialize_plot_run _ _ _ Hb). unfold initialized.
      rewrite Hfig. reflexivity.
    + erewrite _initialize_plot_run
        by (simpl; apply list_lookup_insert_eq, Hlt).
      reflexivity.
  - intros [f Hf]. unfold initialized. rewrite Hf. reflexivity.
  - intros Hf. unfold initialized, attribute. rewrite Hf. simpl.
    rewrite list_lookup_insert_eq by exact Hlt. split; reflexivity.
  - unfold initialized, attribute. destruct (fig b) as [[] |] eqn:Hfig.
    + rewrite Hb, Hfig. reflexivity.
    + simpl. rewrite list_lookup_insert_eq by exact Hlt. reflexivity.
  - apply initialized_curves.
  - apply initialized_stdout.
Qed.

Lemma initialize_plot_once_witness :
  exists w1,
    _initialize_plot 0 Sample.one_instance = (Returned tt, w1) /\
    _initialize_plot 0 w1 = (Returned tt, w1) /\
    (is_Some (fig (set_system (Some Sample.analytical_system) class_defaults))
     -> w1 = Sample.one_instance) /\
    (fig (set_system (Some Sample.analytical_system) class_defaults) = None ->
     pyplot w1
     = (pyplot Sample.one_instance ++ [Plt.Subplots; Plt.TightLayout])%list /\
     attribute axes 0 w1
     = Some (Some (Plt.set_ylim 0 1 (Plt.set_grid true Plt.new_axes)))) /\
    attribute fig 0 w1 = Some (Some tt) /\
    curves w1 = curves Sample.one_instance /\
    stdout w1 = stdout Sample.one_instance.
Proof.
  apply (initialize_plot_once 0 Sample.one_instance
           (set_system (Some Sample.analytical_system) class_defaults)).
  reflexivity.
Defined.

(** What a run leaves alone: an attribute that no setter on the way
    writes. *)
Section KeepsAttribute.

Context {A : Type} (attr : BindingCurve -> A) (self : loc) (v : A).

Lemma keeps_attribute_update (f : BindingCurve -> BindingCurve) :
  (forall b, attr (f b) = attr b) ->
  keeps (holds_attribute attr self v) (update_self self f).
Proof.
  intros Hf w Hw. unfold holds_attribute, attribute in *.
  destruct (heap w !! self) as [[| | b] |] eqn:Hb; try discriminate.
  rewrite (update_self_run _ _ _ _ Hb). simpl.
  rewrite list_lookup_insert_eq by (eapply lookup_lt_Some, Hb).
  rewrite Hf. exact Hw.
Qed.

Lemma keeps_attribute_on_axes (f : Plt.Axes -> Plt.Axes) :
  (forall g a b, attr (set_fig_axes g a b) = attr b) ->
  keeps (holds_attribute attr self v) (on_axes self f).
Proof.
  intros Hf w Hw. unfold holds_attribute, attribute in *.
  destruct (heap w !! self) as [[| | b] |] eqn:Hb; try discriminate.
  unfold on_axes. rewrite (bind_returned _ _ _ _ _ (read_self_run _ _ _ Hb)).
  destruct (axes b) as [a |]; simpl; [| rewrite Hb; exact Hw].
  rewrite list_lookup_insert_eq by (eapply lookup_lt_Some, Hb).
  unfold set_axes. rewrite Hf. exact Hw.
Qed.

Lemma keeps_attribute_pyplot (f : World -> list Plt.Event) :
  keeps (holds_attribute attr self v) (modify (fun w => with_pyplot (f w) w)).
Proof. apply keeps_modify. intros w Hw. exact Hw. Qed.

Lemma keeps_attribute__initialize_plot :
  (forall g a b, attr (set_fig_axes g a b) = attr b) ->
  keeps (holds_attribute attr self v) (_initialize_plot self).
Proof.
  intros Hfa. unfold _initialize_plot.
  apply keeps_bind; [apply keeps_read_self | intros b].
  destruct (fig b); [apply keeps_ret |].
  repeat first
    [ apply keeps_attribute_pyplot
    | apply keeps_attribute_update; intros ?; apply Hfa
    | apply keeps_attribute_on_axes; exact Hfa
    | apply keeps_bind; [| intros ?] ].
Qed.

Lemma keeps_attribute_add_points (xs ys : Coordinates) :
  (forall g a b, attr (set_fig_axes g a b) = attr b) ->
  (is_ndarray xs && is_ndarray ys = true ->
   (forall x b, attr (set_min_y_axis x b) = attr b) /\
   (forall x b, attr (set_max_y_axis x b) = attr b)) ->
  keeps (holds_attribute attr self v) (add_points_to_plot self xs ys).
Proof.
  intros Hfa Hy. unfold add_points_to_plot.
  apply keeps_bind; [apply keeps_attribute__initialize_plot, Hfa | intros _].
  apply keeps_bind; [apply keeps_read_self | intros b].
  apply keeps_bind; [apply keeps_from_option | intros a].
  apply keeps_bind;
    [case_bool_decide; [apply keeps_ret | apply keeps_raise] | intros _].
  destruct (is_ndarray xs && is_ndarray ys); [| apply keeps_ret].
  destruct (Hy eq_refl) as [Hlo Hhi].
  repeat first
    [ apply keeps_read_self | apply keeps_from_option
    | apply keeps_attribute_update; intros ?; first [apply Hlo | apply Hhi]
    | apply keeps_bind; [| intros ?] ].
Qed.

End KeepsAttribute.

Section KeepsOutput.

Context (c : list _Curve) (s : list string).

Lemma keeps_output_heap (f : World -> list object) :
  keeps (holds_output c s) (modify (fun w => with_heap (f w) w)).
Proof. apply keeps_modify. intros w Hw. exact Hw. Qed.

Lemma keeps_output_pyplot (f : World -> list Plt.Event) :
  keeps (holds_output c s) (modify (fun w => with_pyplot (f w) w)).
Proof. apply keeps_modify. intros w Hw. exact Hw. Qed.

Lemma keeps_output_update self f :
  keeps (holds_output c s) (update_self self f).
Proof. apply keeps_update_self. intros w h Hw. exact Hw. Qed.

Lemma keeps_output_on_axes self f :
  keeps (holds_output c s) (on_axes self f).
Proof.
  unfold on_axes. apply keeps_bind; [apply keeps_read_self | intros b].
  destruct (axes b); [| apply keeps_raise].
  apply keeps_write_self. intros w h Hw. exact Hw.
Qed.

Lemma keeps_output__initialize_plot self :
  keeps (holds_output c s) (_initialize_plot self).
Proof.
  unfold _initialize_plot.
  apply keeps_bind; [apply keeps_read_self | intros b].
  destruct (fig b); [apply keeps_ret |].
  repeat first
    [ apply keeps_output_pyplot | apply keeps_output_update
    | apply keeps_output_on_axes | apply keeps_bind; [| intros ?] ].
Qed.

Lemma keeps_output_add_points self xs ys :
  keeps (holds_output c s) (add_points_to_plot self xs ys).
Proof.
  unfold add_points_to_plot.
  apply keeps_bind; [apply keeps_output__initialize_plot | intros _].
  apply keeps_bind; [apply keeps_read_self | intros b].
  apply keeps_bind; [apply keeps_from_option | intros a].
  apply keeps_bind;
    [case_bool_decide; [apply keeps_ret | apply keeps_raise] | intros _].
  destruct (is_ndarray xs && is_ndarray ys); [| apply keeps_ret].
  repeat first
    [ apply keeps_read_self | apply keeps_from_option
    | apply keeps_output_update | apply keeps_bind; [| intros ?] ].
Qed.

End KeepsOutput.

(** X9: [add_points_to_plot] accounts for the points in the Y bounds only
    when both coordinates are arrays.  For any coordinates and whatever
    the outcome, the X bounds, the trace counter, the last-known names,
    the system, the curve list and the console are as before; when one
    of the coordinates is not an array (a list, say) the Y bounds are as
    before too. *)
Theorem add_points_to_plot_frame (self : loc) (xs ys : Coordinates)
  (w : World) (b : BindingCurve) :
  heap w !! self = Some (OBindingCurve b) ->
  let w' := (add_points_to_plot self xs ys w).2 in
  attribute _min_x_axis self w' = Some (_min_x_axis b) /\
  attribute _max_x_axis self w' = Some (_max_x_axis b) /\
  attribute _num_added_traces self w' = Some (_num_added_traces b) /\
  attribute _last_known_changing_parameter self w'
  = Some (_last_known_changing_parameter b) /\
  attribute _last_known_readout self w' = Some (_last_known_readout b) /\
  attribute system self w' = Some (system b) /\
  curves w' = curves w /\ stdout w' = stdout w /\
  (is_ndarray xs && is_ndarray ys = false ->
   attribute _min_y_axis self w' = Some (_min_y_axis b) /\
   attribute _max_y_axis self w' = Some (_max_y_axis b)).
Proof.
  intros Hb w'.
  assert (Hattr : forall {A : Type} (attr : BindingCurve -> A),
             (forall g a b, attr (set_fig_axes g a b) = attr b) ->
             (is_ndarray xs && is_ndarray ys = true ->
              (forall x b, attr (set_min_y_axis x b) = attr b) /\
              (forall x b, attr (set_max_y_axis x b) = attr b)) ->
             attribute attr self w' = Some (attr b)).
  { intros A attr Hfa Hy.
    apply (keeps_attribute_add_points attr self (attr b) xs ys Hfa Hy w).
    unfold holds_attribute, attribute. rewrite Hb. reflexivity. }
  repeat (split; [apply Hattr; [reflexivity | intros _; split; reflexivity] |]).
  assert (Hout : holds_output (curves w) (stdout w) w')
    by (apply keeps_output_add_points; split; reflexivity).
  destruct Hout as [Hc Hs]. split; [exact Hc |]. split; [exact Hs |].
  intros Hlist.
  split; apply Hattr; try reflexivity; rewrite Hlist; discriminate.
Qed.

Lemma add_points_to_plot_frame_witness :
  let w' := (add_points_to_plot 0 (CList [1; 2]%float) (CArray [5; 7]%float)
               Sample.drawn).2 in
  attribute _min_x_axis 0 w' = Some (_min_x_axis Sample.drawn_instance) /\
  attribute _max_x_axis 0 w' = Some (_max_x_axis Sample.drawn_instance) /\
  attribute _num_added_traces 0 w'
  = Some (_num_added_traces Sample.drawn_instance) /\
  attribute _last_known_changing_parameter 0 w'
  = Some (_last_known_changing_parameter Sample.drawn_instance) /\
  attribute _last_known_readout 0 w'
  = Some (_last_known_readout Sample.drawn_instance) /\
  attribute system 0 w' = Some (system Sample.drawn_instance) /\
  curves w' = curves Sample.drawn /\ stdout w' = stdout Sample.drawn /\
  (is_ndarray (CList [1; 2]%float) && is_ndarray (CArray [5; 7]%float) = false
   -> attribute _min_y_axis 0 w' = Some (_min_y_axis Sample.drawn_instance) /\
      attribute _max_y_axis 0 w' = Some (_max_y_axis Sample.drawn_instance)).
Proof.
  apply (add_points_to_plot_frame 0 (CList [1; 2]%float)
           (CArray [5; 7]%float) Sample.drawn Sample.drawn_instance).
  reflexivity.
Defined.

Lemma py_min_cases (a b : float) : py_min a b = a \/ py_min a b = b.
Proof. unfold py_min. destruct (PrimFloat.ltb b a); [right | left]; reflexivity. Qed.

Lemma py_max_cases (a b : float) : py_max a b = a \/ py_max a b = b.
Proof. unfold py_max. destruct (PrimFloat.ltb a b); [right | left]; reflexivity. Qed.

Lemma fold_py_elem_of (f : float -> float -> float) (l : list float) (x : float) :
  (forall a b, f a b = a \/ f a b = b) ->
  fold_left f l x ∈ x :: l.
Proof.
  intros Hf. revert x. induction l as [| y l IH]; intros x; simpl.
  - left.
  - specialize (IH (f x y)). apply elem_of_cons in IH as [IH | IH].
    + rewrite IH. destruct (Hf x y) as [-> | ->]; [left | right; left].
    + right. right. exact IH.
Qed.

(** X10: [add_points_to_plot] with two arrays of one length, on an
    accumulator whose figure, if any, has axes.  With no points it raises
    [ValueError] once the figure exists, and no bound has moved.  With
    points it returns; the lower Y bound becomes Python's [min] of the
    old bound and the [min] of the y values, the upper one likewise with
    [max]; either way each new bound is the old bound or one of the y
    values given. *)
Theorem add_points_to_plot_arrays (self : loc) (xs ys : list float)
  (w : World) (b : BindingCurve) :
  heap w !! self = Some (OBindingCurve b) ->
  (fig b = None \/ is_Some (axes b)) ->
  length xs = length ys ->
  (ys = [] ->
   add_points_to_plot self (CArray xs) (CArray ys) w
   = (Raised ValueError, initialized self b w)) /\
  (ys <> [] ->
   exists w' lo hi,
     add_points_to_plot self (CArray xs) (CArray ys) w = (Returned tt, w') /\
     py_min_of ys = Some lo /\ py_max_of ys = Some hi /\
     attribute _min_y_axis self w' = Some (py_min (_min_y_axis b) lo) /\
     attribute _max_y_axis self w' = Some (py_max (_max_y_axis b) hi) /\
     (py_min (_min_y_axis b) lo ∈ _min_y_axis b :: ys) /\
     (py_max (_max_y_axis b) hi ∈ _max_y_axis b :: ys)).
Proof.
  intros Hb Hax Hlen.
  destruct (initialized_lookup self b w Hb)
    as (b1 & Hb1 & _ & _ & _ & Hny & Hxy & _ & _ & _ & Hsame & Hnew).
  assert (Ha : exists a, axes b1 = Some a).
  { destruct (fig b) as [[] |] eqn:Hfig.
    - rewrite (Hsame ltac:(discriminate)).
      destruct Hax as [? | [a Ha]]; [discriminate | eauto].
    - apply Hnew. reflexivity. }
  destruct Ha as [a Ha].
  assert (Hrun : forall r,
            add_points_to_plot self (CArray xs) (CArray ys) w = r ->
            (let* b := read_self self in
             let* lo := from_option ValueError (py_min_of ys) in
             update_self self (set_min_y_axis (py_min (_min_y_axis b) lo));;
             let* b := read_self self in
             let* hi := from_option ValueError (py_max_of ys) in
             update_self self (set_max_y_axis (py_max (_max_y_axis b) hi)))
              (initialized self b w) = r).
  { intros r H. unfold add_points_to_plot in H.
    rewrite (bind_returned _ _ _ _ _ (_initialize_plot_run _ _ _ Hb)) in H.
    rewrite (bind_returned _ _ _ _ _ (read_self_run _ _ _ Hb1)) in H.
    rewrite Ha in H. cbn [from_option items is_ndarray andb] in H.
    rewrite bind_ret in H.
    rewrite bool_decide_eq_true_2 in H by exact Hlen.
    rewrite bind_ret in H. exact H. }
  split.
  - intros ->. specialize (Hrun _ eq_refl). rewrite <- Hrun.
    rewrite (bind_returned _ _ _ _ _ (read_self_run _ _ _ Hb1)).
    reflexivity.
  - intros Hne. destruct ys as [| y ys]; [congruence |].
    specialize (Hrun _ eq_refl).
    rewrite (bind_returned _ _ _ _ _ (read_self_run _ _ _ Hb1)) in Hrun.
    cbn [py_min_of py_max_of from_option] in Hrun. rewrite bind_ret in Hrun.
    rewrite (bind_returned _ _ _ _ _ (update_self_run _ _ _ _ Hb1)) in Hrun.
    pose proof (lookup_with_heap_insert _ self _
                  (OBindingCurve (set_min_y_axis
                     (py_min (_min_y_axis b1) (fold_left py_min ys y)) b1))
                  Hb1) as Hcur.
    rewrite (bind_returned _ _ _ _ _ (read_self_run _ _ _ Hcur)) in Hrun.
    rewrite bind_ret in Hrun.
    rewrite (update_self_run _ _ _ _ Hcur) in Hrun.
    eexists _, _, _. split; [symmetry; exact Hrun |].
    split; [reflexivity |]. split; [reflexivity |].
    unfold attribute.
    rewrite (lookup_with_heap_insert _ self _ _ Hcur). cbn.
    rewrite Hny, Hxy. split; [reflexivity |]. split; [reflexivity |].
    split.
    + destruct (py_min_cases (_min_y_axis b) (fold_left py_min ys y))
        as [-> | ->]; [left | right].
      apply fold_py_elem_of, py_min_cases.
    + destruct (py_max_cases (_max_y_axis b) (fold_left py_max ys y))
        as [-> | ->]; [left | right].
      apply fold_py_elem_of, py_max_cases.
Qed.

Lemma add_points_to_plot_arrays_witness :
  ([5; 7]%float = [] ->
   add_points_to_plot 0 (CArray [1; 2]%float) (CArray [5; 7]%float)
     Sample.drawn
   = (Raised ValueError, initialized 0 Sample.drawn_instance Sample.drawn)) /\
  ([5; 7]%float <> [] ->
   exists w' lo hi,
     add_points_to_plot 0 (CArray [1; 2]%float) (CArray [5; 7]%float)
       Sample.drawn = (Returned tt, w') /\
     py_min_of [5; 7]%float = Some lo /\ py_max_of [5; 7]%float = Some hi /\
     attribute _min_y_axis 0 w'
     = Some (py_min (_min_y_axis Sample.drawn_instance) lo) /\
     attribute _max_y_axis 0 w'
     = Some (py_max (_max_y_axis Sample.drawn_instance) hi) /\
     (py_min (_min_y_axis Sample.drawn_instance) lo
      ∈ _min_y_axis Sample.drawn_instance :: [5; 7]%float) /\
     (py_max (_max_y_axis Sample.drawn_instance) hi
      ∈ _max_y_axis Sample.drawn_instance :: [5; 7]%float)).
Proof.
  apply (add_points_to_plot_arrays 0 [1; 2]%float [5; 7]%float Sample.drawn
           Sample.drawn_instance eq_refl).
  - right. eexists. reflexivity.
  - reflexivity.
Defined.

(** ** [show_plot] *)

Lemma set_axes_same (b : BindingCurve) (a : Plt.Axes) :
  axes b = Some a -> set_axes a b = b.
Proof. destruct b. simpl. intros ->. reflexivity. Qed.

(** Single steps of [show_plot], with what they leave in [self] and in
    pyplot. *)
Lemma for_some_update_self_step self (o : option float)
  (f : float -> BindingCurve -> BindingCurve) b w :
  heap w !! self = Some (OBindingCurve b) ->
  exists w1,
    for_some o (fun x => update_self self (f x)) w = (Returned tt, w1) /\
    heap w1 !! self =
      Some (OBindingCurve (match o with Some x => f x b | None => b end)) /\
    pyplot w1 = pyplot w /\ curves w1 = curves w /\ stdout w1 = stdout w.
Proof.
  intros Hb. destruct o as [x |]; simpl.
  - eexists. split; [apply (update_self_run _ _ _ _ Hb) |].
    split; [apply (lookup_with_heap_insert _ _ _ _ Hb) |].
    repeat split.
  - exists w. repeat split. exact Hb.
Qed.

Lemma on_axes_step self f b a w :
  heap w !! self = Some (OBindingCurve b) ->
  axes b = Some a ->
  exists w1,
    on_axes self f w = (Returned tt, w1) /\
    heap w1 !! self = Some (OBindingCurve (set_axes (f a) b)) /\
    pyplot w1 = pyplot w.
Proof.
  intros Hb Ha. unfold on_axes.
  rewrite (bind_returned _ _ _ _ _ (read_self_run _ _ _ Hb)). rewrite Ha.
  eexists. split; [reflexivity |].
  split; [apply (lookup_with_heap_insert _ _ _ _ Hb) | reflexivity].
Qed.

Lemma when_on_axes_step self (c : bool) f b a w :
  heap w !! self = Some (OBindingCurve b) ->
  axes b = Some a ->
  exists w1,
    when c (on_axes self f) w = (Returned tt, w1) /\
    heap w1 !! self
    = Some (OBindingCurve (set_axes (if c then f a else a) b)) /\
    pyplot w1 = pyplot w.
Proof.
  intros Hb Ha. destruct c; simpl.
  - apply on_axes_step; assumption.
  - exists w. rewrite (set_axes_same _ _ Ha). repeat split. exact Hb.
Qed.

Lemma on_axes_no_axes self f b w :
  heap w !! self = Some (OBindingCurve b) ->
  axes b = None ->
  on_axes self f w = (Raised AttributeError, w).
Proof.
  intros Hb Ha. unfold on_axes.
  rewrite (bind_returned _ _ _ _ _ (read_self_run _ _ _ Hb)). rewrite Ha.
  reflexivity.
Qed.

Lemma for_some_savefig_step mpl (o : option string) w :
  (forall w0 f, savefig mpl w0 f = None) ->
  exists w1,
    for_some o (fun f => pyplot_savefig mpl f) w = (Returned tt, w1) /\
    heap w1 = heap w /\
    pyplot w1 = (pyplot w ++ (Plt.Savefig <$> option_list o))%list.
Proof.
  intros Hsave. destruct o as [f |]; simpl.
  - unfold pyplot_savefig, bind, get_world. rewrite Hsave. simpl.
    eexists. split; [reflexivity |]. split; reflexivity.
  - exists w. rewrite app_nil_r. repeat split.
Qed.

Lemma pyplot_show_run mpl w :
  show mpl w = None ->
  pyplot_show mpl w
  = (Returned tt, with_pyplot (pyplot w ++ [Plt.ShowFigure]) w).
Proof.
  intros Hshow. unfold pyplot_show, bind, get_world. rewrite Hshow.
  reflexivity.
Qed.

Lemma major_ticks_run mpl self b a w :
  heap w !! self = Some (OBindingCurve b) ->
  axes b = Some a ->
  (let* b := read_self self in
   let* a := from_option AttributeError (axes b) in
   unless (major_ticks mpl a)) w
  = (match major_ticks mpl a with
     | Some e => Raised e
     | None => Returned tt
     end, w).
Proof.
  intros Hb Ha.
  rewrite (bind_returned _ _ _ _ _ (read_self_run _ _ _ Hb)).
  rewrite Ha. cbn [from_option]. rewrite bind_ret.
  destruct (major_ticks mpl a); reflexivity.
Qed.

Lemma axes_set_ylim_no_axes mpl self lo hi b w :
  heap w !! self = Some (OBindingCurve b) ->
  axes b = None ->
  axes_set_ylim mpl self lo hi w = (Raised AttributeError, w).
Proof.
  intros Hb Ha. unfold axes_set_ylim.
  destruct (finite lo && finite hi);
    [apply on_axes_no_axes with (1 := Hb); exact Ha |].
  unfold refuse. rewrite (bind_returned _ _ _ _ _ (read_self_run _ _ _ Hb)).
  rewrite Ha. reflexivity.
Qed.

Lemma axes_set_ylim_step {A : Type} mpl self (o : option A) lo hi1 hi2 b a w :
  heap w !! self = Some (OBindingCurve b) ->
  axes b = Some a ->
  finite lo = true ->
  finite match o with None => hi1 | Some _ => hi2 end = true ->
  exists w1,
    match o with
    | None => axes_set_ylim mpl self lo hi1
    | Some _ => axes_set_ylim mpl self lo hi2
    end w = (Returned tt, w1) /\
    heap w1 !! self
    = Some (OBindingCurve
              (set_axes
                 (let l := view_limits mpl (Plt.yscale a) (Plt.ylim a) lo
                             match o with None => hi1 | Some _ => hi2 end in
                  Plt.set_ylim l.1 l.2 a) b)) /\
    pyplot w1 = pyplot w.
Proof.
  intros Hb Ha Hlo Hhi.
  destruct o; unfold axes_set_ylim; rewrite Hlo, Hhi; cbn [andb];
    exact (on_axes_step self _ b a w Hb Ha).
Qed.

Lemma axes_set_xlim_step mpl self lo hi b a w :
  heap w !! self = Some (OBindingCurve b) ->
  axes b = Some a ->
  finite lo = true ->
  finite hi = true ->
  exists w1,
    axes_set_xlim mpl self lo hi w = (Returned tt, w1) /\
    heap w1 !! self
    = Some (OBindingCurve
              (set_axes
                 (let l := view_limits mpl (Plt.xscale a) (Plt.xlim a) lo hi in
                  Plt.set_xlim l.1 l.2 a) b)) /\
    pyplot w1 = pyplot w.
Proof.
  intros Hb Ha Hlo Hhi. unfold axes_set_xlim. rewrite Hlo, Hhi. cbn [andb].
  exact (on_axes_step self _ b a w Hb Ha).
Qed.

Lemma log_x_step mpl self (c : bool) b a w :
  heap w !! self = Some (OBindingCurve b) ->
  axes b = Some a ->
  (c = true -> log_x_keyword mpl = None) ->
  exists w1,
    when c match log_x_keyword mpl with
           | None => on_axes self (Plt.set_xscale Plt.Log)
           | Some e => refuse self e
           end w = (Returned tt, w1) /\
    heap w1 !! self
    = Some (OBindingCurve
              (set_axes (if c then Plt.set_xscale Plt.Log a else a) b)) /\
    pyplot w1 = pyplot w.
Proof.
  intros Hb Ha Hc. destruct c; simpl.
  - rewrite (Hc eq_refl). apply on_axes_step; assumption.
  - exists w. rewrite (set_axes_same _ _ Ha). repeat split. exact Hb.
Qed.

(** The four overrides at the head of [show_plot]. *)
Ltac show_plot_overrides Hb w4 H4 Hp Hc Hs :=
  let w1 := fresh "w" in let w2 := fresh "w" in let w3 := fresh "w" in
  let E := fresh "E" in let H1 := fresh "H" in
  let H2 := fresh "H" in let H3 := fresh "H" in
  let P1 := fresh "P" in let C1 := fresh "C" in let S1 := fresh "S" in
  lazymatch type of Hb with
  | heap ?w !! ?self = Some (OBindingCurve ?b) =>
      lazymatch goal with
      | |- context [for_some ?min_x (fun v => update_self self (set_min_x_axis v))] =>
          destruct (for_some_update_self_step self min_x set_min_x_axis b w Hb)
            as (w1 & E & H1 & Hp & Hc & Hs);
          rewrite (bind_returned _ _ _ _ _ E); clear E
      end;
      lazymatch goal with
      | |- context [for_some ?max_x (fun v => update_self self (set_max_x_axis v))] =>
          destruct (for_some_update_self_step self max_x set_max_x_axis _ w1 H1)
            as (w2 & E & H2 & P1 & C1 & S1);
          rewrite (bind_returned _ _ _ _ _ E); clear E;
          rewrite <- P1 in Hp; rewrite <- C1 in Hc; rewrite <- S1 in Hs;
          clear P1 C1 S1
      end;
      lazymatch goal with
      | |- context [for_some ?min_y (fun v => update_self self (set_min_y_axis v))] =>
          destruct (for_some_update_self_step self min_y set_min_y_axis _ w2 H2)
            as (w3 & E & H3 & P1 & C1 & S1);
          rewrite (bind_returned _ _ _ _ _ E); clear E;
          rewrite <- P1 in Hp; rewrite <- C1 in Hc; rewrite <- S1 in Hs;
          clear P1 C1 S1
      end;
      lazymatch goal with
      | |- context [for_some ?max_y (fun v => update_self self (set_max_y_axis v))] =>
          destruct (for_some_update_self_step self max_y set_max_y_axis _ w3 H3)
            as (w4 & E & H4 & P1 & C1 & S1);
          rewrite (bind_returned _ _ _ _ _ E); clear E;
          rewrite <- P1 in Hp; rewrite <- C1 in Hc; rewrite <- S1 in Hs;
          clear P1 C1 S1
      end;
      clear H1 H2 H3
  end.

(** X11: the limits given to [show_plot] are written into the bounds of
    the accumulator before anything is drawn, and stay there: whatever
    the outcome of the call, each bound is afterwards the limit given
    for it, or the bound as it was when none was given.  The trace
    counter, the last-known names, the system, the curve list and the
    console are as before. *)
Theorem show_plot_limits_persist (mpl : Matplotlib) (self : loc)
  (title : string)
  (xlabel ylabel : option string) (min_x max_x min_y max_y : option float)
  (log_x_axis log_y_axis : bool) (png_filename svg_filename : option string)
  (show_legend : bool) (w : World) (b : BindingCurve) :
  heap w !! self = Some (OBindingCurve b) ->
  let w' := (show_plot mpl self title xlabel ylabel min_x max_x min_y max_y
               log_x_axis log_y_axis png_filename svg_filename show_legend
               w).2 in
  attribute _min_x_axis self w' = Some (default (_min_x_axis b) min_x) /\
  attribute _max_x_axis self w' = Some (default (_max_x_axis b) max_x) /\
  attribute _min_y_axis self w' = Some (default (_min_y_axis b) min_y) /\
  attribute _max_y_axis self w' = Some (default (_max_y_axis b) max_y) /\
  attribute _num_added_traces self w' = Some (_num_added_traces b) /\
  attribute _last_known_changing_parameter self w'
  = Some (_last_known_changing_parameter b) /\
  attribute _last_known_readout self w' = Some (_last_known_readout b) /\
  attribute system self w' = Some (system b) /\
  curves w' = curves w /\ stdout w' = stdout w.
Proof.
  intros Hb w'. subst w'. unfold show_plot.
  show_plot_overrides Hb w4 H4 Hp Hc Hs.
  lazymatch goal with
  | |- context [ (?m w4).2 ] =>
      assert (Hattr : forall (A : Type) (attr : BindingCurve -> A) v,
                 (forall g a b, attr (set_fig_axes g a b) = attr b) ->
                 attribute attr self w4 = Some v ->
                 attribute attr self (m w4).2 = Some v);
      [| assert (Hout : holds_output (curves w) (stdout w) (m w4).2)]
  end.
  - intros A attr v Hfa Hv.
    refine (_ : holds_attribute attr self v _).
    revert Hv. generalize w4. refine (_ : keeps (holds_attribute attr self v) _).
    apply keeps_bind; [apply keeps_read_self | intros b4].
    unfold axes_set_ylim, axes_set_xlim.
    repeat first
      [ apply keeps_attribute_pyplot
      | apply keeps_attribute_on_axes; exact Hfa
      | apply keeps_refuse
      | apply keeps_when
      | apply keeps_unless
      | apply keeps_pyplot_savefig; intros ? ? H; exact H
      | apply keeps_pyplot_show; intros ? ? H; exact H
      | apply keeps_for_some; intros ?
      | apply keeps_from_option
      | apply keeps_read_self
      | match goal with |- keeps _ (match ?o with _ => _ end) => destruct o end
      | apply keeps_bind; [| intros ?] ].
  - assert (H0 : holds_output (curves w) (stdout w) w4)
      by (split; assumption).
    revert H0. generalize w4.
    refine (_ : keeps (holds_output (curves w) (stdout w)) _).
    apply keeps_bind; [apply keeps_read_self | intros b4].
    unfold axes_set_ylim, axes_set_xlim.
    repeat first
      [ apply keeps_output_pyplot
      | apply keeps_output_on_axes
      | apply keeps_refuse
      | apply keeps_when
      | apply keeps_unless
      | apply keeps_pyplot_savefig; intros ? ? H; exact H
      | apply keeps_pyplot_show; intros ? ? H; exact H
      | apply keeps_for_some; intros ?
      | apply keeps_from_option
      | apply keeps_read_self
      | match goal with |- keeps _ (match ?o with _ => _ end) => destruct o end
      | apply keeps_bind; [| intros ?] ].
  - destruct Hout as [Hc' Hs'].
    assert (Hat : forall (A : Type) (attr : BindingCurve -> A),
               attribute attr self w4
               = Some (attr (match max_y with
                             | Some x => set_max_y_axis x _
                             | None => _
                             end)))
      by (intros A attr; unfold attribute; rewrite H4; reflexivity).
    repeat split; try assumption;
      (apply Hattr; [reflexivity |]); rewrite Hat;
      destruct min_x, max_x, min_y, max_y; reflexivity.
Qed.

Lemma show_plot_limits_persist_witness :
  let w' := (show_plot Sample.as_asked 0 "t" None None (Some 1%float) None
               None (Some 3%float) false false None None true
               Sample.one_instance).2 in
  attribute _min_x_axis 0 w' = Some (default 0%float (Some 1%float)) /\
  attribute _max_x_axis 0 w' = Some (default 0%float None) /\
  attribute _min_y_axis 0 w' = Some (default 0%float None) /\
  attribute _max_y_axis 0 w' = Some (default 0%float (Some 3%float)) /\
  attribute _num_added_traces 0 w' = Some 0 /\
  attribute _last_known_changing_parameter 0 w' = Some "X" /\
  attribute _last_known_readout 0 w' = Some (Some "Y") /\
  attribute system 0 w' = Some (Some Sample.analytical_system) /\
  curves w' = curves Sample.one_instance /\
  stdout w' = stdout Sample.one_instance.
Proof.
  apply (show_plot_limits_persist Sample.as_asked 0 "t" None None
           (Some 1%float) None None (Some 3%float) false false None None
           true Sample.one_instance
           (set_system (Some Sample.analytical_system) class_defaults)).
  reflexivity.
Defined.

(** One more step of a run in the goal: [L] proves that the next action
    returns; the accumulator is followed in [Hcur], pyplot in [Hp]. *)
Ltac step_with L Hcur Hp :=
  let w1 := fresh "w" in let E := fresh "E" in
  let P1 := fresh "P" in
  destruct L as (w1 & E & Hcur & P1);
  rewrite (bind_returned _ _ _ _ _ E); clear E;
  rewrite <- P1 in Hp; clear P1.

(** X12: [show_plot] does not make the figure.  On an accumulator that
    has no axes, one that has had no curve and no points added, it
    raises [AttributeError], and pyplot has neither saved nor shown
    anything. *)
Theorem show_plot_without_axes (mpl : Matplotlib) (self : loc)
  (title : string)
  (xlabel ylabel : option string) (min_x max_x min_y max_y : option float)
  (log_x_axis log_y_axis : bool) (png_filename svg_filename : option string)
  (show_legend : bool) (w : World) (b : BindingCurve) :
  heap w !! self = Some (OBindingCurve b) ->
  axes b = None ->
  (show_plot mpl self title xlabel ylabel min_x max_x min_y max_y
     log_x_axis log_y_axis png_filename svg_filename show_legend w).1
  = Raised AttributeError /\
  pyplot (show_plot mpl self title xlabel ylabel min_x max_x min_y max_y
            log_x_axis log_y_axis png_filename svg_filename show_legend w).2
  = pyplot w.
Proof.
  intros Hb Ha. unfold show_plot.
  show_plot_overrides Hb w4 H4 Hp Hc Hs.
  rewrite (bind_returned _ _ _ _ _ (read_self_run _ _ _ H4)).
  set (b4 := match max_y with Some x => set_max_y_axis x _ | None => _ end)
    in *.
  assert (Ha4 : axes b4 = None)
    by (subst b4; destruct min_x, max_x, min_y, max_y; exact Ha).
  clearbody b4.
  rewrite (bind_raised _ _ w4 AttributeError w4)
    by (destruct max_y; apply axes_set_ylim_no_axes with (1 := H4);
        exact Ha4).
  split; [reflexivity | exact Hp].
Qed.

Lemma show_plot_without_axes_witness :
  (show_plot Sample.as_asked 0 "t" None None None None None None false false
     None None true Sample.one_instance).1
  = Raised AttributeError /\
  pyplot (show_plot Sample.as_asked 0 "t" None None None None None None
            false false None None true Sample.one_instance).2
  = pyplot Sample.one_instance.
Proof.
  apply (show_plot_without_axes Sample.as_asked 0 "t" None None None None
           None None false false None None true Sample.one_instance
           (set_system (Some Sample.analytical_system) class_defaults));
    reflexivity.
Defined.

Lemma on_axes_option_step {A : Type} self (o : option A)
  (f1 : Plt.Axes -> Plt.Axes) (f2 : A -> Plt.Axes -> Plt.Axes) b a w :
  heap w !! self = Some (OBindingCurve b) ->
  axes b = Some a ->
  exists w1,
    match o with
    | None => on_axes self f1
    | Some x => on_axes self (f2 x)
    end w = (Returned tt, w1) /\
    heap w1 !! self
    = Some (OBindingCurve
              (set_axes match o with None => f1 a | Some x => f2 x a end b)) /\
    pyplot w1 = pyplot w.
Proof. intros Hb Ha. destruct o; apply on_axes_step; assumption. Qed.

(** The head of [show_plot] on an accumulator with axes, when matplotlib
    accepts the limits and the keyword of the X scale: the overrides,
    the limits and the X scale. *)
Ltac show_plot_head mpl self Hb Ha Hly Hhy Hlx Hhx Hlogx
    min_x max_x min_y max_y b4 Hcur Hp Hfacts :=
  let w4 := fresh "w" in
  let H4 := fresh "H" in let Hc := fresh "Hc" in let Hs := fresh "Hs" in
  let Ha4 := fresh "Ha" in
  let Hly4 := fresh "Hly" in let Hhy4 := fresh "Hhy" in
  let Hlx4 := fresh "Hlx" in let Hhx4 := fresh "Hhx" in
  unfold show_plot;
  show_plot_overrides Hb w4 H4 Hp Hc Hs; clear Hc Hs;
  rewrite (bind_returned _ _ _ _ _ (read_self_run _ _ _ H4));
  lazymatch type of H4 with
  | _ = Some (OBindingCurve ?t) => set (b4 := t) in *
  end;
  lazymatch type of Ha with
  | axes ?b = Some ?a =>
      assert (Ha4 : axes b4 = Some a)
        by (subst b4; destruct min_x, max_x, min_y, max_y; exact Ha);
      assert (Hfacts : _last_known_readout b4 = _last_known_readout b
                       /\ _last_known_changing_parameter b4
                          = _last_known_changing_parameter b
                       /\ _min_x_axis b4 = default (_min_x_axis b) min_x
                       /\ _max_x_axis b4 = default (_max_x_axis b) max_x
                       /\ _min_y_axis b4 = default (_min_y_axis b) min_y
                       /\ match max_y with
                          | None => PrimFloat.mul (_max_y_axis b4) headroom
                          | Some _ => _max_y_axis b4
                          end
                          = match max_y with
                            | None => PrimFloat.mul (_max_y_axis b) headroom
                            | Some t => t
                            end)
        by (subst b4; destruct min_x, max_x, min_y, max_y;
            repeat split; reflexivity)
  end;
  assert (Hly4 : finite (_min_y_axis b4) = true)
    by (subst b4; destruct min_x, max_x, min_y, max_y; exact Hly);
  assert (Hhy4 : finite match max_y with
                        | None => PrimFloat.mul (_max_y_axis b4) headroom
                        | Some _ => _max_y_axis b4
                        end = true)
    by (subst b4; destruct min_x, max_x, min_y, max_y; exact Hhy);
  assert (Hlx4 : finite (_min_x_axis b4) = true)
    by (subst b4; destruct min_x, max_x, min_y, max_y; exact Hlx);
  assert (Hhx4 : finite (_max_x_axis b4) = true)
    by (subst b4; destruct min_x, max_x, min_y, max_y; exact Hhx);
  clearbody b4;
  let Hc1 := fresh "Hcur" in
  step_with (axes_set_ylim_step mpl self max_y _ _ _ _ _ _ H4 Ha4 Hly4 Hhy4)
    Hc1 Hp;
  clear H4;
  let Hc2 := fresh "Hcur" in
  step_with (axes_set_xlim_step mpl self _ _ _ _ _ Hc1 eq_refl Hlx4 Hhx4)
    Hc2 Hp;
  clear Hc1;
  step_with (log_x_step mpl self _ _ _ _ Hc2 eq_refl Hlogx) Hcur Hp;
  clear Hc2 Hly4 Hhy4 Hlx4 Hhx4.

(** X13: the default Y label needs a readout.  On an accumulator with
    axes whose last readout is [None], as [add_curve] leaves it when it
    is given no readout, [show_plot] without [ylabel] and without a
    logarithmic Y axis raises [AttributeError], provided matplotlib
    accepts what comes before: limits that are finite numbers and, for a
    logarithmic X axis, the keyword [nonposx].  By then the X axis has
    the limits matplotlib makes of the two X bounds and the X label is
    set, but not the Y label and not the title, and pyplot has neither
    saved nor shown anything. *)
Theorem show_plot_without_readout (mpl : Matplotlib) (self : loc)
  (title : string)
  (xlabel : option string) (min_x max_x min_y max_y : option float)
  (log_x_axis : bool) (png_filename svg_filename : option string)
  (show_legend : bool) (w : World) (b : BindingCurve) (a : Plt.Axes) :
  heap w !! self = Some (OBindingCurve b) ->
  axes b = Some a ->
  _last_known_readout b = None ->
  finite (default (_min_y_axis b) min_y) = true ->
  finite match max_y with
         | None => PrimFloat.mul (_max_y_axis b) headroom
         | Some t => t
         end = true ->
  finite (default (_min_x_axis b) min_x) = true ->
  finite (default (_max_x_axis b) max_x) = true ->
  (log_x_axis = true -> log_x_keyword mpl = None) ->
  (show_plot mpl self title xlabel None min_x max_x min_y max_y
     log_x_axis false png_filename svg_filename show_legend w).1
  = Raised AttributeError /\
  pyplot (show_plot mpl self title xlabel None min_x max_x min_y max_y
            log_x_axis false png_filename svg_filename show_legend w).2
  = pyplot w /\
  exists a',
    attribute axes self
      (show_plot mpl self title xlabel None min_x max_x min_y max_y
         log_x_axis false png_filename svg_filename show_legend w).2
    = Some (Some a') /\
    Plt.xlim a'
    = view_limits mpl (Plt.xscale a) (Plt.xlim a)
        (default (_min_x_axis b) min_x) (default (_max_x_axis b) max_x) /\
    Plt.xlabel a'
    = match xlabel with
      | Some l => l
      | None => "[" ++ Builtins.upper (_last_known_changing_parameter b) ++ "]"
      end /\
    Plt.ylabel a' = Plt.ylabel a /\
    Plt.title a' = Plt.title a.
Proof.
  intros Hb Ha Hr Hly Hhy Hlx Hhx Hlogx.
  show_plot_head mpl self Hb Ha Hly Hhy Hlx Hhx Hlogx
    min_x max_x min_y max_y b4 Hcur Hp Hfacts.
  destruct Hfacts as (Hlkr & Hlkp & Hnx & Hxx & Hny & Hxy).
  change (when false ?m) with (ret tt). rewrite bind_ret.
  step_with (on_axes_option_step self xlabel
               (Plt.set_xlabel
                  ("[" ++ Builtins.upper (_last_known_changing_parameter b4)
                   ++ "]"))
               (fun l => Plt.set_xlabel l)
               _ _ _ Hcur eq_refl) Hcur1 Hp.
  clear Hcur.
  rewrite Hlkr, Hr. cbn [from_option].
  erewrite bind_raised by apply bind_raise.
  split; [reflexivity |]. split; [exact Hp |].
  eexists. unfold attribute. cbn [snd]. rewrite Hcur1.
  split; [reflexivity |].
  rewrite Hnx, Hxx, Hlkp.
  destruct xlabel, log_x_axis; cbn;
    repeat split; try reflexivity; symmetry; apply surjective_pairing.
Qed.

Lemma show_plot_without_readout_witness :
  (show_plot Sample.as_asked 0 "t" None None None (Some 1%float) None None
     false false None None true Example.unread).1
  = Raised AttributeError /\
  pyplot (show_plot Sample.as_asked 0 "t" None None None (Some 1%float) None
            None false false None None true Example.unread).2
  = pyplot Example.unread /\
  exists a',
    attribute axes 0
      (show_plot Sample.as_asked 0 "t" None None None (Some 1%float) None
         None false false None None true Example.unread).2
    = Some (Some a') /\
    Plt.xlim a'
    = view_limits Sample.as_asked (Plt.xscale Plt.new_axes)
        (Plt.xlim Plt.new_axes)
        (default (_min_x_axis Example.unread_instance) None)
        (default (_max_x_axis Example.unread_instance) (Some 1%float)) /\
    Plt.xlabel a'
    = "[" ++ Builtins.upper
               (_last_known_changing_parameter Example.unread_instance) ++ "]" /\
    Plt.ylabel a' = Plt.ylabel Plt.new_axes /\
    Plt.title a' = Plt.title Plt.new_axes.
Proof.
  apply (show_plot_without_readout Sample.as_asked 0 "t" None None
           (Some 1%float) None None false None None true Example.unread
           Example.unread_instance Plt.new_axes); reflexivity.
Defined.

Lemma ylabel_step self (ylabel r : option string) (lab : string) b a w :
  heap w !! self = Some (OBindingCurve b) ->
  axes b = Some a ->
  match ylabel with
  | Some l => Some l
  | None => (fun r => "[" ++ Builtins.upper r ++ "]") <$> r
  end = Some lab ->
  exists w1,
    match ylabel with
    | None =>
        let* r := from_option AttributeError r in
        on_axes self (Plt.set_ylabel ("[" ++ Builtins.upper r ++ "]"))
    | Some l => on_axes self (Plt.set_ylabel l)
    end w = (Returned tt, w1) /\
    heap w1 !! self = Some (OBindingCurve (set_axes (Plt.set_ylabel lab a) b)) /\
    pyplot w1 = pyplot w.
Proof.
  intros Hb Ha Hlab. destruct ylabel as [l |].
  - injection Hlab as <-. apply on_axes_step; assumption.
  - destruct r as [r |]; [| discriminate]. injection Hlab as <-.
    cbn [from_option]. rewrite bind_ret. apply on_axes_step; assumption.
Qed.

(** X14: what [show_plot] draws.  On an accumulator with axes, with a Y
    label given or a last readout to make one from, and provided
    matplotlib accepts the limits (they are finite numbers) and, for a
    logarithmic X axis, the keyword [nonposx]: asked for a logarithmic Y
    axis, [show_plot] raises the exception with which matplotlib refuses
    the keyword [nonposx] on the Y axis, and pyplot has neither saved
    nor shown anything.  Otherwise the axes are set up: they have the
    limits matplotlib makes of the bounds as overridden, with headroom
    on the upper Y bound only when [max_y] is not given; the X axis is
    logarithmic when asked for and otherwise as it was, the Y axis as it
    was; a label not given is the last swept parameter, or the last
    readout, in upper case between square brackets; the lines are as
    they were.  When matplotlib cannot work out the ticks of these axes
    the call raises what matplotlib raises, with nothing saved or shown.
    When it can, and saving and showing do not fail, the call returns,
    and pyplot has saved the figure under each file name given, the PNG
    first, and shown it. *)
Theorem show_plot_drawn (mpl : Matplotlib) (self : loc) (title : string)
  (xlabel ylabel : option string) (min_x max_x min_y max_y : option float)
  (log_x_axis log_y_axis : bool) (png_filename svg_filename : option string)
  (show_legend : bool) (w : World) (b : BindingCurve) (a : Plt.Axes)
  (lab : string) :
  heap w !! self = Some (OBindingCurve b) ->
  axes b = Some a ->
  match ylabel with
  | Some l => Some l
  | None => (fun r => "[" ++ Builtins.upper r ++ "]") <$> _last_known_readout b
  end = Some lab ->
  finite (default (_min_y_axis b) min_y) = true ->
  finite match max_y with
         | None => PrimFloat.mul (_max_y_axis b) headroom
         | Some t => t
         end = true ->
  finite (default (_min_x_axis b) min_x) = true ->
  finite (default (_max_x_axis b) max_x) = true ->
  (log_x_axis = true -> log_x_keyword mpl = None) ->
  if log_y_axis
  then
    (show_plot mpl self title xlabel ylabel min_x max_x min_y max_y
       log_x_axis log_y_axis png_filename svg_filename show_legend w).1
    = Raised (log_y_keyword mpl) /\
    pyplot (show_plot mpl self title xlabel ylabel min_x max_x min_y max_y
              log_x_axis log_y_axis png_filename svg_filename show_legend
              w).2
    = pyplot w
  else
    exists a',
      attribute axes self
        (show_plot mpl self title xlabel ylabel min_x max_x min_y max_y
           log_x_axis log_y_axis png_filename svg_filename show_legend w).2
      = Some (Some a') /\
      Plt.xlim a'
      = view_limits mpl (Plt.xscale a) (Plt.xlim a)
          (default (_min_x_axis b) min_x) (default (_max_x_axis b) max_x) /\
      Plt.ylim a'
      = view_limits mpl (Plt.yscale a) (Plt.ylim a)
          (default (_min_y_axis b) min_y)
          match max_y with
          | None => PrimFloat.mul (_max_y_axis b) headroom
          | Some t => t
          end /\
      Plt.xscale a' = (if log_x_axis then Plt.Log else Plt.xscale a) /\
      Plt.yscale a' = Plt.yscale a /\
      Plt.xlabel a'
      = match xlabel with
        | Some l => l
        | None =>
            "[" ++ Builtins.upper (_last_known_changing_parameter b) ++ "]"
        end /\
      Plt.ylabel a' = lab /\
      Plt.title a' = title /\
      Plt.legend a' = show_legend || Plt.legend a /\
      Plt.lines a' = Plt.lines a /\
      Plt.grid a' = Plt.grid a /\
      match major_ticks mpl a' with
      | Some e =>
          (show_plot mpl self title xlabel ylabel min_x max_x min_y max_y
             log_x_axis log_y_axis png_filename svg_filename show_legend w).1
          = Raised e /\
          pyplot (show_plot mpl self title xlabel ylabel min_x max_x min_y
                    max_y log_x_axis log_y_axis png_filename svg_filename
                    show_legend w).2
          = pyplot w
      | None =>
          (forall w0 f, savefig mpl w0 f = None) ->
          (forall w0, show mpl w0 = None) ->
          (show_plot mpl self title xlabel ylabel min_x max_x min_y max_y
             log_x_axis log_y_axis png_filename svg_filename show_legend w).1
          = Returned tt /\
          pyplot (show_plot mpl self title xlabel ylabel min_x max_x min_y
                    max_y log_x_axis log_y_axis png_filename svg_filename
                    show_legend w).2
          = (pyplot w ++ (Plt.Savefig <$> option_list png_filename) ++
             (Plt.Savefig <$> option_list svg_filename) ++
             [Plt.ShowFigure])%list
      end.
Proof.
  intros Hb Ha Hlab Hly Hhy Hlx Hhx Hlogx.
  destruct log_y_axis.
  - show_plot_head mpl self Hb Ha Hly Hhy Hlx Hhx Hlogx
      min_x max_x min_y max_y b4 Hcur Hp Hfacts.
    change (when true ?m) with m.
    rewrite (bind_raised _ _ _ _ _
               (refuse_run self (log_y_keyword mpl) _ _ _ Hcur eq_refl)).
    split; [reflexivity | exact Hp].
  - show_plot_head mpl self Hb Ha Hly Hhy Hlx Hhx Hlogx
      min_x max_x min_y max_y b4 Hcur Hp Hfacts.
    destruct Hfacts as (Hlkr & Hlkp & Hnx & Hxx & Hny & Hxy).
    change (when false ?m) with (ret tt). rewrite bind_ret.
    step_with (on_axes_option_step self xlabel
               (Plt.set_xlabel
                  ("[" ++ Builtins.upper (_last_known_changing_parameter b4)
                   ++ "]"))
               (fun l => Plt.set_xlabel l)
                 _ _ _ Hcur eq_refl) Hcur0 Hp.
    clear Hcur.
    rewrite <- Hlkr in Hlab.
    step_with (ylabel_step self ylabel _ lab _ _ _ Hcur0 eq_refl Hlab)
      Hcur1 Hp.
    clear Hcur0.
    step_with (on_axes_step self (Plt.set_title title) _ _ _ Hcur1 eq_refl)
      Hcur2 Hp.
    clear Hcur1.
    step_with (when_on_axes_step self show_legend Plt.set_legend _ _ _
                 Hcur2 eq_refl) Hcur3 Hp.
    clear Hcur2.
    lazymatch type of Hcur3 with
    | _ = Some (OBindingCurve (set_axes ?X _)) => set (afin := X) in *
    end.
    assert (Hfin : Plt.xlim afin
                   = view_limits mpl (Plt.xscale a) (Plt.xlim a)
                       (_min_x_axis b4) (_max_x_axis b4) /\
                   Plt.ylim afin
                   = view_limits mpl (Plt.yscale a) (Plt.ylim a)
                       (_min_y_axis b4)
                       match max_y with
                       | None => PrimFloat.mul (_max_y_axis b4) headroom
                       | Some _ => _max_y_axis b4
                       end /\
                   Plt.xscale afin
                   = (if log_x_axis then Plt.Log else Plt.xscale a) /\
                   Plt.yscale afin = Plt.yscale a /\
                   Plt.xlabel afin
                   = match xlabel with
                     | Some l => l
                     | None =>
                         "[" ++ Builtins.upper
                                  (_last_known_changing_parameter b4) ++ "]"
                     end /\
                   Plt.ylabel afin = lab /\
                   Plt.title afin = title /\
                   Plt.legend afin = show_legend || Plt.legend a /\
                   Plt.lines afin = Plt.lines a /\
                   Plt.grid afin = Plt.grid a).
    { subst afin. destruct xlabel, log_x_axis, show_legend; cbn;
        repeat split; try reflexivity; symmetry; apply surjective_pairing. }
    rewrite Hnx, Hxx, Hny, Hxy, Hlkp in Hfin.
    clearbody afin.
    lazymatch goal with
    | |- context [(bind _ ?k ?w0)] =>
        assert (Hkeep : forall x o, heap w0 !! self = o ->
                                    heap (k x w0).2 !! self = o)
    end.
    { intros [] o.
      lazymatch goal with
      | |- heap ?w0 !! _ = _ -> heap (?m ?w0).2 !! _ = _ =>
          generalize w0;
          refine (_ : keeps (fun w1 => heap w1 !! self = o) m)
      end.
      repeat first
        [ apply keeps_pyplot_savefig; intros ? ? H; exact H
        | apply keeps_pyplot_show; intros ? ? H; exact H
        | apply keeps_for_some; intros ?
        | apply keeps_bind; [| intros ?] ]. }
    exists afin.
    pose proof (major_ticks_run mpl self _ _ _ Hcur3 eq_refl) as Ht.
    cbn [axes set_axes] in Ht.
    destruct (major_ticks mpl afin) as [e |].
    + rewrite (bind_raised _ _ _ _ _ Ht). cbn [fst snd].
      split; [unfold attribute; rewrite Hcur3; reflexivity |].
      do 10 (split; [tauto |]).
      split; [reflexivity | exact Hp].
    + rewrite (bind_returned _ _ _ _ _ Ht).
      split; [unfold attribute; rewrite (Hkeep tt _ Hcur3); reflexivity |].
      do 10 (split; [tauto |]).
      intros Hsave Hshow.
      lazymatch goal with
      | |- context [bind (for_some png_filename _) _ ?w0] =>
          destruct (for_some_savefig_step mpl png_filename w0 Hsave)
            as (wp & E & _ & P)
      end.
      rewrite (bind_returned _ _ _ _ _ E); clear E.
      rewrite Hp in P. clear Hp.
      destruct (for_some_savefig_step mpl svg_filename wp Hsave)
        as (ws & E & _ & P').
      rewrite (bind_returned _ _ _ _ _ E); clear E.
      rewrite P in P'. clear P.
      rewrite (pyplot_show_run mpl ws (Hshow ws)).
      split; [reflexivity |].
      cbn [snd pyplot with_pyplot]. rewrite P', <- !app_assoc. reflexivity.
Qed.

Lemma show_plot_drawn_witness :
  (show_plot Sample.as_asked 0 "t" None None None (Some 1%float) None None
     false false (Some "a.png") None true Sample.drawn).1
  = Returned tt /\
  pyplot (show_plot Sample.as_asked 0 "t" None None None (Some 1%float) None
            None false false (Some "a.png") None true Sample.drawn).2
  = (pyplot Sample.drawn ++ (Plt.Savefig <$> option_list (Some "a.png")) ++
     (Plt.Savefig <$> option_list None) ++ [Plt.ShowFigure])%list /\
  exists a',
    attribute axes 0
      (show_plot Sample.as_asked 0 "t" None None None (Some 1%float) None
         None false false (Some "a.png") None true Sample.drawn).2
    = Some (Some a') /\
    Plt.xlim a' = (0%float, 1%float) /\
    Plt.ylim a' = (0%float, 0x1.199999999999ap+1%float) /\
    Plt.xscale a' = Plt.Linear /\
    Plt.yscale a' = Plt.Linear /\
    Plt.xlabel a' = "[X]" /\
    Plt.ylabel a' = "[Y]" /\
    Plt.title a' = "t" /\
    Plt.legend a' = true /\
    Plt.lines a' = [] /\
    Plt.grid a' = false.
Proof.
  destruct (show_plot_drawn Sample.as_asked 0 "t" None None None
              (Some 1%float) None None false false (Some "a.png") None true
              Sample.drawn Sample.drawn_instance Plt.new_axes "[Y]" eq_refl
              eq_refl eq_refl eq_refl eq_refl eq_refl eq_refl
              (fun _ => eq_refl))
    as (a' & Haxes & Hfacts).
  assert (Hrun := proj2 (proj2 (proj2 (proj2 (proj2 (proj2 (proj2 (proj2
                    (proj2 (proj2 Hfacts)))))))))
                    (fun _ _ => eq_refl) (fun _ => eq_refl)).
  split; [exact (proj1 Hrun) |]. split; [exact (proj2 Hrun) |].
  exists a'. split; [exact Haxes |].
  repeat (split; [tauto |]). tauto.
Defined.

(** ** [fit]: what it leaves alone, on every outcome *)

Lemma leads_bind {A B : Type} (P Q R : World -> Prop) (m : M A)
  (k : A -> M B) :
  leads P Q m -> (forall w, Q w -> R w) -> (forall x, leads Q R (k x)) ->
  leads P R (bind m k).
Proof.
  intros Hm HQR Hk w Hw. unfold bind. specialize (Hm w Hw).
  destruct (m w) as [[x | dg | e |] w1]; simpl in *; try (apply HQR, Hm).
  apply Hk, Hm.
Qed.

Lemma keeps_from_sum (P : World -> Prop) {A : Type} (r : Exception + A) :
  keeps P (from_sum r).
Proof. destruct r; [apply keeps_raise | apply keeps_ret]. Qed.

Lemma keeps_report (P : World -> Prop) {A : Type} (d : Diagnostic) :
  (forall w s, P w -> P (with_stdout s w)) -> keeps P (@report A d).
Proof. intros HP w Hw. apply HP, Hw. Qed.

Section Extends.

Variable H0 : list object.
Variable c : list _Curve.
Variable p : list Plt.Event.

Lemma extends_insert n w l o :
  extends H0 c p n w -> length H0 <= l ->
  extends H0 c p n (with_heap (<[l := o]> (heap w)) w).
Proof.
  intros ([k Hk] & Hrest) Hl. split; [| exact Hrest].
  cbn [heap with_heap]. rewrite Hk, insert_app_r_alt by exact Hl.
  eexists. reflexivity.
Qed.

Lemma extends_app n w k :
  extends H0 c p n w -> extends H0 c p n (with_heap (heap w ++ k) w).
Proof.
  intros (Hpre & Hrest). split; [| exact Hrest].
  cbn [heap with_heap]. apply prefix_app_r, Hpre.
Qed.

Lemma extends_length n w : extends H0 c p n w -> length H0 <= length (heap w).
Proof. intros (Hpre & _). apply prefix_length, Hpre. Qed.

Lemma keeps_extends_alloc n o : keeps (extends H0 c p n) (alloc o).
Proof. intros w Hw. apply extends_app, Hw. Qed.

Lemma keeps_extends_write_dict n l d :
  length H0 <= l -> keeps (extends H0 c p n) (write_dict l d).
Proof. intros Hl w Hw. apply extends_insert; assumption. Qed.

Lemma keeps_extends_update_param n r f :
  length H0 <= r -> keeps (extends H0 c p n) (update_param r f).
Proof.
  intros Hr w Hw. unfold update_param.
  destruct (heap w !! r) as [[| q |] |]; try exact Hw.
  apply extends_insert; assumption.
Qed.

Lemma keeps_extends_report n {A : Type} (d : Diagnostic) :
  keeps (extends H0 c p n) (@report A d).
Proof. apply keeps_report. intros w s Hw. exact Hw. Qed.

Lemma keeps_extends__residual n self params copy to_fit y readout :
  length H0 <= copy ->
  keeps (extends H0 c p n) (_residual self params copy to_fit y readout).
Proof.
  intros Hl. unfold _residual.
  repeat first
    [ apply keeps_read_dict | apply keeps_read_self | apply keeps_get_world
    | apply keeps_from_option | apply keeps_from_query
    | apply keeps_extends_write_dict; exact Hl
    | match goal with
      | |- keeps _ (if ?b then _ else _) => destruct b
      end
    | apply keeps_bind; [| intros ?] ].
Qed.

Lemma keeps_extends_set_trial n working trial :
  Forall (fun nr => length H0 <= nr.2) working ->
  keeps (extends H0 c p n) (set_trial working trial).
Proof.
  intros Hw. unfold set_trial. apply keeps_for_each_Forall.
  eapply Forall_impl; [exact Hw |]. intros [k r] Hr.
  apply keeps_for_some. intros v. apply keeps_extends_update_param, Hr.
Qed.

Lemma keeps_extends_set_final n working final :
  Forall (fun nr => length H0 <= nr.2) working ->
  keeps (extends H0 c p n) (set_final working final).
Proof.
  intros Hw. unfold set_final. apply keeps_for_each_Forall.
  eapply Forall_impl; [exact Hw |]. intros [k r] Hr.
  apply keeps_for_some. intros v. apply keeps_extends_update_param, Hr.
Qed.

Lemma keeps_extends_iterate n mz userfcn start working :
  Forall (fun nr => length H0 <= nr.2) working ->
  keeps (extends H0 c p n) (userfcn working) ->
  forall fuel seen,
    keeps (extends H0 c p n) (iterate mz userfcn start working seen fuel).
Proof.
  intros Hw Hf. induction fuel as [| fuel IH]; intros seen; simpl.
  - intros w H. exact H.
  - destruct (next_step mz start seen) as [trial | final | e].
    + apply keeps_bind; [apply keeps_extends_set_trial, Hw | intros _].
      apply keeps_bind; [exact Hf | intros r]. apply IH.
    + apply keeps_extends_set_final, Hw.
    + apply keeps_raise.
Qed.

Lemma zip_seq_addresses (names : list string) (a m : nat) :
  length H0 <= a ->
  Forall (fun nr : string * loc => length H0 <= nr.2) (zip names (seq a m)).
Proof.
  intros Ha. apply Forall_forall. intros [k r] Hin.
  apply elem_of_zip_r, elem_of_seq in Hin. simpl. lia.
Qed.

Lemma leads_extends_minimize n mz fuel userfcn params :
  (forall working, keeps (extends H0 c p (n + 1)) (userfcn working)) ->
  leads (extends H0 c p n) (extends H0 c p (n + 1))
    (minimize mz fuel userfcn params).
Proof.
  intros Hf w Hw. unfold minimize. unfold modify at 1. unfold bind at 1.
  set (w1 := with_minimize_calls _ w).
  assert (H1 : extends H0 c p (n + 1) w1).
  { destruct Hw as (Hpre & Hc & Hp & Hn). repeat split; try assumption.
    simpl. rewrite Hn. reflexivity. }
  rewrite (bind_returned _ _ _ _ _ (deepcopy_run _ _)).
  apply holds_after_bind; [| intros ?; apply keeps_ret].
  apply keeps_extends_iterate.
  - apply zip_seq_addresses, (extends_length _ _ H1).
  - apply Hf.
  - apply extends_app, H1.
Qed.

End Extends.

(** X15: whatever its arguments and whatever its outcome (a result, a
    diagnostic, an exception, or a minimizer that does not stop), [fit]
    leaves every object that was in the store as it was, the caller's
    dictionary and the accumulator included; it leaves the curve list
    and the figure alone; and it makes the minimizer at most once. *)
Theorem fit_frame (mz : Minimizer) (fuel : nat)
  (self system_parameters : loc) (to_fit : list (string * float))
  (ycoords : list float) (x_parameter y_parameter : string)
  (bounds : option (list (string * (float * float)))) (w : World) :
  let w' := (fit mz fuel self system_parameters to_fit ycoords x_parameter
               y_parameter bounds w).2 in
  (forall l o, heap w !! l = Some o -> heap w' !! l = Some o) /\
  curves w' = curves w /\ pyplot w' = pyplot w /\
  minimize_calls w <= minimize_calls w' <= minimize_calls w + 1.
Proof.
  intros w'.
  set (Q := fun n => extends (heap w) (curves w) (pyplot w) n).
  assert (HR : Q (minimize_calls w) w' \/ Q (minimize_calls w + 1) w').
  { subst w'. unfold fit.
    destruct (heap w !! system_parameters) as [[d | |] |] eqn:Hd;
      try (left; unfold bind, read_dict; rewrite Hd; simpl;
           repeat split; reflexivity).
    rewrite (bind_returned _ _ _ _ _ (read_dict_run _ _ _ Hd)).
    rewrite (bind_returned _ _ _ _ _ (alloc_run _ _)).
    assert (H1 : Q (minimize_calls w) (with_heap (heap w ++ [ODict d]) w)).
    { apply extends_app. repeat split; reflexivity. }
    revert H1. generalize (with_heap (heap w ++ [ODict d]) w).
    refine (_ : leads (Q (minimize_calls w))
                  (fun w' => Q (minimize_calls w) w' \/
                             Q (minimize_calls w + 1) w') _).
    assert (Hleft : forall {A : Type} (m : M A),
               keeps (Q (minimize_calls w)) m ->
               leads (Q (minimize_calls w))
                 (fun w' => Q (minimize_calls w) w' \/
                            Q (minimize_calls w + 1) w') m)
      by (intros A m Hm w0 H0; left; apply Hm, H0).
    assert (Hright : forall {A : Type} (m : M A),
               keeps (Q (minimize_calls w + 1)) m ->
               leads (Q (minimize_calls w + 1))
                 (fun w' => Q (minimize_calls w) w' \/
                            Q (minimize_calls w + 1) w') m)
      by (intros A m Hm w0 H0; right; apply Hm, H0).
    destruct (length (Dict.keys to_fit) =? 0)%nat;
      [apply Hleft, keeps_extends_report |].
    apply (leads_bind _ (Q (minimize_calls w)));
      [apply keeps_read_self | intros; left; assumption | intros b].
    apply (leads_bind _ (Q (minimize_calls w)));
      [apply keeps_from_option | intros; left; assumption | intros sys].
    apply (leads_bind _ (Q (minimize_calls w)));
      [apply keeps_read_dict | intros; left; assumption | intros copy].
    destruct (0 <? length _)%nat; [apply Hleft, keeps_extends_report |].
    apply (leads_bind _ (Q (minimize_calls w)));
      [apply keeps_from_sum | intros; left; assumption | intros params].
    apply (leads_bind _ (Q (minimize_calls w + 1)));
      [| intros; right; assumption | intros result].
    - apply leads_extends_minimize. intros working.
      apply keeps_extends__residual. reflexivity.
    - apply Hright.
      repeat first
        [ apply keeps_read_dict | apply keeps_get_world | apply keeps_ret
        | apply keeps_extends_write_dict; reflexivity
        | apply keeps_bind; [| intros ?] ]. }
  assert (Hall : forall n, Q n w' ->
            (forall l o, heap w !! l = Some o -> heap w' !! l = Some o) /\
            curves w' = curves w /\ pyplot w' = pyplot w /\
            minimize_calls w' = n).
  { intros n ([k Hk] & Hc & Hp & Hn). repeat split; try assumption.
    intros l o Hl. rewrite Hk. apply lookup_app_l_Some, Hl. }
  destruct HR as [H | H]; apply Hall in H as (Hh & Hc & Hp & Hn);
    repeat split; try assumption; lia.
Qed.

(** X16: when [to_fit] is not empty and the two dictionaries name every
    argument of the configured system, [fit] makes the parameters with
    [params.add], one for each entry of [to_fit].  When one of these
    calls raises, so does [fit], and no minimizer is made.  Otherwise
    [fit] makes the minimizer exactly once, whatever comes of it: a
    result, an exception of the system or of the minimizer, or a
    minimizer that does not stop. *)
Theorem fit_minimizes_once (mz : Minimizer) (fuel : nat)
  (self system_parameters : loc) (to_fit : list (string * float))
  (ycoords : list float) (x_parameter y_parameter : string)
  (bounds : option (list (string * (float * float)))) (w : World)
  (d : dict loc) (b : BindingCurve) (sys : BindingSystem) :
  heap w !! system_parameters = Some (ODict d) ->
  to_fit <> [] ->
  heap w !! self = Some (OBindingCurve b) ->
  system b = Some sys ->
  (forall a, a ∈ arguments sys ->
             a ∈ (Dict.keys d ++ Dict.keys to_fit)%list) ->
  match initial_params mz (default [] bounds) to_fit with
  | inl e =>
      fit mz fuel self system_parameters to_fit ycoords x_parameter
        y_parameter bounds w
      = (Raised e, with_heap (heap w ++ [ODict d]) w)
  | inr _ =>
      minimize_calls
        (fit mz fuel self system_parameters to_fit ycoords x_parameter
           y_parameter bounds w).2
      = minimize_calls w + 1
  end.
Proof.
  intros Hd Hne Hb Hsys Hcover.
  assert (Hrun : fit mz fuel self system_parameters to_fit ycoords
                   x_parameter y_parameter bounds w
                 = (let* params :=
                      from_sum (initial_params mz (default [] bounds) to_fit) in
                    let* result :=
                      minimize mz fuel
                        (fun p => _residual self p (length (heap w)) to_fit
                                    ycoords
                                    (Some (Builtins.lower y_parameter)))
                        params in
                    let* copy := read_dict (length (heap w)) in
                    let* w0 := get_world in
                    write_dict (length (heap w))
                      (prod_map id (value_of (heap w0)) <$> copy);;
                    let* w0 := get_world in
                    ret (length (heap w),
                         (fun '(p, r) =>
                            (p, match heap w0 !! r with
                                | Some (OParam q) => Lmfit.stderr q
                                | _ => None
                                end)) <$> result))
                     (with_heap (heap w ++ [ODict d]) w)).
  { unfold fit.
    rewrite (bind_returned _ _ _ _ _ (read_dict_run _ _ _ Hd)).
    rewrite (bind_returned _ _ _ _ _ (alloc_run _ _)).
    destruct to_fit as [| kv to_fit']; [congruence |].
    change (length (Dict.keys (kv :: to_fit')) =? 0)%nat with false.
    cbv iota.
    rewrite (bind_returned _ _ _ _ _
               (read_self_run _ _ _ (lookup_alloc_old _ _ _ _ Hb))).
    rewrite Hsys. cbn [from_option]. rewrite bind_ret.
    rewrite (bind_returned _ _ _ _ _
               (read_dict_run _ _ _ (lookup_alloc_new _ _))).
    assert (Hmissing : missing_arguments (arguments sys)
                         (Dict.keys d ++ Dict.keys (kv :: to_fit')) = []).
    { destruct (missing_arguments _ _) as [| a l] eqn:E; [reflexivity |].
      assert (Ha : a ∈ missing_arguments (arguments sys)
                     (Dict.keys d ++ Dict.keys (kv :: to_fit')))
        by (rewrite E; left).
      apply missing_arguments_spec in Ha as [Ha Hn].
      destruct (Hn (Hcover a Ha)). }
    rewrite Hmissing. reflexivity. }
  rewrite Hrun. clear Hrun.
  destruct (initial_params mz (default [] bounds) to_fit) as [e | params];
    cbn [from_sum]; [reflexivity |].
  rewrite bind_ret.
  set (w1 := with_heap (heap w ++ [ODict d]) w).
  assert (H1 : extends (heap w) (curves w) (pyplot w) (minimize_calls w) w1)
    by (apply extends_app; repeat split; reflexivity).
  revert H1. generalize w1. clear w1.
  refine (_ : leads _ (fun w' => minimize_calls w' = minimize_calls w + 1) _).
  apply (leads_bind _ (extends (heap w) (curves w) (pyplot w)
                         (minimize_calls w + 1))).
  - apply leads_extends_minimize. intros working.
    apply keeps_extends__residual. reflexivity.
  - intros w' (_ & _ & _ & Hn). exact Hn.
  - intros result w' Hw'.
    assert (H : extends (heap w) (curves w) (pyplot w) (minimize_calls w + 1)
                  ((let* copy := read_dict (length (heap w)) in
                    let* w0 := get_world in
                    write_dict (length (heap w))
                      (prod_map id (value_of (heap w0)) <$> copy);;
                    let* w0 := get_world in
                    ret (length (heap w),
                         (fun '(p, r) =>
                            (p, match heap w0 !! r with
                                | Some (OParam q) => Lmfit.stderr q
                                | _ => None
                                end)) <$> result)) w').2).
    { revert Hw'. generalize w'.
      refine (_ : keeps (extends (heap w) (curves w) (pyplot w)
                           (minimize_calls w + 1)) _).
      repeat first
        [ apply keeps_read_dict | apply keeps_get_world | apply keeps_ret
        | apply keeps_extends_write_dict; reflexivity
        | apply keeps_bind; [| intros ?] ]. }
    destruct H as (_ & _ & _ & Hn). exact Hn.
Qed.

Lemma fit_minimizes_once_witness :
  match initial_params Sample.two_steps (default [] None) [("kd", 7%float)]
  with
  | inl e =>
      fit Sample.two_steps 10 1 0 [("kd", 7%float)] [1; 2]%float "P" "PL"
        None (Sample.fitting [("p", VFloat 1%float)] Sample.sum_system)
      = (Raised e,
         with_heap
           (heap (Sample.fitting [("p", VFloat 1%float)] Sample.sum_system)
              ++ [ODict [("p", VFloat 1%float)]])
           (Sample.fitting [("p", VFloat 1%float)] Sample.sum_system))
  | inr _ =>
      minimize_calls
        (fit Sample.two_steps 10 1 0 [("kd", 7%float)] [1; 2]%float "P" "PL"
           None (Sample.fitting [("p", VFloat 1%float)] Sample.sum_system)).2
      = minimize_calls
          (Sample.fitting [("p", VFloat 1%float)] Sample.sum_system) + 1
  end.
Proof.
  apply (fit_minimizes_once Sample.two_steps 10 1 0 [("kd", 7%float)]
           [1; 2]%float "P" "PL" None
           (Sample.fitting [("p", VFloat 1%float)] Sample.sum_system)
           [("p", VFloat 1%float)]
           (set_system (Some Sample.sum_system) class_defaults)
           Sample.sum_system eq_refl).
  - discriminate.
  - reflexivity.
  - reflexivity.
  - intros a Ha. vm_compute in Ha. vm_compute.
    apply elem_of_cons in Ha as [-> | Ha]; [left |].
    apply elem_of_cons in Ha as [-> | Ha]; [right; left |].
    apply elem_of_nil in Ha. destruct Ha.
Defined.

(** X17: [fit] on an accumulator without a system, with something to
    fit, raises [AttributeError] where [add_curve] prints a diagnostic:
    it reads the arguments of the system without looking whether there is
    one.  Nothing is printed and the minimizer is not made. *)
Theorem fit_without_system (mz : Minimizer) (fuel : nat)
  (self system_parameters : loc) (to_fit : list (string * float))
  (ycoords : list float) (x_parameter y_parameter : string)
  (bounds : option (list (string * (float * float)))) (w : World)
  (d : dict loc) (b : BindingCurve) :
  heap w !! system_parameters = Some (ODict d) ->
  to_fit <> [] ->
  heap w !! self = Some (OBindingCurve b) ->
  system b = None ->
  fit mz fuel self system_parameters to_fit ycoords x_parameter y_parameter
    bounds w
  = (Raised AttributeError, with_heap (heap w ++ [ODict d]) w).
Proof.
  intros Hd Hne Hb Hsys. unfold fit.
  rewrite (bind_returned _ _ _ _ _ (read_dict_run _ _ _ Hd)).
  rewrite (bind_returned _ _ _ _ _ (alloc_run _ _)).
  destruct to_fit as [| kv to_fit']; [congruence |].
  change (length (Dict.keys (kv :: to_fit')) =? 0)%nat with false.
  cbv iota.
  rewrite (bind_returned _ _ _ _ _
             (read_self_run _ _ _ (lookup_alloc_old _ _ _ _ Hb))).
  rewrite Hsys. reflexivity.
Qed.

Lemma fit_without_system_witness :
  fit Sample.two_steps 10 1 0 [("kd", 7%float)] [1; 2]%float "P" "PL" None
    Example.fitting_without_system
  = (Raised AttributeError,
     with_heap (heap Example.fitting_without_system ++
                [ODict [("p", VFloat 1%float)]])
       Example.fitting_without_system).
Proof.
  apply (fit_without_system Sample.two_steps 10 1 0 [("kd", 7%float)]
           [1; 2]%float "P" "PL" None Example.fitting_without_system
           [("p", VFloat 1%float)] class_defaults eq_refl).
  - discriminate.
  - reflexivity.
  - reflexivity.
Defined.

(** ** [fit]: arguments that make no difference *)

Lemma _residual_analytical (self : loc) (params : Parameters) (copy : loc)
  (to_fit : list (string * float)) (y : list float)
  (r1 r2 : option string) (w : World) (b : BindingCurve)
  (sys : BindingSystem) :
  heap w !! self = Some (OBindingCurve b) ->
  system b = Some sys ->
  analytical sys = true ->
  _residual self params copy to_fit y r1 w
  = _residual self params copy to_fit y r2 w.
Proof.
  intros Hb Hsys Han.
  destruct (heap w !! copy) as [[d | q | b'] |] eqn:Hd.
  - rewrite !(_residual_run _ _ _ _ _ _ _ _ _ _ Hd Hb Hsys), Han.
    reflexivity.
  - unfold _residual, bind, read_dict. rewrite Hd. reflexivity.
  - unfold _residual, bind, read_dict. rewrite Hd. reflexivity.
  - unfold _residual, bind, read_dict. rewrite Hd. reflexivity.
Qed.

Lemma iterate_ext (Q : World -> Prop) (mz : Minimizer)
  (f g : Parameters -> M ndvalue) (start : list (string * Lmfit.Param))
  (working : Parameters) :
  (forall w, Q w -> f working w = g working w) ->
  (forall trial, keeps Q (set_trial working trial)) ->
  keeps Q (f working) ->
  forall fuel seen w,
    Q w ->
    iterate mz f start working seen fuel w
    = iterate mz g start working seen fuel w.
Proof.
  intros Hfg Htrial Hf. induction fuel as [| fuel IH]; intros seen w Hw;
    simpl; [reflexivity |].
  destruct (next_step mz start seen) as [trial | final | e];
    [| reflexivity | reflexivity].
  unfold bind at 1 3. pose proof (Htrial trial w Hw) as H1.
  destruct (set_trial working trial w) as [[[] | dg | e |] w1];
    try reflexivity.
  simpl in H1. unfold bind. rewrite <- (Hfg w1 H1).
  pose proof (Hf w1 H1) as H2.
  destruct (f working w1) as [[r | dg | e |] w2]; try reflexivity.
  apply IH, H2.
Qed.

(** X18: with an analytical system, [y_parameter] makes no difference to
    [fit]: two calls that differ in nothing else have the same outcome
    and leave the same world.  The residual passes the readout on to the
    system only when the system is not analytical. *)
Theorem fit_ignores_y_parameter_when_analytical (mz : Minimizer)
  (fuel : nat) (self system_parameters : loc)
  (to_fit : list (string * float)) (ycoords : list float)
  (x_parameter y1 y2 : string)
  (bounds : option (list (string * (float * float)))) (w : World)
  (b : BindingCurve) (sys : BindingSystem) :
  heap w !! self = Some (OBindingCurve b) ->
  system b = Some sys ->
  analytical sys = true ->
  fit mz fuel self system_parameters to_fit ycoords x_parameter y1 bounds w
  = fit mz fuel self system_parameters to_fit ycoords x_parameter y2 bounds w.
Proof.
  intros Hb Hsys Han. unfold fit.
  destruct (heap w !! system_parameters) as [[d | q | b'] |] eqn:Hd;
    try (unfold bind, read_dict; rewrite Hd; reflexivity).
  rewrite !(bind_returned _ _ _ _ _ (read_dict_run _ _ _ Hd)).
  rewrite !(bind_returned _ _ _ _ _ (alloc_run _ _)).
  destruct (length (Dict.keys to_fit) =? 0)%nat; [reflexivity |].
  rewrite !(bind_returned _ _ _ _ _
              (read_self_run _ _ _ (lookup_alloc_old _ _ _ _ Hb))).
  rewrite Hsys. cbn [from_option]. rewrite !bind_ret.
  rewrite !(bind_returned _ _ _ _ _
              (read_dict_run _ _ _ (lookup_alloc_new _ _))).
  destruct (0 <? length _)%nat; [reflexivity |].
  set (w1 := with_heap (heap w ++ [ODict d]) w).
  destruct (initial_params mz (default [] bounds) to_fit) as [e | params];
    cbn [from_sum]; [reflexivity |].
  rewrite !bind_ret.
  assert (Hmin : forall r1 r2,
            minimize mz fuel
              (fun p => _residual self p (length (heap w)) to_fit ycoords r1)
              params w1
            = minimize mz fuel
                (fun p => _residual self p (length (heap w)) to_fit ycoords r2)
                params w1).
  { intros r1 r2. unfold minimize. unfold modify at 1 2.
    unfold bind at 1 4.
    rewrite !(bind_returned _ _ _ _ _ (deepcopy_run _ _)).
    set (w2 := with_minimize_calls _ w1).
    set (working := zip _ _).
    set (Q := extends (heap w) (curves w) (pyplot w) (minimize_calls w + 1)).
    assert (H2 : Q w2) by (repeat split; apply prefix_app_r; reflexivity).
    assert (Hworking : Forall (fun nr : string * loc => length (heap w) <= nr.2)
                         working)
      by (apply zip_seq_addresses, (extends_length _ _ _ _ _ H2)).
    unfold bind.
    rewrite (iterate_ext Q mz _
               (fun p => _residual self p (length (heap w)) to_fit ycoords r2)).
    - reflexivity.
    - intros w' ([k Hk] & _).
      apply _residual_analytical with (b := b) (sys := sys);
        [| assumption | assumption].
      rewrite Hk. apply lookup_app_l_Some, Hb.
    - intros trial. apply keeps_extends_set_trial, Hworking.
    - apply keeps_extends__residual. reflexivity.
    - apply extends_app, H2. }
  unfold bind at 1 5. rewrite (Hmin _ (Some (Builtins.lower y2))).
  reflexivity.
Qed.

Lemma fit_ignores_y_parameter_when_analytical_witness :
  fit Sample.two_steps 10 1 0 [("kd", 7%float)] [1; 2]%float "P" "PL" None
    (Sample.fitting [("p", VFloat 1%float)] Sample.sum_system)
  = fit Sample.two_steps 10 1 0 [("kd", 7%float)] [1; 2]%float "P" "L" None
      (Sample.fitting [("p", VFloat 1%float)] Sample.sum_system).
Proof.
  apply (fit_ignores_y_parameter_when_analytical Sample.two_steps 10 1 0
           [("kd", 7%float)] [1; 2]%float "P" "PL" "L" None
           (Sample.fitting [("p", VFloat 1%float)] Sample.sum_system)
           (set_system (Some Sample.sum_system) class_defaults)
           Sample.sum_system); reflexivity.
Defined.

(** X19: [fit] looks up [bounds] only under the names being fitted.  Two
    [bounds] arguments that give the same pair, or none, for every key
    of [to_fit] lead to the same outcome and the same world; [None]
    stands for the empty dictionary. *)
Theorem fit_bounds_of_fitted_names (mz : Minimizer) (fuel : nat)
  (self system_parameters : loc) (to_fit : list (string * float))
  (ycoords : list float) (x_parameter y_parameter : string)
  (bounds1 bounds2 : option (list (string * (float * float)))) (w : World) :
  (forall k, k ∈ Dict.keys to_fit ->
             Dict.get k (default [] bounds1) = Dict.get k (default [] bounds2))
  ->
  fit mz fuel self system_parameters to_fit ycoords x_parameter y_parameter
    bounds1 w
  = fit mz fuel self system_parameters to_fit ycoords x_parameter y_parameter
      bounds2 w.
Proof.
  intros Hsame.
  assert (Hparams : initial_params mz (default [] bounds1) to_fit
                    = initial_params mz (default [] bounds2) to_fit).
  { induction to_fit as [| [k g] to_fit IH]; [reflexivity |].
    cbn [initial_params]. unfold new_param.
    rewrite Hsame by left.
    rewrite IH; [reflexivity |].
    intros k' Hk'. apply Hsame. right. exact Hk'. }
  unfold fit. cbv zeta. rewrite Hparams. reflexivity.
Qed.

Lemma fit_bounds_of_fitted_names_witness :
  fit Sample.two_steps 10 1 0 [("kd", 7%float)] [1; 2]%float "P" "PL"
    (Some [("kd", (0, 10)%float); ("p", (1, 2)%float)])
    (Sample.fitting [("p", VFloat 1%float)] Sample.sum_system)
  = fit Sample.two_steps 10 1 0 [("kd", 7%float)] [1; 2]%float "P" "PL"
      (Some [("kd", (0, 10)%float)])
      (Sample.fitting [("p", VFloat 1%float)] Sample.sum_system).
Proof.
  apply (fit_bounds_of_fitted_names Sample.two_steps 10 1 0
           [("kd", 7%float)] [1; 2]%float "P" "PL"
           (Some [("kd", (0, 10)%float); ("p", (1, 2)%float)])
           (Some [("kd", (0, 10)%float)])
           (Sample.fitting [("p", VFloat 1%float)] Sample.sum_system)).
  intros k Hk. vm_compute in Hk.
  apply elem_of_cons in Hk as [-> | Hk]; [reflexivity |].
  apply elem_of_nil in Hk. destruct Hk.
Defined.

(** ** [add_curve]: the counter, the lines and the curve list *)

Lemma leads_weaken {A : Type} (P Q R : World -> Prop) (m : M A) :
  leads P Q m -> (forall w, Q w -> R w) -> leads P R m.
Proof. intros Hm HQR w Hw. apply HQR, Hm, Hw. Qed.

Lemma keeps_as_leads {A : Type} (P : World -> Prop) (m : M A) :
  leads P P m -> keeps P m.
Proof. intros H. exact H. Qed.

Lemma leads_read_self {B : Type} (P R : World -> Prop) (self : loc)
  (k : BindingCurve -> M B) :
  (forall w, P w -> R w) ->
  (forall b,
     leads (fun w => P w /\ heap w !! self = Some (OBindingCurve b)) R (k b)) ->
  leads P R (bind (read_self self) k).
Proof.
  intros HPR Hk w Hw. unfold bind, read_self.
  destruct (heap w !! self) as [[| | b] |] eqn:Hb; simpl;
    try (apply HPR, Hw).
  apply Hk. split; assumption.
Qed.

Lemma leads_from_option {A B : Type} (P R : World -> Prop) (e : Exception)
  (o : option A) (k : A -> M B) :
  (forall w, P w -> R w) ->
  (forall x, o = Some x -> leads P R (k x)) ->
  leads P R (bind (from_option e o) k).
Proof.
  intros HPR Hk w Hw. destruct o as [x |]; simpl.
  - apply (Hk x eq_refl), Hw.
  - apply HPR, Hw.
Qed.

Section Traces.

Variable self : loc.

Lemma traces_within_weaken dc dl w :
  traces_within self dc dl w -> traces_within self 0 0 w.
Proof.
  intros H l b Hl. destruct (H l b Hl) as [Hc Hlines].
  split; [destruct (decide (l = self)); lia |].
  intros a Ha. specialize (Hlines a Ha). destruct (decide (l = self)); lia.
Qed.

Lemma traces_within_write dc dl dc' dl' w b0 b1 :
  traces_within self dc dl w ->
  heap w !! self = Some (OBindingCurve b0) ->
  _num_added_traces b1 + dc' <= length (curves w) ->
  (forall a, axes b1 = Some a ->
             length (Plt.lines a) + dl' <= _num_added_traces b1) ->
  traces_within self dc' dl'
    (with_heap (<[self := OBindingCurve b1]> (heap w)) w).
Proof.
  intros H Hb Hc Hlines l b Hl. cbn [heap with_heap curves] in *.
  destruct (decide (l = self)) as [-> | Hne].
  - rewrite list_lookup_insert_eq in Hl by (eapply lookup_lt_Some, Hb).
    injection Hl as <-. split; assumption.
  - rewrite list_lookup_insert_ne in Hl by congruence.
    destruct (H l b Hl) as [Hc' Hl']. destruct (decide (l = self)); [done |].
    split; assumption.
Qed.

Lemma keeps_traces_update dc dl (f : BindingCurve -> BindingCurve) :
  (forall b, _num_added_traces (f b) = _num_added_traces b) ->
  (forall b a, axes (f b) = Some a ->
               exists a0, axes b = Some a0 /\
                          length (Plt.lines a) <= length (Plt.lines a0)) ->
  keeps (traces_within self dc dl) (update_self self f).
Proof.
  intros Hn Ha w H. unfold update_self, bind, read_self.
  destruct (heap w !! self) as [[| | b] |] eqn:Hb; try exact H.
  simpl. pose proof (H self b Hb) as [Hc Hlines].
  destruct (decide (self = self)); [| done].
  apply (traces_within_write dc dl _ _ _ b); try assumption.
  - rewrite Hn. exact Hc.
  - intros a Hfa. rewrite Hn. destruct (Ha b a Hfa) as (a0 & Ha0 & Hle).
    specialize (Hlines a0 Ha0). lia.
Qed.

Lemma keeps_traces_on_axes dc dl (g : Plt.Axes -> Plt.Axes) :
  (forall a, Plt.lines (g a) = Plt.lines a) ->
  keeps (traces_within self dc dl) (on_axes self g).
Proof.
  intros Hg w H. unfold on_axes, bind, read_self.
  destruct (heap w !! self) as [[| | b] |] eqn:Hb; try exact H.
  destruct (axes b) as [a |] eqn:Ha; [| exact H].
  simpl. pose proof (H self b Hb) as [Hc Hlines].
  destruct (decide (self = self)); [| done].
  apply (traces_within_write dc dl _ _ _ b); try assumption.
  intros a' [= <-]. rewrite Hg. apply Hlines, Ha.
Qed.

Lemma keeps_traces_pyplot dc dl (f : World -> list Plt.Event) :
  keeps (traces_within self dc dl) (modify (fun w => with_pyplot (f w) w)).
Proof. apply keeps_modify. intros w Hw. exact Hw. Qed.

Lemma keeps_traces__initialize_plot dc :
  keeps (traces_within self dc 0) (_initialize_plot self).
Proof.
  unfold _initialize_plot.
  apply keeps_bind; [apply keeps_read_self | intros b].
  destruct (fig b); [apply keeps_ret |].
  apply keeps_bind; [apply keeps_traces_pyplot | intros _].
  apply keeps_bind; [| intros _].
  { intros w H. unfold update_self, bind, read_self.
    destruct (heap w !! self) as [[| | b0] |] eqn:Hb; try exact H.
    simpl. pose proof (H self b0 Hb) as [Hc Hlines].
    destruct (decide (self = self)); [| done].
    apply (traces_within_write dc 0 _ _ _ b0); try assumption.
    intros a [= <-]. simpl. lia. }
  repeat first
    [ apply keeps_traces_pyplot
    | apply keeps_traces_on_axes; intros ?; reflexivity
    | apply keeps_bind; [| intros ?] ].
Qed.

Lemma keeps_traces_report dc dl {A : Type} (d : Diagnostic) :
  keeps (traces_within self dc dl) (@report A d).
Proof. apply keeps_report. intros w s Hw. exact Hw. Qed.

Lemma leads_traces_append (cv : _Curve) :
  leads (traces_within self 0 0) (traces_within self 1 0)
    (modify (fun w => with_curves (curves w ++ [cv]) w)).
Proof.
  intros w H l b Hl. cbn [snd modify heap with_curves curves] in *.
  destruct (H l b Hl) as [Hc Hlines]. rewrite length_app. cbn [length].
  split; [destruct (decide (l = self)); lia |].
  intros a Ha. specialize (Hlines a Ha). destruct (decide (l = self)); lia.
Qed.

Lemma leads_traces_count :
  leads (traces_within self 1 0) (traces_within self 0 1)
    (update_self self (fun b =>
       set_num_added_traces (_num_added_traces b + 1) b)).
Proof.
  intros w H. unfold update_self, bind, read_self.
  destruct (heap w !! self) as [[| | b] |] eqn:Hb;
    try (simpl; intros l b' Hl; pose proof (H l b' Hl) as HH;
         destruct (decide (l = self)) as [-> | Hne];
         [congruence | exact HH]).
  simpl. pose proof (H self b Hb) as [Hc Hlines].
  destruct (decide (self = self)); [| done].
  apply (traces_within_write 1 0 _ _ _ b); try assumption.
  - simpl. lia.
  - intros a Ha. simpl in *. specialize (Hlines a Ha). lia.
Qed.

Lemma leads_traces_line (b : BindingCurve) (a : Plt.Axes) (L : Plt.Line) :
  axes b = Some a ->
  leads (fun w => traces_within self 0 1 w /\
                  heap w !! self = Some (OBindingCurve b))
    (traces_within self 0 0)
    (write_self self (set_axes (Plt.add_line L a) b)).
Proof.
  intros Ha w [H Hb]. cbn [snd write_self modify].
  pose proof (H self b Hb) as [Hc Hlines].
  destruct (decide (self = self)); [| done].
  apply (traces_within_write 0 1 _ _ _ b); try assumption.
  intros a' [= <-]. simpl. rewrite length_app. simpl.
  specialize (Hlines a Ha). lia.
Qed.

End Traces.

(** X20: [add_curve] keeps the counters in step, whatever its arguments
    and whatever its outcome.  If, before the call, every accumulator in
    the store had counted no more curves than the shared curve list
    holds, and showed no more lines than it had counted, then the same
    is true after the call, also when the call fails half-way: the curve
    is appended before the counter is incremented, and the counter is
    incremented before the line is drawn. *)
Theorem add_curve_trace_invariant (self : loc) (parameters : dict loc)
  (readout curve_name : option string) (w : World) :
  trace_invariant w ->
  trace_invariant (add_curve self parameters readout curve_name w).2.
Proof.
  revert w.
  assert (Hin : forall w, trace_invariant w -> traces_within self 0 0 w).
  { intros w H l b Hl. destruct (H l b Hl) as [Hc Hlines].
    split; [destruct (decide (l = self)); lia |].
    intros a Ha. specialize (Hlines a Ha).
    destruct (decide (l = self)); lia. }
  assert (Hout : forall w, traces_within self 0 0 w -> trace_invariant w).
  { intros w H l b Hl. destruct (H l b Hl) as [Hc Hlines].
    split; [destruct (decide (l = self)); lia |].
    intros a Ha. specialize (Hlines a Ha).
    destruct (decide (l = self)); lia. }
  intros w Hw. apply Hout. revert w Hw. intros w Hw. apply Hin in Hw.
  revert w Hw.
  refine (_ : leads (traces_within self 0 0) (traces_within self 0 0) _).
  unfold add_curve.
  apply keeps_bind; [apply keeps_read_self | intros b].
  destruct (system b) as [sys |]; [| apply keeps_traces_report].
  apply keeps_bind; [apply keeps_traces__initialize_plot | intros _].
  apply keeps_bind; [apply keeps_from_option | intros changing].
  destruct (negb _); [apply keeps_traces_report |].
  apply keeps_bind; [apply keeps_get_world | intros w0].
  apply keeps_bind; [apply keeps_from_query | intros y].
  apply keeps_bind; [apply keeps_from_option | intros p0].
  apply keeps_bind; [apply keeps_from_option | intros x].
  apply keeps_as_leads.
  apply (leads_bind _ (traces_within self 1 0));
    [apply leads_traces_append | apply traces_within_weaken | intros _].
  apply (leads_bind _ (traces_within self 1 0));
    [apply keeps_traces_update;
       [reflexivity | intros b0 a Ha; exists a; split; [exact Ha | lia]]
    | apply traces_within_weaken | intros _].
  apply (leads_bind _ (traces_within self 1 0));
    [apply keeps_traces_update;
       [reflexivity | intros b0 a Ha; exists a; split; [exact Ha | lia]]
    | apply traces_within_weaken | intros _].
  apply (leads_bind _ (traces_within self 0 1));
    [apply leads_traces_count | apply traces_within_weaken | intros _].
  apply leads_read_self; [apply traces_within_weaken | intros b3].
  apply leads_from_option;
    [intros w [H _]; apply (traces_within_weaken _ _ _ _ H) | intros a Ha].
  apply leads_from_option;
    [intros w [H _]; apply (traces_within_weaken _ _ _ _ H) | intros colour _].
  apply (leads_bind _ (traces_within self 0 0)); [| trivial | intros _].
  { destruct (Plt.plottable x y); [apply leads_traces_line, Ha |].
    intros w [H _]. apply (traces_within_weaken _ _ _ _ H). }
  repeat first
    [ apply keeps_from_option | apply keeps_read_self
    | apply keeps_traces_update;
        [reflexivity | intros b0 a0 Ha0; exists a0; split; [exact Ha0 | lia]]
    | apply keeps_bind; [| intros ?] ].
Qed.

Lemma add_curve_trace_invariant_witness :
  trace_invariant Sample.one_instance /\
  trace_invariant
    (add_curve 0 (Sample.sweep [1; 2]%float) (Some "pl") None
       Sample.one_instance).2.
Proof.
  assert (H : trace_invariant Sample.one_instance).
  { intros l b Hl. destruct l as [| l]; [| discriminate Hl].
    injection Hl as <-. split; [vm_compute; lia |].
    intros a Ha. discriminate Ha. }
  split; [exact H |].
  apply (add_curve_trace_invariant 0 (Sample.sweep [1; 2]%float) (Some "pl")
           None Sample.one_instance H).
Defined.
